(** * Career-Assistant: scoring pipeline, rule engine and model gateway

    A shallow embedding of the deterministic core of the Career-Assistant
    repository:

    - [utils/ats_rules.py]            (module [ATSRules])
    - [models/openai_handler.py],
      [models/anthropic_handler.py],
      [models/model_manager.py]       (module [Gateway])
    - [agents/primary_agents/cv_matcher.py] (module [CVMatcher])
    - [core/quality_metrics.py],
      [agents/coordinator.py]         (module [Quality])
    - [core/workflow_manager.py]      (module [Workflow])

    and, for the further properties at the end of the file,

    - [models/model_manager.py], text completions (module [GatewayText])
    - [core/quality_metrics.py], domain scores and priorities
                                      (module [QualityMetrics])
    - [agents/coordinator.py], standards and recommendations
                                      (module [Coordinator])
    - [agents/primary_agents/cv_matcher.py], confidence and
      recommendations                 (module [CVMatcherReport])
    - [utils/document_processor.py]   (module [DocumentProcessor])
    - [core/workflow_manager.py], input checks (module [WorkflowInputs])
    - [utils/text_analyzer.py]        (module [TextAnalyzer])
    - [agents/primary_agents/cv_analyzer.py], ATS check
                                      (module [CVAnalyzer])
    - [agents/primary_agents/job_analyzer.py] (module [JobAnalyzer])
    - [agents/quality_agents/ats_validator.py] (module [ATSValidator])

    The modules [Binary64], [CVMatcher64] and [Quality64] hold the
    arithmetic of IEEE doubles and, over it, the matcher and the two
    overall aggregations; [SkillsSpec] holds the skills match in the
    words of the specification, [Samples] and [ValidatorSamples] the
    inputs of the worked examples. The properties follow the
    definitions, claim by claim.

    Conventions of the embedding.

    - Python [str] is [string]; the character predicates are the ASCII
      restrictions of [str.lower], [str.isalnum], [str.isspace] and
      [str.isdigit], and a property that rests on them is stated for
      ASCII text ([PyStr.isascii]).
    - A Python [int] is [Z]. The [float] scores are modelled twice. The
      modules [CVMatcher], [Quality] and those of the further properties
      compute with exact rationals [Q], where [round(x, 2)] is rounding
      to the nearest hundredth, ties to even; their properties are
      bounds, orders and case distinctions. The modules [CVMatcher64]
      and [Quality64] compute as the interpreter does, on doubles
      ([spec_float] at precision 53): every quotient, product and sum is
      rounded to the nearest double in the order of evaluation, and
      [round] works on the double it is given. The properties that fix a
      score to its last digit are stated over the doubles.
    - [json.loads] is a parameter with three outcomes: the document,
      [JSONDecodeError], and [RecursionError] for a document nested too
      deeply.
    - Dynamically typed values (JSON documents, result dictionaries) are
      the inductive [pyval]; a [dict] is an association list in insertion
      order with unique keys.
    - Raising is explicit: fallible code returns [result]; code talking to
      the language-model services runs in a state-and-error monad whose
      state is the log of transport requests issued so far.
    - Logging is not modelled. *)

From Stdlib Require Import Bool List Arith ZArith QArith Qround Lia Lqa Ascii
  String DecimalString SpecFloat.
Import ListNotations.

(* ================================================================== *)
(** * Python strings *)
(* ================================================================== *)

Module PyStr.
Local Open Scope string_scope.

Definition code (c : ascii) : nat := nat_of_ascii c.

Definition between (lo hi n : nat) : bool := (lo <=? n)%nat && (n <=? hi)%nat.

Definition is_upper (c : ascii) : bool := between 65 90 (code c).
Definition is_lower (c : ascii) : bool := between 97 122 (code c).
Definition is_digit (c : ascii) : bool := between 48 57 (code c).

(** [str.isalnum] on one ASCII character. *)
Definition isalnum (c : ascii) : bool := is_upper c || is_lower c || is_digit c.

(** [str.isspace] on one ASCII character: TAB, LF, VT, FF, CR, the four
    separators FS..US and the blank. *)
Definition isspace (c : ascii) : bool :=
  between 9 13 (code c) || between 28 32 (code c).

(** [str.isdigit] on one ASCII character. *)
Definition isdigit (c : ascii) : bool := is_digit c.

(** [s.isascii()]: every character is below 128.  The predicates above
    and [lower] below are those of Python on such strings only. *)
Fixpoint isascii (s : string) : bool :=
  match s with
  | EmptyString => true
  | String c s' => (code c <? 128)%nat && isascii s'
  end.

Definition lower_char (c : ascii) : ascii :=
  if is_upper c then ascii_of_nat (code c + 32) else c.

Fixpoint map_chars (f : ascii -> ascii) (s : string) : string :=
  match s with
  | EmptyString => EmptyString
  | String c s' => String (f c) (map_chars f s')
  end.

Fixpoint filter_chars (p : ascii -> bool) (s : string) : string :=
  match s with
  | EmptyString => EmptyString
  | String c s' => if p c then String c (filter_chars p s') else filter_chars p s'
  end.

(** [s.lower()] *)
Definition lower (s : string) : string := map_chars lower_char s.

(** [needle in hay] for two strings. *)
Fixpoint contains (needle hay : string) : bool :=
  prefix needle hay ||
  match hay with
  | EmptyString => false
  | String _ hay' => contains needle hay'
  end.

(** [s.startswith(p)] *)
Definition startswith (p s : string) : bool := prefix p s.

Fixpoint drop (n : nat) (s : string) : string :=
  match n, s with
  | O, _ => s
  | S _, EmptyString => EmptyString
  | S n', String _ s' => drop n' s'
  end.

Fixpoint rev_onto (s acc : string) : string :=
  match s with
  | EmptyString => acc
  | String c s' => rev_onto s' (String c acc)
  end.

Definition rev (s : string) : string := rev_onto s EmptyString.

(** [s.endswith(p)] *)
Definition endswith (p s : string) : bool := prefix (rev p) (rev s).

(** [s[:-n]] for [0 < n]. *)
Definition drop_end (n : nat) (s : string) : string := rev (drop n (rev s)).

Fixpoint lstrip (s : string) : string :=
  match s with
  | EmptyString => EmptyString
  | String c s' => if isspace c then lstrip s' else s
  end.

(** [s.strip()] *)
Definition strip (s : string) : string := rev (lstrip (rev (lstrip s))).

(** [s.split()]: the maximal runs of non-blank characters. [cur] is the
    run being read. *)
Fixpoint split_from (cur s : string) : list string :=
  match s with
  | EmptyString => if eqb cur "" then [] else [cur]
  | String c s' =>
      if isspace c
      then (if eqb cur "" then split_from "" s' else cur :: split_from "" s')
      else split_from (cur ++ String c "") s'
  end.

Definition split (s : string) : list string := split_from "" s.

(** [sep.join(parts)] *)
Definition join (sep : string) (parts : list string) : string := concat sep parts.

(** [s.replace(old, new)] for a non-empty [old]: occurrences are replaced
    left to right and do not overlap. [skip] counts the characters of a
    match that are still to be passed over. *)
Fixpoint replace_from (old new : string) (skip : nat) (s : string) : string :=
  match s with
  | EmptyString => EmptyString
  | String c s' =>
      match skip with
      | S k => replace_from old new k s'
      | O =>
          if prefix old s
          then new ++ replace_from old new (length old - 1) s'
          else String c (replace_from old new 0 s')
      end
  end.

(** [s.replace('', new)]: [new] goes before every character and at the end. *)
Fixpoint replace_empty (new s : string) : string :=
  new ++ match s with
         | EmptyString => EmptyString
         | String c s' => String c (replace_empty new s')
         end.

Definition replace (old new s : string) : string :=
  match old with
  | EmptyString => replace_empty new s
  | _ => replace_from old new 0 s
  end.

(** [s.find(c)] for a one-character needle: the first index, or [-1]. *)
Fixpoint find_from (c : ascii) (i : Z) (s : string) : Z :=
  match s with
  | EmptyString => (-1)%Z
  | String d s' => if Ascii.eqb c d then i else find_from c (i + 1)%Z s'
  end.

Definition find (c : ascii) (s : string) : Z := find_from c 0%Z s.

(** [s.rfind(c)]: the last index, or [-1]. *)
Fixpoint rfind_from (c : ascii) (i last : Z) (s : string) : Z :=
  match s with
  | EmptyString => last
  | String d s' => rfind_from c (i + 1)%Z (if Ascii.eqb c d then i else last) s'
  end.

Definition rfind (c : ascii) (s : string) : Z := rfind_from c 0%Z (-1)%Z s.

(** [s[i:j]] for [0 <= i <= j]. *)
Definition slice (i j : Z) (s : string) : string :=
  substring (Z.to_nat i) (Z.to_nat (j - i)) s.

(** [x in l] for a list of strings. *)
Definition in_list (x : string) (l : list string) : bool :=
  existsb (eqb x) l.

(** [str(n)] for an [int]. *)
Definition of_int (n : Z) : string := NilZero.string_of_int (Z.to_int n).

End PyStr.

(* ================================================================== *)
(** * Python numbers *)
(* ================================================================== *)

Module PyNum.
Local Open Scope Q_scope.

(** [x >= y] *)
Definition geb (x y : Q) : bool := Qle_bool y x.
(** [x > y] *)
Definition gtb (x y : Q) : bool := negb (Qle_bool x y).
(** [x < y] *)
Definition ltb (x y : Q) : bool := negb (Qle_bool y x).

(** Nearest integer, ties to the even one. *)
Definition round_half_even (q : Q) : Z :=
  let f := Qfloor q in
  match Qcompare (q - inject_Z f) (1 # 2) with
  | Lt => f
  | Gt => (f + 1)%Z
  | Eq => if Z.even f then f else (f + 1)%Z
  end.

(** [round(x, 2)] *)
Definition round2 (x : Q) : Q := round_half_even (x * 100) # 100.

End PyNum.

(* ================================================================== *)
(** * utils/ats_rules.py *)
(* ================================================================== *)

Module ATSRules.
Local Open Scope string_scope.
Import PyStr.

(** The three rule tables set up by [ATSRules.__init__] (the fields read
    by the validators). *)
Record format_rules_t := {
  allowed_formats : list string;
  max_file_size_mb : Z
}.

Record structure_rules_t := {
  required_sections : list string;
  recommended_sections : list string;
  section_titles : list (string * list string)
}.

Definition format_rules : format_rules_t := {|
  allowed_formats := [".pdf"; ".docx"];
  max_file_size_mb := 10
|}.

Definition structure_rules : structure_rules_t := {|
  required_sections :=
    ["contact_information"; "professional_experience"; "education"; "skills"];
  recommended_sections := ["summary"; "certifications"; "languages"; "projects"];
  section_titles :=
    [ ("contact",
        ["contact"; "contact information"; "personal information";
         "personal details"; "personal info"]);
      ("experience",
        ["experience"; "work experience"; "professional experience";
         "work history"; "employment history"; "professional background"]);
      ("education",
        ["education"; "academic background"; "qualifications";
         "academic qualifications"; "educational background"]);
      ("skills",
        ["skills"; "technical skills"; "competencies"; "key skills";
         "core competencies"; "professional skills"]) ]
|}.

(** The value both validators return: [{'valid': ..., 'issues': ...}]. *)
Record validation := { valid : bool; issues : list string }.

Definition unsupported_format_msg : string :=
  "Unsupported format. Use " ++ join ", " (allowed_formats format_rules).

Definition file_too_large_msg : string :=
  "File too large. Maximum size is " ++ of_int (max_file_size_mb format_rules) ++ "MB".

Definition validate_format (file_format : string) (file_size_mb : Q) : validation :=
  let issues : list string := [] in
  let issues :=
    if negb (in_list (lower file_format) (allowed_formats format_rules))
    then (issues ++ [unsupported_format_msg])%list else issues in
  let issues :=
    if PyNum.gtb file_size_mb (inject_Z (max_file_size_mb format_rules))
    then (issues ++ [file_too_large_msg])%list else issues in
  {| valid := (List.length issues =? 0)%nat; issues := issues |}.

(** The abbreviation table of [_normalize_section_title], in the order the
    loop visits it. *)
Definition replacements : list (string * string) :=
  [ ("edu", "education"); ("academic", "education");
    ("qualification", "education"); ("exp", "experience");
    ("professional", "experience"); ("employment", "experience");
    ("work", "experience"); ("comp", "competencies"); ("tech", "technical") ].

Definition _normalize_section_title (title : string) : string :=
  let normalized :=
    lower (filter_chars (fun c => isalnum c || isspace c) title) in
  let normalized := join " " (split normalized) in
  fold_left
    (fun normalized (r : string * string) =>
       let (old, new) := r in
       if contains old normalized then replace old new normalized else normalized)
    replacements normalized.

(** [next((stype for stype, variants in section_titles.items()
           if required.replace('_', '') in stype), None)] *)
Definition section_type_of (required : string) : option string :=
  option_map fst
    (List.find (fun kv : string * list string => contains (replace "_" "" required) (fst kv))
       (section_titles structure_rules)).

(** [self.structure_rules['section_titles'][section_type]]; the key is
    always one found by [section_type_of]. *)
Definition titles_of (section_type : string) : list string :=
  match List.find (fun kv : string * list string => eqb (fst kv) section_type)
          (section_titles structure_rules) with
  | Some kv => snd kv
  | None => []
  end.

(** One turn of the loop over the required sections. *)
Definition check_required (normalized_sections : list string)
    (issues : list string) (required : string) : list string :=
  match section_type_of required with
  | Some section_type =>
      if eqb section_type "" then issues
      else
        let variants := map _normalize_section_title (titles_of section_type) in
        if negb (existsb
                   (fun variant =>
                      existsb (fun section => contains variant section)
                        normalized_sections)
                   variants)
        then (issues ++ [("Missing required section: " ++ required)%string])%list
        else issues
  | None => issues
  end.

Definition validate_structure (sections : list string) : validation :=
  let normalized_sections := map _normalize_section_title sections in
  let issues :=
    fold_left (check_required normalized_sections)
      (required_sections structure_rules) [] in
  {| valid := (List.length issues =? 0)%nat; issues := issues |}.

End ATSRules.

(* ================================================================== *)
(** * Dynamically typed values, exceptions *)
(* ================================================================== *)

Module Py.
Local Open Scope string_scope.

(** The values [json.loads] produces, which are also the values the agents
    pass around in their result dictionaries. *)
#[local] Set Warnings "-register-all".
Inductive pyval : Type :=
| PNone
| PBool (b : bool)
| PInt (z : Z)
| PFloat (q : Q)
| PStr (s : string)
| PList (l : list pyval)
| PDict (d : list (string * pyval)).

(** The exception classes the modelled code raises or tells apart.
    [JSONDecodeError] is a subclass of [ValueError]; every class is a
    subclass of [Exception]. *)
Inductive exn : Type :=
| Exception (msg : string)
| JSONDecodeError
| ValueError (msg : string)
| TypeError
| AttributeError
| KeyError (key : string)
| ZeroDivisionError
| RecursionError
| OverflowError.

Inductive result (A : Type) : Type :=
| Ok (a : A)
| Raise (e : exn).
Arguments Ok {A} a.
Arguments Raise {A} e.

Definition rbind {A B} (r : result A) (k : A -> result B) : result B :=
  match r with
  | Ok a => k a
  | Raise e => Raise e
  end.

Declare Scope result_scope.
Delimit Scope result_scope with res.
Notation "x <-- r ;; k" := (rbind r (fun x => k))
  (at level 61, r at next level, right associativity) : result_scope.

(** [isinstance(e, json.JSONDecodeError)] *)
Definition is_json_decode_error (e : exn) : bool :=
  match e with JSONDecodeError => true | _ => false end.

(** [isinstance(e, (json.JSONDecodeError, ValueError))] *)
Definition is_value_error (e : exn) : bool :=
  match e with JSONDecodeError | ValueError _ => true | _ => false end.

(** [isinstance(v, list)] *)
Definition is_list (v : pyval) : bool :=
  match v with PList _ => true | _ => false end.

(** [isinstance(v, dict)] *)
Definition is_dict (v : pyval) : bool :=
  match v with PDict _ => true | _ => false end.

(** ** Dictionaries *)

Definition dict := list (string * pyval).

(** [d.get(k)] as an option; [d[k]] when the key is present. *)
Fixpoint dict_get (k : string) (d : dict) : option pyval :=
  match d with
  | [] => None
  | (k', v) :: d' => if String.eqb k k' then Some v else dict_get k d'
  end.

(** [k in d] *)
Definition dict_has (k : string) (d : dict) : bool :=
  match dict_get k d with Some _ => true | None => false end.

(** [d[k] = v]: an existing key keeps its place, a new one goes last. *)
Fixpoint dict_set (k : string) (v : pyval) (d : dict) : dict :=
  match d with
  | [] => [(k, v)]
  | (k', v') :: d' =>
      if String.eqb k k' then (k, v) :: d' else (k', v') :: dict_set k v d'
  end.

(** [d.keys()] *)
Definition dict_keys (d : dict) : list string := map fst d.

(** [v.get(k, default)]: only a [dict] has the method. *)
Definition py_get (v : pyval) (k : string) (default : pyval) : result pyval :=
  match v with
  | PDict d => Ok (match dict_get k d with Some x => x | None => default end)
  | _ => Raise AttributeError
  end.

(** [v[k]] for a string key. *)
Definition py_item (v : pyval) (k : string) : result pyval :=
  match v with
  | PDict d => match dict_get k d with Some x => Ok x | None => Raise (KeyError k) end
  | _ => Raise TypeError
  end.

(** Truth value of an object in a condition. *)
Definition truthy (v : pyval) : bool :=
  match v with
  | PNone => false
  | PBool b => b
  | PInt z => negb (z =? 0)%Z
  | PFloat q => negb (Qeq_bool q 0)
  | PStr s => negb (String.eqb s "")
  | PList l => negb (Nat.eqb (List.length l) 0)
  | PDict d => negb (Nat.eqb (List.length d) 0)
  end.

(** Truth value of an [Optional[str]] argument. *)
Definition truthy_str (s : option string) : bool :=
  match s with
  | Some s => negb (String.eqb s "")
  | None => false
  end.

End Py.

(* ================================================================== *)
(** * models/: the two provider handlers and the model manager *)
(* ================================================================== *)

Module Gateway.
Local Open Scope string_scope.
Import Py PyStr.

Inductive provider := OpenAI | Anthropic.

(** One call of a provider's client ([client.chat.completions.create] or
    [client.messages.create]) with the arguments the handlers pass. *)
Record request := {
  rq_provider : provider;
  rq_model : string;
  rq_system : option string;
  rq_prompt : string;
  rq_temperature : Q;
  rq_max_tokens : Z
}.

(** What the client call does: it returns the text of the first choice, or
    raises. An OpenAI choice without text content is covered by [Failure]:
    the handler then raises when it strips the response, inside the same
    outer [try], after the same single request. *)
Inductive reply :=
| Text (t : string)
| Failure (e : exn).

(** The schema argument: field name to type hint, in declaration order. *)
Definition schema := dict.

(** [{k: [] if isinstance(v, list) else "" for k, v in output_schema.items()}] *)
Definition default_entries (output_schema : schema) : dict :=
  map (fun kv : string * pyval =>
         (fst kv, if is_list (snd kv) then PList [] else PStr ""))
      output_schema.

Definition default_response (output_schema : schema) : pyval :=
  PDict (default_entries output_schema).

Definition nl : string := String (ascii_of_nat 10) "".

(** ** The monad of code that talks to the services

    The state is the log of the requests issued so far, oldest first; it
    survives a raise. *)
Definition M (A : Type) : Type := list request -> result A * list request.

Definition ret {A} (a : A) : M A := fun log => (Ok a, log).

Definition raise {A} (e : exn) : M A := fun log => (Raise e, log).

Definition bind {A B} (m : M A) (k : A -> M B) : M B :=
  fun log =>
    match m log with
    | (Ok a, log') => k a log'
    | (Raise e, log') => (Raise e, log')
    end.

(** [try: m  except <classes>: handler], where [classes] tells which
    exceptions the clause catches. *)
Definition try_except {A} (m : M A) (classes : exn -> bool) (handler : exn -> M A) : M A :=
  fun log =>
    match m log with
    | (Ok a, log') => (Ok a, log')
    | (Raise e, log') => if classes e then handler e log' else (Raise e, log')
    end.

Definition lift {A} (r : result A) : M A := fun log => (r, log).

Definition any_exception (e : exn) : bool := true.

Declare Scope gateway_scope.
Delimit Scope gateway_scope with gw.
Notation "x <- m ;; k" := (bind m (fun x => k))
  (at level 61, m at next level, right associativity) : gateway_scope.
Local Open Scope gateway_scope.

Section Handlers.

(** The services: the reply to a request may depend on everything asked
    before. *)
Variable backend : list request -> request -> reply.

(** [json.loads]: it returns the document, raises
    [json.JSONDecodeError] on a text that is not one, and raises
    [RecursionError] on a document nested too deeply. *)
Variable json_loads : string -> result pyval.

(** [json.dumps(output_schema, indent=2)] *)
Variable json_dumps : schema -> string.

Definition loads (s : string) : M pyval := lift (json_loads s).

(** The client call itself. *)
Definition create (rq : request) : M string :=
  fun log =>
    (match backend log rq with
     | Text t => Ok t
     | Failure e => Raise e
     end, (log ++ [rq])%list).

(** *** models/openai_handler.py *)

(** [model_configs]: model name to [(max_tokens, temperature)]. *)
Definition openai_model_configs : list (string * (Z * Q)) :=
  [ ("gpt-4o-mini", (4000%Z, 0.7%Q));
    ("gpt-4", (4000%Z, 0.7%Q));
    ("gpt-3.5-turbo", (2000%Z, 0.7%Q)) ].

Fixpoint assoc {V} (k : string) (l : list (string * V)) : option V :=
  match l with
  | [] => None
  | (k', v) :: l' => if String.eqb k k' then Some v else assoc k l'
  end.

(** [x or default] for an optional number. *)
Definition or_Q (x : option Q) (default : Q) : Q :=
  match x with
  | Some q => if Qeq_bool q 0 then default else q
  | None => default
  end.

Definition or_Z (x : option Z) (default : Z) : Z :=
  match x with
  | Some z => if (z =? 0)%Z then default else z
  | None => default
  end.

Definition openai_request (model : string) (prompt : string)
    (system_message : option string) (temperature : option Q)
    (max_tokens : option Z) : request :=
  let config := assoc model openai_model_configs in
  {| rq_provider := OpenAI;
     rq_model := model;
     rq_system := if truthy_str system_message then system_message else None;
     rq_prompt := prompt;
     rq_temperature :=
       or_Q temperature (match config with Some c => snd c | None => 0.7%Q end);
     rq_max_tokens :=
       or_Z max_tokens (match config with Some c => fst c | None => 2000%Z end) |}.

(** [OpenAIHandler.get_completion]: the [except] clause re-raises. *)
Definition openai_get_completion (model : string) (prompt : string)
    (system_message : option string) (temperature : option Q)
    (max_tokens : option Z) : M string :=
  try_except
    (create (openai_request model prompt system_message temperature max_tokens))
    any_exception
    (fun e => raise e).

Definition openai_schema_prompt (prompt : string) (output_schema : schema) : string :=
  prompt ++ nl ++ nl ++
  "Important: Provide your response in valid JSON format following this schema:" ++ nl ++
  json_dumps output_schema ++ nl ++
  "Ensure the response is a properly formatted JSON object with no trailing commas or comments.".

Definition openai_default_system : string :=
  "You are a helpful assistant that always responds with valid JSON matching the requested schema.".

Definition openai_fallback_prompt (prompt : string) (output_schema : schema) : string :=
  prompt ++ nl ++ nl ++
  "CRITICAL: Your response MUST be a valid JSON object. " ++
  "Do not include any additional text, markdown, or explanations. " ++
  "Use exactly this structure:" ++ nl ++ json_dumps output_schema.

Definition openai_fallback_system : string :=
  "You must respond with only valid JSON matching the schema.".

(** Removal of an optional markdown code fence around the response. *)
Definition clean_response (response : string) : string :=
  let cleaned_response := strip response in
  let cleaned_response :=
    if startswith "```json" cleaned_response
    then drop 7 cleaned_response else cleaned_response in
  let cleaned_response :=
    if startswith "```" cleaned_response
    then drop 3 cleaned_response else cleaned_response in
  let cleaned_response :=
    if endswith "```" cleaned_response
    then drop_end 3 cleaned_response else cleaned_response in
  strip cleaned_response.

(** [key not in structured_response] for the value [json.loads] returned. *)
Definition key_missing (key : string) (structured_response : pyval) : result bool :=
  match structured_response with
  | PDict d => Ok (negb (dict_has key d))
  | PList l =>
      Ok (negb (existsb (fun v => match v with PStr s => String.eqb s key | _ => false end) l))
  | PStr s => Ok (negb (contains key s))
  | _ => Raise TypeError
  end.

(** [structured_response[key] = value] *)
Definition set_item (key : string) (value : pyval) (structured_response : pyval) : result pyval :=
  match structured_response with
  | PDict d => Ok (PDict (dict_set key value d))
  | _ => Raise TypeError
  end.

(** The loop [for key in output_schema: if key not in structured_response: ...]. *)
Fixpoint validate_against_schema (output_schema : schema) (structured_response : pyval)
  : result pyval :=
  match output_schema with
  | [] => Ok structured_response
  | (key, hint) :: rest =>
      match key_missing key structured_response with
      | Raise e => Raise e
      | Ok false => validate_against_schema rest structured_response
      | Ok true =>
          match set_item key (if is_list hint then PList [] else PStr "")
                  structured_response with
          | Raise e => Raise e
          | Ok r => validate_against_schema rest r
          end
      end
  end.

Definition openai_get_structured_completion (model : string) (prompt : string)
    (output_schema : schema) (system_message : option string) : M pyval :=
  try_except
    (let schema_prompt := openai_schema_prompt prompt output_schema in
     let system_message :=
       if negb (truthy_str system_message) then Some openai_default_system
       else system_message in
     response <- openai_get_completion model schema_prompt system_message
                   (Some 0.1%Q) None ;;
     try_except
       (structured_response <- loads (clean_response response) ;;
        lift (validate_against_schema output_schema structured_response))
       is_json_decode_error
       (fun _ =>
          let fallback_prompt := openai_fallback_prompt prompt output_schema in
          response <- openai_get_completion model fallback_prompt
                        (Some openai_fallback_system) (Some 0.0%Q) None ;;
          try_except
            (loads (strip response))
            is_json_decode_error
            (fun _ => ret (default_response output_schema))))
    any_exception
    (fun _ => ret (default_response output_schema)).

(** *** models/anthropic_handler.py *)

Definition anthropic_model_configs : list (string * (Z * Q)) :=
  [ ("claude-3-opus-20240229", (4096%Z, 0.7%Q));
    ("claude-3-sonnet-20240229", (4096%Z, 0.7%Q)) ].

(** [AnthropicHandler.get_completion]: an unknown model name makes the
    table lookup raise [KeyError] when a default is needed. *)
Definition anthropic_get_completion (model : string) (prompt : string)
    (system_message : option string) (temperature : option Q)
    (max_tokens : option Z) : M string :=
  try_except
    (let config := assoc model anthropic_model_configs in
     let needs_config :=
       (match max_tokens with Some z => (z =? 0)%Z | None => true end) ||
       (match temperature with Some q => Qeq_bool q 0 | None => true end) in
     match config, needs_config with
     | None, true => raise (KeyError model)
     | _, _ =>
         create
           {| rq_provider := Anthropic;
              rq_model := model;
              rq_system := if truthy_str system_message then system_message else None;
              rq_prompt := prompt;
              rq_temperature :=
                or_Q temperature (match config with Some c => snd c | None => 0 end);
              rq_max_tokens :=
                or_Z max_tokens (match config with Some c => fst c | None => 0%Z end) |}
     end)
    any_exception
    (fun e => raise e).

Definition anthropic_schema_prompt (prompt : string) (output_schema : schema) : string :=
  prompt ++ nl ++ nl ++
  "Please provide the response in the following JSON format: " ++
  json_dumps output_schema ++ nl ++
  "Ensure the response is valid JSON.".

(** The inner [try] block: cut the text from the first opening brace to
    the last closing brace and parse it. *)
Definition anthropic_extract (response : string) : M pyval :=
  let start_idx := find "{"%char response in
  let end_idx := (rfind "}"%char response + 1)%Z in
  if (start_idx >=? 0)%Z && (end_idx >? start_idx)%Z
  then loads (slice start_idx end_idx response)
  else raise (ValueError "No valid JSON found in response").

Definition anthropic_get_structured_completion (model : string) (prompt : string)
    (output_schema : schema) (system_message : option string) : M pyval :=
  try_except
    (let schema_prompt := anthropic_schema_prompt prompt output_schema in
     response <- anthropic_get_completion model schema_prompt system_message
                   (Some 0.3%Q) None ;;
     try_except
       (anthropic_extract response)
       is_value_error
       (fun _ => raise (ValueError "Invalid JSON response from model")))
    any_exception
    (fun e => raise e).

(** What the inner [try] block of the Anthropic handler does with a
    response: the document it returns, or the exception it raises. *)
Definition anthropic_json (response : string) : result pyval :=
  let start_idx := find "{"%char response in
  let end_idx := (rfind "}"%char response + 1)%Z in
  if (start_idx >=? 0)%Z && (end_idx >? start_idx)%Z
  then json_loads (slice start_idx end_idx response)
  else Raise (ValueError "No valid JSON found in response").

(** The first request of a structured completion, per handler, and the
    second request of the OpenAI handler. *)
Definition openai_first_request (model prompt : string) (output_schema : schema)
    (system_message : option string) : request :=
  openai_request model (openai_schema_prompt prompt output_schema)
    (if negb (truthy_str system_message) then Some openai_default_system
     else system_message)
    (Some 0.1%Q) None.

Definition openai_second_request (model prompt : string) (output_schema : schema)
  : request :=
  openai_request model (openai_fallback_prompt prompt output_schema)
    (Some openai_fallback_system) (Some 0.0%Q) None.

Definition anthropic_first_request (prompt : string) (output_schema : schema)
    (system_message : option string) : request :=
  {| rq_provider := Anthropic;
     rq_model := "claude-3-opus-20240229";
     rq_system := if truthy_str system_message then system_message else None;
     rq_prompt := anthropic_schema_prompt prompt output_schema;
     rq_temperature := 0.3%Q;
     rq_max_tokens := 4096%Z |}.

(** *** models/model_manager.py *)

Record model_config_t := {
  default_service : string;
  fallback_order : list string;
  task_preferences : list (string * string)
}.

Definition model_config : model_config_t := {|
  default_service := "openai";
  fallback_order := ["openai"; "anthropic"];
  task_preferences :=
    [ ("cv_analysis", "anthropic");
      ("job_matching", "openai");
      ("ats_optimization", "anthropic") ]
|}.

(** The models of the two handlers [ModelManager.__init__] constructs. *)
Definition openai_model : string := "gpt-4o-mini".
Definition anthropic_model : string := "claude-3-opus-20240229".

(** [self.model_config['task_preferences'].get(task_type, default)] *)
Definition preferred_service (task_type : option string) : string :=
  match task_type with
  | Some t =>
      match assoc t (task_preferences model_config) with
      | Some s => s
      | None => default_service model_config
      end
  | None => default_service model_config
  end.

(** The [if service == 'openai': ... elif service == 'anthropic': ...]
    ladder: [None] when neither branch is taken. *)
Definition dispatch (service : string) (prompt : string) (output_schema : schema)
    (system_message : option string) : option (M pyval) :=
  if String.eqb service "openai"
  then Some (openai_get_structured_completion openai_model prompt output_schema system_message)
  else if String.eqb service "anthropic"
  then Some (anthropic_get_structured_completion anthropic_model prompt output_schema system_message)
  else None.

(** The loop over [fallback_order] inside the [except] clause, followed by
    the terminal raise. *)
Fixpoint fallback_loop (service : string) (order : list string) (prompt : string)
    (output_schema : schema) (system_message : option string) : M pyval :=
  match order with
  | [] => raise (Exception "All services failed")
  | fallback_service :: order' =>
      let continue := fallback_loop service order' prompt output_schema system_message in
      if negb (String.eqb fallback_service service)
      then
        match dispatch fallback_service prompt output_schema system_message with
        | Some call => try_except call any_exception (fun _ => continue)
        | None => continue
        end
      else continue
  end.

(** [ModelManager.get_structured_completion] *)
Definition get_structured_completion (prompt : string) (output_schema : schema)
    (task_type : option string) (system_message : option string) : M pyval :=
  let service := preferred_service task_type in
  try_except
    (match dispatch service prompt output_schema system_message with
     | Some call => call
     | None => ret PNone
     end)
    any_exception
    (fun _ =>
       fallback_loop service (fallback_order model_config) prompt output_schema
         system_message).

End Handlers.

(** Injection of the type defaults into a parsed object, key by key. *)
Definition inject_defaults (output_schema : schema) (d : dict) : dict :=
  fold_left
    (fun d (kv : string * pyval) =>
       if dict_has (fst kv) d then d
       else dict_set (fst kv) (if is_list (snd kv) then PList [] else PStr "") d)
    output_schema d.

Definition is_openai (rq : request) : bool :=
  match rq_provider rq with OpenAI => true | Anthropic => false end.

End Gateway.

(* ================================================================== *)
(** * agents/primary_agents/cv_matcher.py *)
(* ================================================================== *)

Module CVMatcher.
Local Open Scope string_scope.
Local Open Scope Q_scope.
Import Py PyStr PyNum.

(** ** Python sets of JSON values

    A set element is a hashable value up to Python's [==]: [True], [1]
    and [1.0] are one element. Numbers are kept as reduced fractions, so
    that equal elements are identical terms. *)
Inductive hkey : Type :=
| HNone
| HNum (q : Q)
| HStr (s : string).

Definition Q_eq_dec (x y : Q) : {x = y} + {x <> y}.
Proof. decide equality; [apply Pos.eq_dec | apply Z.eq_dec]. Defined.

Definition hkey_eq_dec (x y : hkey) : {x = y} + {x <> y}.
Proof. decide equality; [apply Q_eq_dec | apply string_dec]. Defined.

(** [hash(v)]: lists and dictionaries are unhashable. *)
Definition hash_key (v : pyval) : result hkey :=
  match v with
  | PNone => Ok HNone
  | PBool b => Ok (HNum (if b then 1 else 0))
  | PInt z => Ok (HNum (inject_Z z))
  | PFloat q => Ok (HNum (Qred q))
  | PStr s => Ok (HStr s)
  | PList _ | PDict _ => Raise TypeError
  end.

Fixpoint hash_all (l : list pyval) : result (list hkey) :=
  match l with
  | [] => Ok []
  | v :: l' =>
      match hash_key v with
      | Raise e => Raise e
      | Ok k => match hash_all l' with
                | Raise e => Raise e
                | Ok ks => Ok (k :: ks)
                end
      end
  end.

Definition chars (s : string) : list hkey :=
  map (fun c => HStr (String c "")) (list_ascii_of_string s).

(** [set(v)]: the elements of a list, the characters of a string, the
    keys of a dictionary; anything else is not iterable. The result has
    no repeated element. *)
Definition py_set (v : pyval) : result (list hkey) :=
  match v with
  | PList l => match hash_all l with
               | Ok ks => Ok (nodup hkey_eq_dec ks)
               | Raise e => Raise e
               end
  | PStr s => Ok (nodup hkey_eq_dec (chars s))
  | PDict d => Ok (nodup hkey_eq_dec (map (fun kv : string * pyval => HStr (fst kv)) d))
  | _ => Raise TypeError
  end.

Definition mem (x : hkey) (s : list hkey) : bool :=
  if in_dec hkey_eq_dec x s then true else false.

(** [a.intersection(b)] *)
Definition intersection (a b : list hkey) : list hkey := filter (fun x => mem x b) a.

(** [a - b] *)
Definition difference (a b : list hkey) : list hkey := filter (fun x => negb (mem x b)) a.

(** [len(s)] as a number. *)
Definition len (s : list hkey) : Q := inject_Z (Z.of_nat (List.length s)).

(** ** The matcher *)

Record matching_weights_t := {
  w_required_skills : Q;
  w_experience : Q;
  w_education : Q;
  w_soft_skills : Q
}.

Definition matching_weights : matching_weights_t := {|
  w_required_skills := 0.4;
  w_experience := 0.3;
  w_education := 0.2;
  w_soft_skills := 0.1
|}.

(** [int(digits)] for a string of decimal digits. *)
Definition int_of_digits (digits : string) : Z :=
  fold_left (fun acc c => (acc * 10 + (Z.of_nat (code c) - 48))%Z)
    (list_ascii_of_string digits) 0%Z.

(** [sys.get_int_max_str_digits()]: [int] raises [ValueError] on a text
    of more digits than this. *)
Definition int_max_str_digits : Z := 4300.

(** [_extract_years]; the [ValueError] of [int] is caught and gives 0. *)
Definition _extract_years (value : pyval) : Z :=
  match value with
  | PBool b => if b then 1%Z else 0%Z
  | PInt z => z
  | PFloat q => Z.quot (Qnum q) (Zpos (Qden q))
  | PStr s =>
      let digits := filter_chars isdigit s in
      if String.eqb digits "" then 0%Z
      else if (int_max_str_digits <? Z.of_nat (String.length digits))%Z then 0%Z
      else int_of_digits digits
  | _ => 0%Z
  end.

Record skills_match_t := {
  sm_score : Q;
  matched_required : list hkey;
  matched_preferred : list hkey;
  missing_required : list hkey;
  missing_preferred : list hkey
}.

(** [(len(matches) / len(wanted)) * 100], or [100] for nothing wanted. *)
Definition recall_score (matches wanted : list hkey) : Q :=
  if Nat.eqb (List.length wanted) 0 then 100
  else (len matches / len wanted) * 100.

Local Open Scope result_scope.

(** The [try] block of [_calculate_skills_match]. *)
Definition skills_match_try (cv_analysis job_analysis : pyval) : result skills_match_t :=
  requirements <-- py_get job_analysis "requirements" (PDict []) ;;
  required <-- py_get requirements "required_skills" (PList []) ;;
  required_skills <-- py_set required ;;
  requirements <-- py_get job_analysis "requirements" (PDict []) ;;
  preferred <-- py_get requirements "preferred_skills" (PList []) ;;
  preferred_skills <-- py_set preferred ;;
  skills <-- py_get cv_analysis "skills" (PDict []) ;;
  technical <-- py_get skills "technical_skills" (PList []) ;;
  cv_skills <-- py_set technical ;;
  let required_matches := intersection cv_skills required_skills in
  let preferred_matches := intersection cv_skills preferred_skills in
  let required_score := recall_score required_matches required_skills in
  let preferred_score := recall_score preferred_matches preferred_skills in
  let total_score := (required_score * 0.7) + (preferred_score * 0.3) in
  Ok {| sm_score := round2 total_score;
        matched_required := required_matches;
        matched_preferred := preferred_matches;
        missing_required := difference required_skills cv_skills;
        missing_preferred := difference preferred_skills cv_skills |}.

Definition _calculate_skills_match (cv_analysis job_analysis : pyval) : skills_match_t :=
  match skills_match_try cv_analysis job_analysis with
  | Ok r => r
  | Raise _ =>
      {| sm_score := 0; matched_required := []; matched_preferred := [];
         missing_required := []; missing_preferred := [] |}
  end.

Record experience_match_t := {
  em_score : Q;
  em_cv_years : Z;
  em_required_years : Z;
  em_meets_requirement : bool
}.

Definition experience_match_try (cv_analysis job_analysis : pyval)
  : result experience_match_t :=
  experience <-- py_get cv_analysis "experience" (PDict []) ;;
  years <-- py_get experience "years" (PInt 0) ;;
  let cv_years := _extract_years years in
  requirements <-- py_get job_analysis "requirements" (PDict []) ;;
  wanted <-- py_get requirements "experience" (PInt 0) ;;
  let required_years := _extract_years wanted in
  let score :=
    if (required_years =? 0)%Z then 100
    else if (cv_years >=? required_years)%Z then 100
    else if (required_years >? 0)%Z
         then (inject_Z cv_years / inject_Z required_years) * 100
         else 0 in
  Ok {| em_score := round2 score;
        em_cv_years := cv_years;
        em_required_years := required_years;
        em_meets_requirement := (cv_years >=? required_years)%Z |}.

Definition _calculate_experience_match (cv_analysis job_analysis : pyval)
  : experience_match_t :=
  match experience_match_try cv_analysis job_analysis with
  | Ok r => r
  | Raise _ =>
      {| em_score := 0; em_cv_years := 0; em_required_years := 0;
         em_meets_requirement := false |}
  end.

Definition education_levels : list (string * Z) :=
  [ ("phd", 4%Z); ("doctorate", 4%Z); ("master", 3%Z); ("bachelor", 2%Z);
    ("associate", 1%Z); ("high school", 0%Z) ].

Record education_match_t := {
  ed_score : Q;
  ed_cv_level : Z;
  ed_required_level : Z;
  ed_meets_requirement : bool;
  cv_education : string;
  required_education : string
}.

(** [_get_match_level] *)
Definition _get_match_level (score : Q) : string :=
  if geb score 90 then "Excellent Match"
  else if geb score 75 then "Strong Match"
  else if geb score 60 then "Good Match"
  else if geb score 40 then "Partial Match"
  else "Low Match".

Record overall_match_t := {
  score : Q;
  match_level : string
}.

(** The result of [match_cv_to_job]. Its [confidence] and
    [recommendations] entries are left out: both come from helpers whose
    whole body is a [try] with a default, and neither enters a score. *)
Record match_analysis_t := {
  overall_match : overall_match_t;
  skills_match : skills_match_t;
  experience_match : experience_match_t;
  education_match : education_match_t
}.

Section Matcher.

(** [str(v)] *)
Variable py_str : pyval -> string.

(** The two analysis agents, which consult the model services. *)
Variable analyze_cv : string -> result pyval.
Variable analyze_job : string -> result pyval.

(** The highest level whose name occurs in the text. *)
Definition highest_level (text : string) : Z :=
  fold_left
    (fun level (entry : string * Z) =>
       if contains (fst entry) text then Z.max level (snd entry) else level)
    education_levels 0%Z.

Definition education_match_try (cv_analysis job_analysis : pyval)
  : result education_match_t :=
  requirements <-- py_get job_analysis "requirements" (PDict []) ;;
  wanted <-- py_get requirements "education" (PStr "") ;;
  let required_edu := lower (py_str wanted) in
  held <-- py_get cv_analysis "education" (PStr "") ;;
  let cv_edu := lower (py_str held) in
  let required_level := highest_level required_edu in
  let cv_level := highest_level cv_edu in
  let score :=
    if (required_level =? 0)%Z then 100
    else if (cv_level >=? required_level)%Z then 100
    else if (required_level >? 0)%Z
         then (inject_Z cv_level / inject_Z required_level) * 100
         else 0 in
  Ok {| ed_score := round2 score;
        ed_cv_level := cv_level;
        ed_required_level := required_level;
        ed_meets_requirement := (cv_level >=? required_level)%Z;
        cv_education := cv_edu;
        required_education := required_edu |}.

Definition _calculate_education_match (cv_analysis job_analysis : pyval)
  : education_match_t :=
  match education_match_try cv_analysis job_analysis with
  | Ok r => r
  | Raise _ =>
      {| ed_score := 0; ed_cv_level := 0; ed_required_level := 0;
         ed_meets_requirement := false; cv_education := "";
         required_education := "" |}
  end.

(** [match_cv_to_job]: the [except] clause re-raises. *)
Definition match_cv_to_job (cv_text job_description : string) : result match_analysis_t :=
  cv_analysis <-- analyze_cv cv_text ;;
  job_analysis <-- analyze_job job_description ;;
  let skills_match := _calculate_skills_match cv_analysis job_analysis in
  let experience_match := _calculate_experience_match cv_analysis job_analysis in
  let education_match := _calculate_education_match cv_analysis job_analysis in
  let match_score :=
    sm_score skills_match * w_required_skills matching_weights +
    em_score experience_match * w_experience matching_weights +
    ed_score education_match * w_education matching_weights in
  Ok {| overall_match :=
          {| score := round2 match_score;
             match_level := _get_match_level match_score |};
        skills_match := skills_match;
        experience_match := experience_match;
        education_match := education_match |}.

End Matcher.

End CVMatcher.

(* ================================================================== *)
(** * core/quality_metrics.py and agents/coordinator.py *)
(* ================================================================== *)

Module Quality.
Local Open Scope string_scope.
Local Open Scope Q_scope.
Import Py PyNum.

(** ** QualityMetrics *)

(** [self.quality_thresholds] of [QualityMetrics]. *)
Record quality_thresholds_t := {
  cv_minimum_score : Q;
  letter_minimum_score : Q;
  ats_minimum_score : Q;
  overall_minimum_score : Q
}.

Definition quality_thresholds : quality_thresholds_t := {|
  cv_minimum_score := 75;
  letter_minimum_score := 75;
  ats_minimum_score := 75;
  overall_minimum_score := 75
|}.

(** The local table [weights] of [calculate_overall_quality]. *)
Record overall_weights_t := { weight_cv : Q; weight_letter : Q; weight_ats : Q }.

Definition weights : overall_weights_t :=
  {| weight_cv := 0.4; weight_letter := 0.3; weight_ats := 0.3 |}.

Record overall_quality_t := {
  overall_score : Q;
  component_weights : overall_weights_t;
  meets_threshold : bool;
  component_scores : Q * Q * Q
}.

(** [QualityMetrics.calculate_overall_quality] *)
Definition calculate_overall_quality (cv_score letter_score ats_score : Q)
  : overall_quality_t :=
  let overall_score :=
    cv_score * weight_cv weights +
    letter_score * weight_letter weights +
    ats_score * weight_ats weights in
  let meets_threshold := geb overall_score (overall_minimum_score quality_thresholds) in
  {| overall_score := round2 overall_score;
     component_weights := weights;
     meets_threshold := meets_threshold;
     component_scores := (cv_score, letter_score, ats_score) |}.

(** ** Coordinator *)

(** [self.quality_weights] of [Coordinator]. *)
Record quality_weights_t := {
  ats_compliance : Q;
  cv_quality : Q;
  letter_quality : Q
}.

Definition quality_weights : quality_weights_t :=
  {| ats_compliance := 0.4; cv_quality := 0.4; letter_quality := 0.2 |}.

(** The number an entry of a result dictionary stands for in [v * w];
    a value that is not a number cannot be multiplied by a float. *)
Definition number (v : pyval) : result Q :=
  match v with
  | PBool b => Ok (if b then 1 else 0)
  | PInt z => Ok (inject_Z z)
  | PFloat q => Ok q
  | _ => Raise TypeError
  end.

Record aggregated_t := {
  agg_overall_score : Q;
  agg_component_scores : pyval * pyval * pyval
}.

Local Open Scope result_scope.

(** [Coordinator._aggregate_results]: the [except] clause re-raises. *)
Definition _aggregate_results (ats_results cv_results letter_results : pyval)
  : result aggregated_t :=
  a <-- py_item ats_results "overall_score" ;;
  a <-- number a ;;
  let ats_score := a * ats_compliance quality_weights in
  c <-- py_item cv_results "overall_score" ;;
  c <-- number c ;;
  let cv_score := c * cv_quality quality_weights in
  l <-- py_item letter_results "overall_score" ;;
  l <-- number l ;;
  let letter_score := l * letter_quality quality_weights in
  let overall_score := round2 (ats_score + cv_score + letter_score) in
  a' <-- py_item ats_results "overall_score" ;;
  c' <-- py_item cv_results "overall_score" ;;
  l' <-- py_item letter_results "overall_score" ;;
  Ok {| agg_overall_score := overall_score;
        agg_component_scores := (a', c', l') |}.

(** A result dictionary whose only entry is its overall score. *)
Definition scored (x : Q) : pyval := PDict [("overall_score", PFloat x)].

(** The numeric overall score of a result dictionary, when it has one. *)
Definition overall_of (results : pyval) : result Q :=
  rbind (py_item results "overall_score") number.

End Quality.

(* ================================================================== *)
(** * core/workflow_manager.py *)
(* ================================================================== *)

Module Workflow.
Local Open Scope string_scope.
Import Py PyNum.

(** [self.workflow_states]: stage name to flag, in declaration order. *)
Definition states := list (string * bool).

Definition initial_states : states :=
  [ ("document_processing", false);
    ("initial_analysis", false);
    ("optimization", false);
    ("letter_generation", false);
    ("quality_check", false) ].

(** [self.workflow_states[step] = flag] *)
Fixpoint set_state (step : string) (flag : bool) (s : states) : states :=
  match s with
  | [] => [(step, flag)]
  | (k, v) :: s' =>
      if String.eqb step k then (k, flag) :: s' else (k, v) :: set_state step flag s'
  end.

Fixpoint get_state (step : string) (s : states) : option bool :=
  match s with
  | [] => None
  | (k, v) :: s' => if String.eqb step k then Some v else get_state step s'
  end.

(** [_reset_workflow_states] *)
Definition _reset_workflow_states (s : states) : states :=
  map (fun kv : string * bool => (fst kv, false)) s.

Record workflow_status_t := {
  completed_steps : Z;
  total_steps : Z;
  completion_percentage : Q;
  step_status : list (string * (bool * Z))
}.

Fixpoint enumerate_from {A} (idx : Z) (l : list A) : list (Z * A) :=
  match l with
  | [] => []
  | x :: l' => (idx, x) :: enumerate_from (idx + 1) l'
  end.

(** [get_workflow_status] *)
Definition get_workflow_status (s : states) : result workflow_status_t :=
  let completed_steps :=
    Z.of_nat (List.length (filter (fun kv : string * bool => snd kv) s)) in
  let total_steps := Z.of_nat (List.length s) in
  if (total_steps =? 0)%Z then Raise ZeroDivisionError
  else
    Ok {| completed_steps := completed_steps;
          total_steps := total_steps;
          completion_percentage :=
            round2 ((inject_Z completed_steps / inject_Z total_steps) * 100)%Q;
          step_status :=
            map (fun e : Z * (string * bool) =>
                   (fst (snd e), (snd (snd e), (fst e + 1)%Z)))
                (enumerate_from 0 s) |}.

(** The workflow methods thread the flags; a raise keeps the flags set so
    far. *)
Definition W (A : Type) : Type := states -> result A * states.

Definition wret {A} (a : A) : W A := fun s => (Ok a, s).
Definition wraise {A} (e : exn) : W A := fun s => (Raise e, s).
Definition wbind {A B} (m : W A) (k : A -> W B) : W B :=
  fun s =>
    match m s with
    | (Ok a, s') => k a s'
    | (Raise e, s') => (Raise e, s')
    end.
Definition wlift {A} (r : result A) : W A := fun s => (r, s).
Definition mark (step : string) : W unit := fun s => (Ok tt, set_state step true s).
Definition reset : W unit := fun s => (Ok tt, _reset_workflow_states s).
Definition status : W workflow_status_t := fun s => (get_workflow_status s, s).

Declare Scope workflow_scope.
Delimit Scope workflow_scope with wf.
Notation "x <~ m ;; k" := (wbind m (fun x => k))
  (at level 61, m at next level, right associativity) : workflow_scope.
Local Open Scope workflow_scope.

Record final_results_t := {
  original_cv_content : pyval;
  original_cv_analysis : pyval;
  job_analysis : pyval;
  initial_match : pyval;
  optimized_cv : pyval;
  optimization_details : pyval;
  cover_letter : pyval;
  quality_assessment : pyval;
  workflow_status : workflow_status_t
}.

Section Manager.

(** [str(v)], used in the message of the one exception raised here. *)
Variable py_str : pyval -> string.

(** The components [WorkflowManager.__init__] constructs; each call
    returns a value or raises. *)
Variable process_document : string -> result pyval.
Variable analyze_cv : pyval -> result pyval.
Variable analyze_job : string -> result pyval.
Variable match_cv_to_job : pyval -> string -> result pyval.
Variable optimize_cv : pyval -> string -> result pyval.
Variable generate_cover_letter : pyval -> string -> string -> result pyval.
Variable assess_application_quality :
  pyval -> pyval -> string -> string -> option string -> result pyval.

(** [process_application]: the [except] clause re-raises. *)
Definition process_application (cv_file_path job_description company_name : string)
    (industry : option string) (generate_letter : bool) : W final_results_t :=
  _ <~ reset ;;
  cv_result <~ wlift (process_document cv_file_path) ;;
  success <~ wlift (py_item cv_result "success") ;;
  _ <~ (if negb (truthy success)
        then (err <~ wlift (py_item cv_result "error") ;;
              wraise (ValueError ("Failed to process CV: " ++ py_str err)))
        else wret tt) ;;
  cv_text <~ wlift (py_item cv_result "content") ;;
  _ <~ mark "document_processing" ;;
  cv_analysis <~ wlift (analyze_cv cv_text) ;;
  job_analysis <~ wlift (analyze_job job_description) ;;
  initial_match <~ wlift (match_cv_to_job cv_text job_description) ;;
  _ <~ mark "initial_analysis" ;;
  optimization_result <~ wlift (optimize_cv cv_text job_description) ;;
  optimized_cv <~ wlift (py_item optimization_result "optimized_cv") ;;
  _ <~ mark "optimization" ;;
  letter_text <~ (if generate_letter
                  then (letter_result <~ wlift (generate_cover_letter optimized_cv
                                                  job_description company_name) ;;
                        letter_text <~ wlift (py_item letter_result "letter") ;;
                        _ <~ mark "letter_generation" ;;
                        wret letter_text)
                  else wret PNone) ;;
  quality_report <~ wlift (assess_application_quality optimized_cv
                             (if truthy letter_text then letter_text else PStr "")
                             job_description company_name industry) ;;
  _ <~ mark "quality_check" ;;
  workflow_status <~ status ;;
  wret {| original_cv_content := cv_text;
          original_cv_analysis := cv_analysis;
          job_analysis := job_analysis;
          initial_match := initial_match;
          optimized_cv := optimized_cv;
          optimization_details := optimization_result;
          cover_letter := if truthy letter_text then letter_text else PNone;
          quality_assessment := quality_report;
          workflow_status := workflow_status |}.

End Manager.

End Workflow.

(* ================================================================== *)
(** * The score formulas on IEEE doubles *)
(* ================================================================== *)

Module Binary64.

Definition prec : Z := 53.
Definition emax : Z := 1024.

(** The double of an integer below [2^53]. *)
Definition of_Z (z : Z) : spec_float := binary_normalize prec emax z 0 false.

Definition mul : spec_float -> spec_float -> spec_float := SFmul prec emax.
Definition add : spec_float -> spec_float -> spec_float := SFadd prec emax.
Definition div : spec_float -> spec_float -> spec_float := SFdiv prec emax.
Definition ltb : spec_float -> spec_float -> bool := SFltb.
Definition geb (x y : spec_float) : bool := SFleb y x.

(** The double a decimal literal [n / scale] denotes: the one nearest to
    the quotient. *)
Definition dec (n scale : Z) : spec_float := div (of_Z n) (of_Z scale).

(** [match_score] of [CVMatcher.match_cv_to_job], before [round]. *)
Definition match_score (skills experience education : spec_float) : spec_float :=
  add (add (mul skills (dec 4 10)) (mul experience (dec 3 10)))
      (mul education (dec 2 10)).

(** [overall_score] of [QualityMetrics.calculate_overall_quality], before
    [round]. *)
Definition overall_score (cv letter ats : spec_float) : spec_float :=
  add (add (mul cv (dec 4 10)) (mul letter (dec 3 10))) (mul ats (dec 3 10)).

(** The sum [Coordinator._aggregate_results] rounds. *)
Definition aggregate_score (ats cv letter : spec_float) : spec_float :=
  add (add (mul ats (dec 4 10)) (mul cv (dec 4 10))) (mul letter (dec 2 10)).

(** [(matches / wanted) * 100] of [CVMatcher._calculate_skills_match]. *)
Definition recall_score (matches wanted : Z) : spec_float :=
  if (wanted =? 0)%Z then of_Z 100
  else mul (div (of_Z matches) (of_Z wanted)) (of_Z 100).

(** [total_score] of [CVMatcher._calculate_skills_match], before [round]. *)
Definition skills_total (required_score preferred_score : spec_float) : spec_float :=
  add (mul required_score (dec 7 10)) (mul preferred_score (dec 3 10)).

(** [(completed_steps / total_steps) * 100] of [get_workflow_status]. *)
Definition completion (completed_steps total_steps : Z) : spec_float :=
  mul (div (of_Z completed_steps) (of_Z total_steps)) (of_Z 100).

(** An integer as it stands, before any rounding. *)
Definition exact_Z (z : Z) : spec_float :=
  match z with
  | Z0 => S754_zero false
  | Zpos p => S754_finite false p 0
  | Zneg p => S754_finite true p 0
  end.

(** The double nearest to the quotient of two integers: what [a / b]
    gives for two [int], and what a decimal literal denotes. *)
Definition div_int (a b : Z) : spec_float := SFdiv prec emax (exact_Z a) (exact_Z b).

Definition is_infinite (x : spec_float) : bool :=
  match x with S754_infinity _ => true | _ => false end.

(** The number a finite double is. *)
Definition to_Q (x : spec_float) : Q :=
  match x with
  | S754_finite s m e =>
      let v := match e with
               | Z0 => Zpos m # 1
               | Zpos p => (Zpos m * 2 ^ Zpos p) # 1
               | Zneg p => Zpos m # (2 ^ p)
               end in
      if s then - v else v
  | _ => 0
  end.

(** The double nearest to a rational: what a decimal text denotes, and
    the double itself when the rational is one. *)
Definition of_Q (q : Q) : spec_float := div_int (Qnum q) (Zpos (Qden q)).

(** [round(x, 2)] for a [float]: the number the double is, rounded to
    the nearest hundredth, ties to the even one, and then the double
    nearest to that; a zero result keeps the sign; an infinity or a NaN
    is returned as it is. *)
Definition round2 (x : spec_float) : spec_float :=
  match x with
  | S754_finite s _ _ =>
      let n := PyNum.round_half_even (to_Q x * 100) in
      if (n =? 0)%Z then S754_zero s else div_int n 100
  | _ => x
  end.

End Binary64.

(* ================================================================== *)
(** * The scores on doubles

    The matcher and the two overall aggregations with the arithmetic the
    interpreter performs: every product, quotient and sum is rounded to
    the nearest double, and [round] works on the double it is given. *)
(* ================================================================== *)

Module CVMatcher64.
Local Open Scope string_scope.
Local Open Scope result_scope.
Import Py PyStr.
Import CVMatcher (hkey, py_set, intersection, difference, _extract_years,
                  highest_level).

(** [self.matching_weights], as the doubles the literals denote. *)
Record matching_weights_t := {
  w_required_skills : spec_float;
  w_experience : spec_float;
  w_education : spec_float;
  w_soft_skills : spec_float
}.

Definition matching_weights : matching_weights_t := {|
  w_required_skills := Binary64.dec 4 10;
  w_experience := Binary64.dec 3 10;
  w_education := Binary64.dec 2 10;
  w_soft_skills := Binary64.dec 1 10
|}.

(** [len(s)] *)
Definition len (s : list hkey) : Z := Z.of_nat (List.length s).

(** [a / b] for two [int] with [b] not zero: the quotient is rounded
    once, and a quotient too large for a double raises. *)
Definition true_div (a b : Z) : result spec_float :=
  let q := Binary64.div_int a b in
  if Binary64.is_infinite q then Raise OverflowError else Ok q.

Record skills_match_t := {
  sm_score : spec_float;
  matched_required : list hkey;
  matched_preferred : list hkey;
  missing_required : list hkey;
  missing_preferred : list hkey
}.

(** [(len(matches) / len(wanted)) * 100], or [100] for nothing wanted. *)
Definition recall_score (matches wanted : list hkey) : spec_float :=
  if (len wanted =? 0)%Z then Binary64.of_Z 100
  else Binary64.mul (Binary64.div_int (len matches) (len wanted)) (Binary64.of_Z 100).

(** The [try] block of [_calculate_skills_match]. *)
Definition skills_match_try (cv_analysis job_analysis : pyval) : result skills_match_t :=
  requirements <-- py_get job_analysis "requirements" (PDict []) ;;
  required <-- py_get requirements "required_skills" (PList []) ;;
  required_skills <-- py_set required ;;
  requirements <-- py_get job_analysis "requirements" (PDict []) ;;
  preferred <-- py_get requirements "preferred_skills" (PList []) ;;
  preferred_skills <-- py_set preferred ;;
  skills <-- py_get cv_analysis "skills" (PDict []) ;;
  technical <-- py_get skills "technical_skills" (PList []) ;;
  cv_skills <-- py_set technical ;;
  let required_matches := intersection cv_skills required_skills in
  let preferred_matches := intersection cv_skills preferred_skills in
  let required_score := recall_score required_matches required_skills in
  let preferred_score := recall_score preferred_matches preferred_skills in
  let total_score :=
    Binary64.add (Binary64.mul required_score (Binary64.dec 7 10))
                 (Binary64.mul preferred_score (Binary64.dec 3 10)) in
  Ok {| sm_score := Binary64.round2 total_score;
        matched_required := required_matches;
        matched_preferred := preferred_matches;
        missing_required := difference required_skills cv_skills;
        missing_preferred := difference preferred_skills cv_skills |}.

(** [_calculate_skills_match] *)
Definition _calculate_skills_match (cv_analysis job_analysis : pyval) : skills_match_t :=
  match skills_match_try cv_analysis job_analysis with
  | Ok r => r
  | Raise _ =>
      {| sm_score := Binary64.of_Z 0; matched_required := []; matched_preferred := [];
         missing_required := []; missing_preferred := [] |}
  end.

(** The score shared by the experience and the education match, before
    [round]. *)
Definition level_score (have wanted : Z) : result spec_float :=
  if (wanted =? 0)%Z then Ok (Binary64.of_Z 100)
  else if (have >=? wanted)%Z then Ok (Binary64.of_Z 100)
  else if (wanted >? 0)%Z
       then q <-- true_div have wanted ;; Ok (Binary64.mul q (Binary64.of_Z 100))
       else Ok (Binary64.of_Z 0).

Record experience_match_t := {
  em_score : spec_float;
  em_cv_years : Z;
  em_required_years : Z;
  em_meets_requirement : bool
}.

(** The [try] block of [_calculate_experience_match]. *)
Definition experience_match_try (cv_analysis job_analysis : pyval)
  : result experience_match_t :=
  experience <-- py_get cv_analysis "experience" (PDict []) ;;
  years <-- py_get experience "years" (PInt 0) ;;
  let cv_years := _extract_years years in
  requirements <-- py_get job_analysis "requirements" (PDict []) ;;
  wanted <-- py_get requirements "experience" (PInt 0) ;;
  let required_years := _extract_years wanted in
  score <-- level_score cv_years required_years ;;
  Ok {| em_score := Binary64.round2 score;
        em_cv_years := cv_years;
        em_required_years := required_years;
        em_meets_requirement := (cv_years >=? required_years)%Z |}.

(** [_calculate_experience_match] *)
Definition _calculate_experience_match (cv_analysis job_analysis : pyval)
  : experience_match_t :=
  match experience_match_try cv_analysis job_analysis with
  | Ok r => r
  | Raise _ =>
      {| em_score := Binary64.of_Z 0; em_cv_years := 0; em_required_years := 0;
         em_meets_requirement := false |}
  end.

Record education_match_t := {
  ed_score : spec_float;
  ed_cv_level : Z;
  ed_required_level : Z;
  ed_meets_requirement : bool;
  cv_education : string;
  required_education : string
}.

(** [_get_match_level] *)
Definition _get_match_level (score : spec_float) : string :=
  if Binary64.geb score (Binary64.of_Z 90) then "Excellent Match"
  else if Binary64.geb score (Binary64.of_Z 75) then "Strong Match"
  else if Binary64.geb score (Binary64.of_Z 60) then "Good Match"
  else if Binary64.geb score (Binary64.of_Z 40) then "Partial Match"
  else "Low Match".

Record overall_match_t := {
  score : spec_float;
  match_level : string
}.

(** The result of [match_cv_to_job]. Its [confidence] and
    [recommendations] entries are left out: both come from helpers whose
    whole body is a [try] with a default, and neither enters a score. *)
Record match_analysis_t := {
  overall_match : overall_match_t;
  skills_match : skills_match_t;
  experience_match : experience_match_t;
  education_match : education_match_t
}.

Section Matcher.

(** [str(v)] *)
Variable py_str : pyval -> string.

(** The two analysis agents, which consult the model services. *)
Variable analyze_cv : string -> result pyval.
Variable analyze_job : string -> result pyval.

(** The [try] block of [_calculate_education_match]. *)
Definition education_match_try (cv_analysis job_analysis : pyval)
  : result education_match_t :=
  requirements <-- py_get job_analysis "requirements" (PDict []) ;;
  wanted <-- py_get requirements "education" (PStr "") ;;
  let required_edu := lower (py_str wanted) in
  held <-- py_get cv_analysis "education" (PStr "") ;;
  let cv_edu := lower (py_str held) in
  let required_level := highest_level required_edu in
  let cv_level := highest_level cv_edu in
  score <-- level_score cv_level required_level ;;
  Ok {| ed_score := Binary64.round2 score;
        ed_cv_level := cv_level;
        ed_required_level := required_level;
        ed_meets_requirement := (cv_level >=? required_level)%Z;
        cv_education := cv_edu;
        required_education := required_edu |}.

(** [_calculate_education_match] *)
Definition _calculate_education_match (cv_analysis job_analysis : pyval)
  : education_match_t :=
  match education_match_try cv_analysis job_analysis with
  | Ok r => r
  | Raise _ =>
      {| ed_score := Binary64.of_Z 0; ed_cv_level := 0; ed_required_level := 0;
         ed_meets_requirement := false; cv_education := "";
         required_education := "" |}
  end.

(** [match_cv_to_job]: the [except] clause re-raises. *)
Definition match_cv_to_job (cv_text job_description : string) : result match_analysis_t :=
  cv_analysis <-- analyze_cv cv_text ;;
  job_analysis <-- analyze_job job_description ;;
  let skills_match := _calculate_skills_match cv_analysis job_analysis in
  let experience_match := _calculate_experience_match cv_analysis job_analysis in
  let education_match := _calculate_education_match cv_analysis job_analysis in
  let match_score :=
    Binary64.add
      (Binary64.add
         (Binary64.mul (sm_score skills_match) (w_required_skills matching_weights))
         (Binary64.mul (em_score experience_match) (w_experience matching_weights)))
      (Binary64.mul (ed_score education_match) (w_education matching_weights)) in
  Ok {| overall_match :=
          {| score := Binary64.round2 match_score;
             match_level := _get_match_level match_score |};
        skills_match := skills_match;
        experience_match := experience_match;
        education_match := education_match |}.

End Matcher.

End CVMatcher64.

Module Quality64.
Local Open Scope string_scope.
Local Open Scope result_scope.
Import Py.

(** The weights and the threshold of [calculate_overall_quality]. *)
Record overall_weights_t := {
  weight_cv : spec_float;
  weight_letter : spec_float;
  weight_ats : spec_float
}.

Definition weights : overall_weights_t :=
  {| weight_cv := Binary64.dec 4 10; weight_letter := Binary64.dec 3 10;
     weight_ats := Binary64.dec 3 10 |}.

Definition overall_minimum_score : spec_float := Binary64.of_Z 75.

Record overall_quality_t := {
  overall_score : spec_float;
  component_weights : overall_weights_t;
  meets_threshold : bool;
  component_scores : spec_float * spec_float * spec_float
}.

(** [QualityMetrics.calculate_overall_quality] on three [float]. *)
Definition calculate_overall_quality (cv_score letter_score ats_score : spec_float)
  : overall_quality_t :=
  let overall_score :=
    Binary64.add
      (Binary64.add (Binary64.mul cv_score (weight_cv weights))
                    (Binary64.mul letter_score (weight_letter weights)))
      (Binary64.mul ats_score (weight_ats weights)) in
  let meets_threshold := Binary64.geb overall_score overall_minimum_score in
  {| overall_score := Binary64.round2 overall_score;
     component_weights := weights;
     meets_threshold := meets_threshold;
     component_scores := (cv_score, letter_score, ats_score) |}.

(** [self.quality_weights] of [Coordinator]. *)
Record quality_weights_t := {
  ats_compliance : spec_float;
  cv_quality : spec_float;
  letter_quality : spec_float
}.

Definition quality_weights : quality_weights_t :=
  {| ats_compliance := Binary64.dec 4 10; cv_quality := Binary64.dec 4 10;
     letter_quality := Binary64.dec 2 10 |}.

(** The double an entry of a result dictionary becomes in [v * w]: an
    [int] is converted, which raises when it is too large; a value that
    is not a number cannot be multiplied by a float. *)
Definition number (v : pyval) : result spec_float :=
  match v with
  | PBool b => Ok (Binary64.of_Z (if b then 1 else 0))
  | PInt z =>
      let x := Binary64.of_Z z in
      if Binary64.is_infinite x then Raise OverflowError else Ok x
  | PFloat q => Ok (Binary64.of_Q q)
  | _ => Raise TypeError
  end.

Record aggregated_t := {
  agg_overall_score : spec_float;
  agg_component_scores : pyval * pyval * pyval
}.

(** [Coordinator._aggregate_results]: the [except] clause re-raises. *)
Definition _aggregate_results (ats_results cv_results letter_results : pyval)
  : result aggregated_t :=
  a <-- py_item ats_results "overall_score" ;;
  a <-- number a ;;
  let ats_score := Binary64.mul a (ats_compliance quality_weights) in
  c <-- py_item cv_results "overall_score" ;;
  c <-- number c ;;
  let cv_score := Binary64.mul c (cv_quality quality_weights) in
  l <-- py_item letter_results "overall_score" ;;
  l <-- number l ;;
  let letter_score := Binary64.mul l (letter_quality quality_weights) in
  let overall_score :=
    Binary64.round2 (Binary64.add (Binary64.add ats_score cv_score) letter_score) in
  a' <-- py_item ats_results "overall_score" ;;
  c' <-- py_item cv_results "overall_score" ;;
  l' <-- py_item letter_results "overall_score" ;;
  Ok {| agg_overall_score := overall_score;
        agg_component_scores := (a', c', l') |}.

(** The double of the overall score of a result dictionary, when it has
    one. *)
Definition overall_of (results : pyval) : result spec_float :=
  rbind (py_item results "overall_score") number.

End Quality64.

(* ================================================================== *)
(** * The skills match as the specification words it *)
(* ================================================================== *)

Module SkillsSpec.
Local Open Scope string_scope.
Local Open Scope Q_scope.
Local Open Scope result_scope.
Import Py PyNum CVMatcher.

(** The requirement sets of a job analysis and the skill set of a CV
    analysis; each fails when an entry on the way is not a dictionary or
    cannot be made a set. *)
Definition required_set (job_analysis : pyval) : result (list hkey) :=
  requirements <-- py_get job_analysis "requirements" (PDict []) ;;
  required <-- py_get requirements "required_skills" (PList []) ;;
  py_set required.

Definition preferred_set (job_analysis : pyval) : result (list hkey) :=
  requirements <-- py_get job_analysis "requirements" (PDict []) ;;
  preferred <-- py_get requirements "preferred_skills" (PList []) ;;
  py_set preferred.

Definition cv_set (cv_analysis : pyval) : result (list hkey) :=
  skills <-- py_get cv_analysis "skills" (PDict []) ;;
  technical <-- py_get skills "technical_skills" (PList []) ;;
  py_set technical.

(** Recall: the share of the wanted skills that the CV has, in percent;
    100 when nothing is wanted. *)
Definition recall (cv_skills wanted : list hkey) : Q :=
  if Nat.eqb (List.length wanted) 0 then 100
  else (len (filter (fun x => mem x cv_skills) wanted) / len wanted) * 100.

(** The weighted recall before any rounding. *)
Definition weighted_recall (cv_skills required preferred : list hkey) : Q :=
  recall cv_skills required * 0.7 + recall cv_skills preferred * 0.3.

(** The same two on doubles: the quotient, its product with 100, the
    two weighted terms and their sum are each rounded to a double. *)
Definition recall64 (cv_skills wanted : list hkey) : spec_float :=
  match wanted with
  | [] => Binary64.of_Z 100
  | _ :: _ =>
      Binary64.mul
        (Binary64.div_int
           (Z.of_nat (List.length (filter (fun x => mem x cv_skills) wanted)))
           (Z.of_nat (List.length wanted)))
        (Binary64.of_Z 100)
  end.

Definition weighted_recall64 (cv_skills required preferred : list hkey) : spec_float :=
  Binary64.add (Binary64.mul (recall64 cv_skills required) (Binary64.dec 7 10))
               (Binary64.mul (recall64 cv_skills preferred) (Binary64.dec 3 10)).

End SkillsSpec.

(* ================================================================== *)
(** * Sample inputs *)
(* ================================================================== *)

Module Samples.
Local Open Scope string_scope.
Import Py.

(** [str(v)] on the values whose text does not depend on a float or on
    quoting; the samples apply it to strings only. *)
Definition sample_str (v : pyval) : string :=
  match v with
  | PStr s => s
  | PNone => "None"
  | PBool true => "True"
  | PBool false => "False"
  | PInt z => PyStr.of_int z
  | _ => ""
  end.

(** The analyses of the end-to-end scenario of the specification: the
    job requires Python, the CV lists Python and SQL, and neither names
    years of experience or a degree. *)
Definition scenario_cv : pyval :=
  PDict [("skills", PDict [("technical_skills", PList [PStr "Python"; PStr "SQL"])])].

Definition scenario_job : pyval :=
  PDict [("requirements", PDict [("required_skills", PList [PStr "Python"])])].

(** A job that requires three skills of which the CV has one. *)
Definition one_of_three_cv : pyval :=
  PDict [("skills", PDict [("technical_skills", PList [PStr "Python"])])].

Definition one_of_three_job : pyval :=
  PDict [("requirements",
          PDict [("required_skills", PList [PStr "Python"; PStr "Go"; PStr "Rust"])])].

(** A CV with five years of experience against a job that asks for
    eleven; the one required skill is there and no degree is named. *)
Definition five_of_eleven_cv : pyval :=
  PDict [("skills", PDict [("technical_skills", PList [PStr "Python"])]);
         ("experience", PDict [("years", PInt 5)])].

Definition five_of_eleven_job : pyval :=
  PDict [("requirements",
          PDict [("required_skills", PList [PStr "Python"]);
                 ("experience", PInt 11)])].

(** Sixteen required skills of which the CV has thirteen, and one
    preferred skill that it lacks. *)
Definition numbered_skills (first last : nat) : list pyval :=
  map (fun n => PStr ("skill " ++ PyStr.of_int (Z.of_nat n))) (seq first (S last - first)).

Definition thirteen_of_sixteen_cv : pyval :=
  PDict [("skills", PDict [("technical_skills", PList (numbered_skills 1 13))])].

Definition thirteen_of_sixteen_job : pyval :=
  PDict [("requirements",
          PDict [("required_skills", PList (numbered_skills 1 16));
                 ("preferred_skills", PList [PStr "Kubernetes"])])].

(** The schema and the reply of the round trip of the specification. *)
Definition ab_schema : Gateway.schema :=
  [("a", PStr "string"); ("b", PList [PStr "list"])].

Definition dq : string := String (ascii_of_nat 34) "".

(** The text [{"a": "x"}]. *)
Definition json_a_x : string := "{" ++ dq ++ "a" ++ dq ++ ": " ++ dq ++ "x" ++ dq ++ "}".

(** A document nested 1500 lists deep, under the key [a]. *)
Fixpoint repeat_string (n : nat) (s : string) : string :=
  match n with
  | O => ""
  | S n' => s ++ repeat_string n' s
  end.

Definition json_deep : string :=
  "{" ++ dq ++ "a" ++ dq ++ ": " ++ repeat_string 1500 "[" ++ repeat_string 1500 "]"
  ++ "}".

(** A decoder that agrees with [json.loads] on the texts the samples
    feed it: the two documents above, and texts that are not JSON. *)
Definition sample_loads (s : string) : result pyval :=
  if String.eqb s json_a_x then Ok (PDict [("a", PStr "x")])
  else if String.eqb s json_deep then Raise RecursionError
  else Raise JSONDecodeError.

(** [json.dumps(schema, indent=2)] for a schema whose hints are strings
    or lists of strings. *)
Definition dumps_hint (hint : pyval) : string :=
  match hint with
  | PStr h => dq ++ h ++ dq
  | PList l =>
      "[" ++ Gateway.nl ++
      PyStr.join ("," ++ Gateway.nl)
        (map (fun v => "    " ++ match v with PStr h => dq ++ h ++ dq | _ => "null" end) l)
      ++ Gateway.nl ++ "  ]"
  | _ => "null"
  end.

Definition sample_dumps (output_schema : Gateway.schema) : string :=
  "{" ++ Gateway.nl ++
  PyStr.join ("," ++ Gateway.nl)
    (map (fun kv : string * pyval =>
            "  " ++ dq ++ fst kv ++ dq ++ ": " ++ dumps_hint (snd kv))
         output_schema)
  ++ Gateway.nl ++ "}".

(** Services: OpenAI unreachable while Anthropic answers; both answering
    with prose; both answering with the document above. *)
Definition openai_down (log : list Gateway.request) (rq : Gateway.request)
  : Gateway.reply :=
  match Gateway.rq_provider rq with
  | Gateway.OpenAI => Gateway.Failure (Exception "Connection error.")
  | Gateway.Anthropic => Gateway.Text json_a_x
  end.

Definition prose (log : list Gateway.request) (rq : Gateway.request)
  : Gateway.reply :=
  Gateway.Text "I am sorry, I cannot help with that.".

Definition answers_a_x (log : list Gateway.request) (rq : Gateway.request)
  : Gateway.reply :=
  Gateway.Text json_a_x.

Definition answers_deep (log : list Gateway.request) (rq : Gateway.request)
  : Gateway.reply :=
  Gateway.Text json_deep.

(** Components of a workflow run in which every stage succeeds, as the
    test suite mocks them. *)
Definition ok_document (path : string) : result pyval :=
  Ok (PDict [("success", PBool true); ("content", PStr "CV content...")]).
Definition ok_cv_analysis (cv_text : pyval) : result pyval := Ok scenario_cv.
Definition ok_job_analysis (job_description : string) : result pyval := Ok scenario_job.
Definition ok_match (cv_text : pyval) (job_description : string) : result pyval :=
  Ok (PDict [("overall_match", PDict [("score", PInt 85)])]).
Definition ok_optimization (cv_text : pyval) (job_description : string) : result pyval :=
  Ok (PDict [("optimized_cv", PStr "Optimized CV content...");
             ("recommendations", PList [PStr "Add more keywords"])]).
Definition ok_letter (cv : pyval) (job company : string) : result pyval :=
  Ok (PDict [("letter", PStr "Cover letter content...")]).
Definition ok_quality (cv letter : pyval) (job company : string)
    (industry : option string) : result pyval :=
  Ok (PDict [("component_scores",
              PDict [("cv_score", PInt 85); ("ats_score", PInt 90);
                     ("letter_score", PInt 88)])]).

End Samples.

(* ================================================================== *)
(** * Views of the rule engine used by its properties *)
(* ================================================================== *)

Module StructureSpec.
Local Open Scope string_scope.
Import PyStr ATSRules.

(** A category is found when some title contains some synonym: the
    condition [validate_structure] tests for a required section. *)
Definition found (section_type : string) (normalized_sections : list string) : bool :=
  existsb
    (fun variant => existsb (fun section => contains variant section) normalized_sections)
    (map _normalize_section_title (titles_of section_type)).

(** The characters [_normalize_section_title] keeps. *)
Definition kept (c : ascii) : bool := isalnum c || isspace c.

End StructureSpec.

(* ================================================================== *)
(** * models/model_manager.py: plain text completions *)
(* ================================================================== *)

Module GatewayText.
Local Open Scope string_scope.
Import Py PyStr Gateway.

Section TextCompletion.

Variable backend : list request -> request -> reply.

(** The [if service == 'openai': ... elif service == 'anthropic': ...]
    ladder of [get_completion]; both handlers are called with the prompt
    alone. *)
Definition dispatch_text (service prompt : string) : option (M string) :=
  if String.eqb service "openai"
  then Some (openai_get_completion backend openai_model prompt None None None)
  else if String.eqb service "anthropic"
  then Some (anthropic_get_completion backend anthropic_model prompt None None None)
  else None.

(** The loop over [fallback_order] and the terminal raise. *)
Fixpoint fallback_text_loop (service : string) (order : list string) (prompt : string)
  : M (option string) :=
  match order with
  | [] => raise (Exception "All services failed")
  | fallback_service :: order' =>
      let continue := fallback_text_loop service order' prompt in
      if negb (String.eqb fallback_service service)
      then
        match dispatch_text fallback_service prompt with
        | Some call =>
            try_except (bind call (fun t => ret (Some t))) any_exception
              (fun _ => continue)
        | None => continue
        end
      else continue
  end.

(** [ModelManager.get_completion]; the result [None] is Python's [None],
    returned when the service name matches neither handler. *)
Definition get_completion (prompt : string) (task_type preferred_service : option string)
  : M (option string) :=
  let service :=
    if truthy_str preferred_service
    then match preferred_service with Some s => s | None => "" end
    else Gateway.preferred_service task_type in
  try_except
    (match dispatch_text service prompt with
     | Some call => bind call (fun t => ret (Some t))
     | None => ret None
     end)
    any_exception
    (fun _ => fallback_text_loop service (fallback_order model_config) prompt).

(** The two requests a text completion can issue. *)
Definition openai_text_request (prompt : string) : request :=
  openai_request openai_model prompt None None None.

Definition anthropic_text_request (prompt : string) : request :=
  {| rq_provider := Anthropic;
     rq_model := anthropic_model;
     rq_system := None;
     rq_prompt := prompt;
     rq_temperature := 0.7%Q;
     rq_max_tokens := 4096%Z |}.

End TextCompletion.

End GatewayText.

(* ================================================================== *)
(** * core/quality_metrics.py: domain scores, assessment, priorities *)
(* ================================================================== *)

Module QualityMetrics.
Local Open Scope string_scope.
Local Open Scope Q_scope.
Local Open Scope result_scope.
Import Py PyNum Quality.

(** One entry of a [scores] dictionary: the name of the component score,
    the metric it reads and the weight of [self.score_weights]. *)
Record component := {
  score_name : string;
  metric : string;
  weight : Q
}.

Definition cv_components : list component :=
  [ {| score_name := "content_score"; metric := "content_relevance"; weight := 0.3 |};
    {| score_name := "skills_score"; metric := "skills_match"; weight := 0.25 |};
    {| score_name := "experience_score"; metric := "experience_quality"; weight := 0.25 |};
    {| score_name := "format_score"; metric := "format_compliance"; weight := 0.2 |} ].

Definition letter_components : list component :=
  [ {| score_name := "customization_score"; metric := "customization"; weight := 0.3 |};
    {| score_name := "content_score"; metric := "content_relevance"; weight := 0.3 |};
    {| score_name := "tone_score"; metric := "professional_tone"; weight := 0.2 |};
    {| score_name := "format_score"; metric := "formatting"; weight := 0.2 |} ].

Definition ats_components : list component :=
  [ {| score_name := "keyword_score"; metric := "keyword_optimization"; weight := 0.3 |};
    {| score_name := "format_score"; metric := "format_compliance"; weight := 0.3 |};
    {| score_name := "structure_score"; metric := "section_structure"; weight := 0.2 |};
    {| score_name := "clarity_score"; metric := "content_clarity"; weight := 0.2 |} ].

(** [metrics.get(key, 0) * weight] *)
Definition weighted (metrics : pyval) (c : component) : result Q :=
  v <-- py_get metrics (metric c) (PInt 0) ;;
  x <-- number v ;;
  Ok (x * weight c).

(** The dictionary literal [scores], entry by entry. *)
Fixpoint weighted_scores (metrics : pyval) (cs : list component)
  : result (list (string * Q)) :=
  match cs with
  | [] => Ok []
  | c :: cs' =>
      x <-- weighted metrics c ;;
      rest <-- weighted_scores metrics cs' ;;
      Ok ((score_name c, x) :: rest)
  end.

(** [sum(scores.values())] *)
Definition total (scores : list (string * Q)) : Q :=
  fold_left (fun acc (kv : string * Q) => acc + snd kv) scores 0.

Record domain_score := {
  total_score : Q;
  ds_component_scores : list (string * Q);
  ds_meets_threshold : bool
}.

Definition calculate_domain (cs : list component) (minimum : Q) (metrics : pyval)
  : result domain_score :=
  scores <-- weighted_scores metrics cs ;;
  let total_score := total scores in
  let meets_threshold := geb total_score minimum in
  Ok {| total_score := round2 total_score;
        ds_component_scores := scores;
        ds_meets_threshold := meets_threshold |}.

(** [calculate_cv_score], [calculate_letter_score], [calculate_ats_score]:
    each [except] clause re-raises. *)
Definition calculate_cv_score (metrics : pyval) : result domain_score :=
  calculate_domain cv_components (cv_minimum_score quality_thresholds) metrics.

Definition calculate_letter_score (metrics : pyval) : result domain_score :=
  calculate_domain letter_components (letter_minimum_score quality_thresholds) metrics.

Definition calculate_ats_score (metrics : pyval) : result domain_score :=
  calculate_domain ats_components (ats_minimum_score quality_thresholds) metrics.

Record quality_assessment := {
  overall_quality : overall_quality_t;
  cv_assessment : domain_score;
  letter_assessment : domain_score;
  ats_assessment : domain_score;
  meets_all_thresholds : bool
}.

(** [get_quality_assessment] *)
Definition get_quality_assessment (cv_metrics letter_metrics ats_metrics : pyval)
  : result quality_assessment :=
  cv_score <-- calculate_cv_score cv_metrics ;;
  letter_score <-- calculate_letter_score letter_metrics ;;
  ats_score <-- calculate_ats_score ats_metrics ;;
  let overall_quality :=
    calculate_overall_quality (total_score cv_score) (total_score letter_score)
      (total_score ats_score) in
  Ok {| overall_quality := overall_quality;
        cv_assessment := cv_score;
        letter_assessment := letter_score;
        ats_assessment := ats_score;
        meets_all_thresholds :=
          forallb (fun b : bool => b)
            [ ds_meets_threshold cv_score; ds_meets_threshold letter_score;
              ds_meets_threshold ats_score; meets_threshold overall_quality ] |}.

(** [min(scores.items(), key=lambda x: x[1])]: the first entry with the
    least score; [min] of nothing raises. *)
Fixpoint min_from (best : string * Q) (rest : list (string * Q)) : string * Q :=
  match rest with
  | [] => best
  | kv :: rest' =>
      min_from (if ltb (snd kv) (snd best) then kv else best) rest'
  end.

Definition lowest (scores : list (string * Q)) : result string :=
  match scores with
  | [] => Raise (ValueError "min() arg is an empty sequence")
  | kv :: rest => Ok (fst (min_from kv rest))
  end.

(** One block of [get_improvement_priorities]. *)
Definition priority_of (label : string) (d : domain_score) (priorities : list string)
  : result (list string) :=
  if negb (ds_meets_threshold d)
  then
    name <-- lowest (ds_component_scores d) ;;
    Ok (priorities ++ [("Improve " ++ label ++ " " ++ PyStr.replace "_score" "" name)%string])%list
  else Ok priorities.

(** [get_improvement_priorities] *)
Definition get_improvement_priorities (qa : quality_assessment) : result (list string) :=
  priorities <-- priority_of "CV" (cv_assessment qa) [] ;;
  priorities <-- priority_of "letter" (letter_assessment qa) priorities ;;
  priority_of "ATS" (ats_assessment qa) priorities.

(** Metrics that are numbers between 0 and 100 wherever they are given. *)
Definition percent_metrics (d : dict) : Prop :=
  forall k v, dict_get k d = Some v -> exists q, number v = Ok q /\ 0 <= q <= 100.

(** The metrics of a document that scores [m] on each metric of a
    domain. *)
Definition uniform_metrics (cs : list component) (m : Q) : pyval :=
  PDict (map (fun c => (metric c, PFloat m)) cs).

End QualityMetrics.

(* ================================================================== *)
(** * agents/coordinator.py: standards and recommendations *)
(* ================================================================== *)

Module Coordinator.
Local Open Scope string_scope.
Local Open Scope Q_scope.
Local Open Scope result_scope.
Import Py PyNum Quality.

(** [self.quality_thresholds] of [Coordinator]. *)
Record thresholds_t := {
  th_ats_compliance : Q;
  th_cv_quality : Q;
  th_letter_quality : Q;
  th_overall_quality : Q
}.

Definition quality_thresholds : thresholds_t :=
  {| th_ats_compliance := 75; th_cv_quality := 75;
     th_letter_quality := 75; th_overall_quality := 75 |}.

(** [standards_check], in the order of the dictionary literal. *)
Record standards_check_t := {
  sc_ats_compliance : bool;
  sc_cv_quality : bool;
  sc_letter_quality : bool;
  sc_overall_quality : bool
}.

Record standards_t := {
  meets_all_standards : bool;
  standards_results : standards_check_t
}.

(** [v >= t] and [v < t] against a number: ordering a value that is not
    a number against one raises [TypeError]. *)
Definition py_ge (v : pyval) (t : Q) : result bool :=
  x <-- number v ;; Ok (geb x t).

Definition py_lt (v : pyval) (t : Q) : result bool :=
  x <-- number v ;; Ok (ltb x t).

(** [Coordinator._check_quality_standards] *)
Definition _check_quality_standards (aggregated_results : aggregated_t)
  : result standards_t :=
  let '(ats, cv, letter) := agg_component_scores aggregated_results in
  a <-- py_ge ats (th_ats_compliance quality_thresholds) ;;
  c <-- py_ge cv (th_cv_quality quality_thresholds) ;;
  l <-- py_ge letter (th_letter_quality quality_thresholds) ;;
  let o := geb (agg_overall_score aggregated_results)
               (th_overall_quality quality_thresholds) in
  Ok {| meets_all_standards := forallb (fun b : bool => b) [a; c; l; o];
        standards_results :=
          {| sc_ats_compliance := a; sc_cv_quality := c;
             sc_letter_quality := l; sc_overall_quality := o |} |}.

(** The items [list.extend(v)] appends: the elements of a list, the
    characters of a string, the keys of a dictionary; anything else is
    not iterable. *)
Definition py_iter (v : pyval) : result (list pyval) :=
  match v with
  | PList l => Ok l
  | PStr s => Ok (map (fun c => PStr (String c "")) (list_ascii_of_string s))
  | PDict d => Ok (map (fun kv => PStr (fst kv)) d)
  | _ => Raise TypeError
  end.

(** [target.extend(results.get(key, []))] *)
Definition extend_from (results : pyval) (key : string) (target : list pyval)
  : result (list pyval) :=
  v <-- py_get results key (PList []) ;;
  items <-- py_iter v ;;
  Ok (target ++ items)%list.

Record recommendations_t := {
  high_priority : list pyval;
  medium_priority : list pyval;
  low_priority : list pyval
}.

(** The block shared by the CV and the letter: below the threshold the
    items go to the high list under 60 and to the medium list from 60
    on. *)
Definition by_band (results : pyval) (key : string) (threshold : Q)
    (r : recommendations_t) : result recommendations_t :=
  score <-- py_item results "overall_score" ;;
  below <-- py_lt score threshold ;;
  if below then
    low <-- py_lt score 60 ;;
    if low then
      h <-- extend_from results key (high_priority r) ;;
      Ok {| high_priority := h; medium_priority := medium_priority r;
            low_priority := low_priority r |}
    else
      m <-- extend_from results key (medium_priority r) ;;
      Ok {| high_priority := high_priority r; medium_priority := m;
            low_priority := low_priority r |}
  else Ok r.

(** [Coordinator._generate_recommendations] *)
Definition _generate_recommendations (ats_results cv_results letter_results : pyval)
  : result recommendations_t :=
  let recommendations :=
    {| high_priority := []; medium_priority := []; low_priority := [] |} in
  score <-- py_item ats_results "overall_score" ;;
  below <-- py_lt score (th_ats_compliance quality_thresholds) ;;
  recommendations <--
    (if below then
       h <-- extend_from ats_results "recommendations" (high_priority recommendations) ;;
       Ok {| high_priority := h;
             medium_priority := medium_priority recommendations;
             low_priority := low_priority recommendations |}
     else Ok recommendations) ;;
  recommendations <--
    by_band cv_results "improvement_areas" (th_cv_quality quality_thresholds)
      recommendations ;;
  by_band letter_results "improvement_needed" (th_letter_quality quality_thresholds)
    recommendations.

(** A result dictionary with an overall score and one list of remarks. *)
Definition result_with (x : Q) (key : string) (items : list pyval) : pyval :=
  PDict [("overall_score", PFloat x); (key, PList items)].

End Coordinator.

(* ================================================================== *)
(** * agents/primary_agents/cv_matcher.py: confidence and recommendations *)
(* ================================================================== *)

Module CVMatcherReport.
Local Open Scope string_scope.
Local Open Scope Q_scope.
Local Open Scope result_scope.
Import Py PyStr PyNum CVMatcher.

(** A Python [float]: a number, an infinity or a NaN. *)
Inductive pyfloat : Type :=
| Finite (q : Q)
| PosInf
| NegInf
| NaN.

(** [x / 100] *)
Definition div100 (x : pyfloat) : pyfloat :=
  match x with
  | Finite q => Finite (q / 100)
  | other => other
  end.

(** Truth value of a float: only zero is false. *)
Definition float_truthy (x : pyfloat) : bool :=
  match x with
  | Finite q => negb (Qeq_bool q 0)
  | _ => true
  end.

(** [x < t] for a finite [t]. *)
Definition float_lt (x : pyfloat) (t : Q) : bool :=
  match x with
  | Finite q => ltb q t
  | NegInf => true
  | PosInf | NaN => false
  end.

(** [', '.join(items)]: every item has to be a string. *)
Fixpoint strings_of (items : list hkey) : result (list string) :=
  match items with
  | [] => Ok []
  | HStr s :: rest => rest' <-- strings_of rest ;; Ok (s :: rest')
  | _ :: _ => Raise TypeError
  end.

Definition join_items (sep : string) (items : list hkey) : result string :=
  strs <-- strings_of items ;; Ok (join sep strs).

Definition experience_advice : string := "Highlight more relevant work experience".
Definition format_advice : string := "Improve CV format for better ATS compatibility".

Section Report.

(** [float(s)] for a string: the parser of the language. *)
Variable float_of_str : string -> result pyfloat.

(** [float(v)] *)
Definition py_float (v : pyval) : result pyfloat :=
  match v with
  | PBool b => Ok (Finite (if b then 1 else 0))
  | PInt z => Ok (Finite (inject_Z z))
  | PFloat q => Ok (Finite q)
  | PStr s => float_of_str s
  | _ => Raise TypeError
  end.

(** The [try] block of [_calculate_confidence]. *)
Definition confidence_try (cv_analysis job_analysis : pyval) : result Q :=
  experience <-- py_get cv_analysis "experience" (PDict []) ;;
  years <-- py_get experience "years" (PInt 0) ;;
  let exp_years := _extract_years years in
  ats <-- py_get cv_analysis "ats_compliance" (PDict []) ;;
  format_score <-- py_get ats "format_score" (PInt 0) ;;
  format_score <-- py_float format_score ;;
  skills <-- py_get cv_analysis "skills" (PDict []) ;;
  technical <-- py_get skills "technical_skills" (PList []) ;;
  requirements <-- py_get job_analysis "requirements" (PDict []) ;;
  required <-- py_get requirements "required_skills" (PList []) ;;
  let factors :=
    [ float_truthy (div100 format_score); truthy technical; truthy required;
      (exp_years >? 0)%Z ] in
  let confidence :=
    inject_Z (Z.of_nat (List.length (filter (fun factor : bool => factor) factors)))
    / inject_Z (Z.of_nat (List.length factors)) in
  Ok (round2 (confidence * 100)).

(** [_calculate_confidence] *)
Definition _calculate_confidence (cv_analysis job_analysis : pyval) : Q :=
  match confidence_try cv_analysis job_analysis with
  | Ok c => c
  | Raise _ => 0
  end.

(** One of the two blocks on missing skills. *)
Definition skills_advice (lead : string) (missing : list hkey)
    (recommendations : list string) : result (list string) :=
  if negb (Nat.eqb (List.length missing) 0)
  then
    names <-- join_items ", " missing ;;
    Ok (recommendations ++ [(lead ++ names)%string])%list
  else Ok recommendations.

(** The [try] block of [_generate_recommendations]. *)
Definition recommendations_try (cv_analysis job_analysis : pyval)
    (skills_match : skills_match_t) : result (list string) :=
  recommendations <--
    skills_advice "Add experience with: " (missing_required skills_match) [] ;;
  recommendations <--
    skills_advice "Consider adding experience with: " (missing_preferred skills_match)
      recommendations ;;
  experience <-- py_get cv_analysis "experience" (PDict []) ;;
  years <-- py_get experience "years" (PInt 0) ;;
  let cv_years := _extract_years years in
  requirements <-- py_get job_analysis "requirements" (PDict []) ;;
  wanted <-- py_get requirements "experience_years" (PInt 0) ;;
  let req_years := _extract_years wanted in
  let recommendations :=
    if (cv_years <? req_years)%Z
    then (recommendations ++ [experience_advice])%list
    else recommendations in
  ats <-- py_get cv_analysis "ats_compliance" (PDict []) ;;
  format_score <-- py_get ats "format_score" (PInt 0) ;;
  format_score <-- py_float format_score ;;
  let recommendations :=
    if float_lt format_score 80
    then (recommendations ++ [format_advice])%list
    else recommendations in
  Ok recommendations.

(** [_generate_recommendations] *)
Definition _generate_recommendations (cv_analysis job_analysis : pyval)
    (skills_match : skills_match_t) : list string :=
  match recommendations_try cv_analysis job_analysis skills_match with
  | Ok r => r
  | Raise _ => []
  end.

End Report.

End CVMatcherReport.

(* ================================================================== *)
(** * utils/document_processor.py and the input checks of the workflow *)
(* ================================================================== *)

Module DocumentProcessor.
Local Open Scope string_scope.
Local Open Scope result_scope.
Import Py PyStr.

(** [os.path.splitext(p)] on a POSIX system: the extension starts at the
    last dot of the last path component, unless only dots precede it
    there. *)
Definition splitext (p : string) : string * string :=
  let sepIndex := rfind "/" p in
  let dotIndex := rfind "." p in
  if (dotIndex >? sepIndex)%Z then
    let filenameIndex := (sepIndex + 1)%Z in
    let before :=
      substring (Z.to_nat filenameIndex) (Z.to_nat (dotIndex - filenameIndex)) p in
    if existsb (fun c => negb (Ascii.eqb c ".")) (list_ascii_of_string before)
    then (substring 0 (Z.to_nat dotIndex) p, drop (Z.to_nat dotIndex) p)
    else (p, "")
  else (p, "").

(** [self.supported_formats] *)
Definition supported_formats : list string := [".pdf"; ".docx"; ".doc"].

Section Processor.

(** [os.path.exists] *)
Variable path_exists : string -> bool.

(** The two readers, which return the content and the metadata. *)
Variable _process_pdf : string -> result (string * pyval).
Variable _process_docx : string -> result (string * pyval).

(** [str(e)] for the exceptions of the readers. *)
Variable reader_message : exn -> string.

(** [str(e)]: an exception built from one message prints as it. *)
Definition message (e : exn) : string :=
  match e with
  | Exception msg | ValueError msg => msg
  | other => reader_message other
  end.

(** The [try] block of [process_document].  [FileNotFoundError] is
    written [Exception]: the handler does not tell the classes apart. *)
Definition process_try (file_path : string) : result (string * pyval) :=
  if negb (path_exists file_path)
  then Raise (Exception ("File not found: " ++ file_path))
  else
    let file_ext := lower (snd (splitext file_path)) in
    if negb (in_list file_ext supported_formats)
    then Raise (ValueError ("Unsupported file format: " ++ file_ext))
    else if eqb file_ext ".pdf" then _process_pdf file_path
    else if in_list file_ext [".docx"; ".doc"] then _process_docx file_path
    else Raise (ValueError ("Unexpected file format: " ++ file_ext)).

(** [process_document] *)
Definition process_document (file_path : string) : pyval :=
  match process_try file_path with
  | Ok (content, metadata) =>
      PDict [ ("success", PBool true); ("content", PStr content);
              ("metadata", metadata); ("error", PNone) ]
  | Raise e =>
      let error_msg := "Error processing document: " ++ message e in
      PDict [ ("success", PBool false); ("content", PNone);
              ("metadata", PNone); ("error", PStr error_msg) ]
  end.

End Processor.

End DocumentProcessor.

Module WorkflowInputs.
Local Open Scope string_scope.
Import Py PyStr.

(** [valid_formats] of [validate_inputs] *)
Definition valid_formats : list string := [".pdf"; ".docx"; ".doc"].

Section Inputs.

(** [os.path.exists] *)
Variable path_exists : string -> bool.

(** [WorkflowManager.validate_inputs]; nothing in the [try] block raises
    on strings. *)
Definition validate_inputs (cv_file_path job_description company_name : string)
  : bool * option string :=
  if negb (path_exists cv_file_path) then (false, Some "CV file does not exist")
  else
    let file_ext := lower (snd (DocumentProcessor.splitext cv_file_path)) in
    if negb (in_list file_ext valid_formats)
    then (false, Some ("Unsupported CV format: " ++ file_ext))
    else if negb (truthy (PStr job_description))
            || (String.length (strip job_description) <? 50)%nat
    then (false, Some "Job description is too short or empty")
    else if negb (truthy (PStr company_name))
            || (String.length (strip company_name) <? 2)%nat
    then (false, Some "Invalid company name")
    else (true, None).

End Inputs.

(** The flags a run that raises can leave behind: the stages are set in
    order, the letter stage only when a letter is asked for, and the
    quality check never. *)
Definition flags (document analysis optimization letter : bool) : Workflow.states :=
  [ ("document_processing", document); ("initial_analysis", analysis);
    ("optimization", optimization); ("letter_generation", letter);
    ("quality_check", false) ].

Definition failure_states (generate_letter : bool) : list Workflow.states :=
  [ flags false false false false; flags true false false false;
    flags true true false false; flags true true true false ]
  ++ (if generate_letter then [flags true true true true] else []).

End WorkflowInputs.

(* ================================================================== *)
(** * utils/text_analyzer.py and the ATS check of agents/primary_agents/cv_analyzer.py *)
(* ================================================================== *)

Module TextAnalyzer.
Local Open Scope string_scope.
Import Py PyStr.

(** [s.split(sep)] for a one-character separator: the pieces between the
    separators, the empty ones included. *)
Fixpoint split_on (sep : ascii) (s : string) : list string :=
  match s with
  | EmptyString => [""]
  | String c s' =>
      if Ascii.eqb c sep then "" :: split_on sep s'
      else match split_on sep s' with
           | [] => [String c ""]
           | piece :: pieces => String c piece :: pieces
           end
  end.

(** The line feed. *)
Definition newline : ascii := ascii_of_nat 10.

(** [section_patterns]: each pattern is an alternation of plain words, so
    [re.search] finds it when one of the words occurs. *)
Definition section_patterns : list (string * list string) :=
  [ ("education", ["education"; "academic"; "qualifications"]);
    ("experience", ["experience"; "employment"; "work history"]);
    ("skills", ["skills"; "competencies"; "expertise"]);
    ("projects", ["projects"; "portfolio"; "works"]);
    ("contact", ["contact"; "personal information"; "details"]) ].

(** The first section whose pattern is found in the line. *)
Definition header_of (line : string) : option string :=
  option_map fst
    (List.find
       (fun entry : string * list string =>
          existsb (fun word => contains word (lower line)) (snd entry))
       section_patterns).

(** The variables of the loop of [extract_sections]. *)
Record scan := {
  sections : dict;
  current_section : option string;
  current_content : list string
}.

Definition start : scan :=
  {| sections := []; current_section := None; current_content := [] |}.

(** One turn of the loop over the lines. *)
Definition scan_line (st : scan) (line : string) : scan :=
  let line := strip line in
  if String.eqb line "" then st
  else
    match header_of line with
    | Some section_name =>
        {| sections :=
             match current_section st with
             | Some current =>
                 dict_set current (PStr (join (String newline "") (current_content st)))
                   (sections st)
             | None => sections st
             end;
           current_section := Some section_name;
           current_content := [] |}
    | None =>
        match current_section st with
        | Some _ =>
            {| sections := sections st;
               current_section := current_section st;
               current_content := (current_content st ++ [line])%list |}
        | None => st
        end
    end.

(** The statement after the loop: the last section is added when it has
    content. *)
Definition finish (st : scan) : dict :=
  match current_section st, current_content st with
  | Some current, _ :: _ =>
      dict_set current (PStr (join (String newline "") (current_content st)))
        (sections st)
  | _, _ => sections st
  end.

(** [extract_sections] *)
Definition extract_sections (text : string) : dict :=
  finish (fold_left scan_line (split_on newline text) start).

(** The names of the sections [extract_sections] can report. *)
Definition section_names : list string := map fst section_patterns.

End TextAnalyzer.

Module CVAnalyzer.
Local Open Scope string_scope.
Import Py PyStr.

(** The result of [validate_ats_compliance]; its [recommendations] entry,
    the fixed guidelines of [ATSRules], is left out. *)
Record compliance_result := {
  is_compliant : bool;
  issues : list string;
  format_score : Z;
  missing_skills : list string
}.

(** [validate_ats_compliance]: nothing in the [try] block raises on a
    string. *)
Definition validate_ats_compliance (cv_text : string) : compliance_result :=
  let sections := TextAnalyzer.extract_sections cv_text in
  let structure_validation := ATSRules.validate_structure (dict_keys sections) in
  let format_validation := ATSRules.validate_format ".pdf" 5 in
  {| is_compliant :=
       ATSRules.valid structure_validation && ATSRules.valid format_validation;
     issues :=
       (ATSRules.issues structure_validation ++ ATSRules.issues format_validation)%list;
     format_score := if ATSRules.valid format_validation then 100 else 50;
     missing_skills := [] |}.

End CVAnalyzer.

Module SectionsSpec.
Local Open Scope string_scope.
Import Py PyStr TextAnalyzer.

(** A header line for [name] among [lines] with a non-blank line after
    it. *)
Definition followed_header (name : string) (lines : list string) : Prop :=
  exists before line after,
    lines = (before ++ line :: after)%list /\
    header_of (strip line) = Some name /\
    exists later, In later after /\ strip later <> "".

(** What the loop of [extract_sections] keeps true of the lines read so
    far. *)
Definition scanned (st : scan) (lines : list string) : Prop :=
  (forall name, In name (dict_keys (sections st)) -> followed_header name lines) /\
  (forall name, current_section st = Some name ->
     exists before line after,
       lines = (before ++ line :: after)%list /\
       header_of (strip line) = Some name /\
       (current_content st <> [] -> exists later, In later after /\ strip later <> "")).

End SectionsSpec.

(* ================================================================== *)
(** * agents/primary_agents/job_analyzer.py *)
(* ================================================================== *)

Module JobAnalyzer.
Local Open Scope string_scope.
Local Open Scope result_scope.
Import Py PyStr.

(** [len(v)] *)
Definition py_len (v : pyval) : result Z :=
  match v with
  | PStr s => Ok (Z.of_nat (String.length s))
  | PList l => Ok (Z.of_nat (List.length l))
  | PDict d => Ok (Z.of_nat (List.length d))
  | _ => Raise TypeError
  end.

(** [v.lower()]: only a string has the method. *)
Definition py_lower (v : pyval) : result string :=
  match v with
  | PStr s => Ok (lower s)
  | _ => Raise AttributeError
  end.

(** [_calculate_complexity_score] *)
Definition _calculate_complexity_score (analysis : pyval) : result Z :=
  let score := 0%Z in
  requirements <-- py_item analysis "requirements" ;;
  technical <-- py_item requirements "technical_skills" ;;
  tech_skills <-- py_len technical ;;
  let score := (score + Z.min (tech_skills * 10) 40)%Z in
  requirements <-- py_item analysis "requirements" ;;
  experience <-- py_item requirements "experience" ;;
  experience <-- py_lower experience ;;
  let score :=
    if contains "senior" experience || contains "lead" experience then (score + 30)%Z
    else if contains "mid" experience || contains "3" experience then (score + 20)%Z
    else (score + 10)%Z in
  requirements <-- py_item analysis "requirements" ;;
  education <-- py_item requirements "education" ;;
  education <-- py_lower education ;;
  let score :=
    if contains "phd" education || contains "doctorate" education then (score + 30)%Z
    else if contains "master" education || contains "msc" education then (score + 20)%Z
    else if contains "bachelor" education || contains "bsc" education then (score + 10)%Z
    else score in
  Ok (Z.min score 100).

Section Analyzer.

(** [self.text_analyzer.extract_keywords] and the structured completion
    of the model manager for the prompt built from a job description. *)
Variable extract_keywords : string -> pyval.
Variable structured_completion : string -> result pyval.

(** [analyze_job]: the [except] clause re-raises. *)
Definition analyze_job (job_description : string) : result pyval :=
  let basic_analysis := extract_keywords job_description in
  llm_analysis <-- structured_completion job_description ;;
  required_skills <-- py_get llm_analysis "required_skills" (PList []) ;;
  preferred_skills <-- py_get llm_analysis "preferred_skills" (PList []) ;;
  technical_skills <-- py_get basic_analysis "technical_terms" (PList []) ;;
  soft_skills <-- py_get llm_analysis "soft_skills" (PList []) ;;
  experience <-- py_get llm_analysis "experience_level" (PStr "") ;;
  education <-- py_get llm_analysis "education_requirements" (PStr "") ;;
  responsibilities <-- py_get llm_analysis "key_responsibilities" (PList []) ;;
  seniority_level <-- py_get llm_analysis "seniority_level" (PStr "Not specified") ;;
  key_terms <-- py_get basic_analysis "action_verbs" (PList []) ;;
  indicators <-- py_get llm_analysis "culture_indicators" (PList []) ;;
  benefits <-- py_get llm_analysis "benefits_and_perks" (PList []) ;;
  let combined_analysis :=
    [ ("requirements",
        PDict [ ("required_skills", required_skills);
                ("preferred_skills", preferred_skills);
                ("technical_skills", technical_skills);
                ("soft_skills", soft_skills);
                ("experience", experience);
                ("education", education) ]);
      ("job_details",
        PDict [ ("responsibilities", responsibilities);
                ("seniority_level", seniority_level);
                ("key_terms", key_terms) ]);
      ("company_culture",
        PDict [ ("indicators", indicators); ("benefits", benefits) ]) ] in
  complexity_score <-- _calculate_complexity_score (PDict combined_analysis) ;;
  Ok (PDict (dict_set "complexity_score" (PInt complexity_score) combined_analysis)).

End Analyzer.

End JobAnalyzer.

(* ================================================================== *)
(** * agents/quality_agents/ats_validator.py *)
(* ================================================================== *)

Module ATSValidator.
Local Open Scope string_scope.
Local Open Scope Q_scope.
Local Open Scope result_scope.
Import Py PyStr PyNum Quality.

Definition nl : string := String (ascii_of_nat 10) "".

(** Sixteen blanks: the indentation of the prompts written over several
    lines. *)
Definition indent : string := "                ".

(** [self.validation_weights] *)
Record validation_weights_t := {
  format_compliance : Q;
  keyword_optimization : Q;
  section_structure : Q;
  content_clarity : Q
}.

Definition validation_weights : validation_weights_t :=
  {| format_compliance := 0.3; keyword_optimization := 0.3;
     section_structure := 0.2; content_clarity := 0.2 |}.

Definition format_schema : Gateway.schema :=
  [ ("is_clean_format", PStr "boolean");
    ("has_proper_spacing", PStr "boolean");
    ("uses_standard_sections", PStr "boolean");
    ("formatting_issues", PList [PStr "list of issues"]);
    ("format_score", PStr "number between 0 and 100") ].

Definition keyword_schema : Gateway.schema :=
  [ ("keyword_matches", PList [PStr "list of matched keywords"]);
    ("missing_keywords", PList [PStr "list of missing important keywords"]);
    ("keyword_placement_score", PStr "number between 0 and 100");
    ("optimization_level", PStr "string") ].

Definition content_schema : Gateway.schema :=
  [ ("content_clarity", PStr "number between 0 and 100");
    ("bullet_point_quality", PStr "number between 0 and 100");
    ("achievement_focus", PStr "number between 0 and 100");
    ("content_issues", PList [PStr "list of issues"]) ].

Definition format_prompt (cv_text : string) : string :=
  "Analyze the format of this CV for ATS compliance:" ++ nl ++ nl ++ cv_text.

Definition comparison_prompt (heading cv_text job_description : string) : string :=
  nl ++ indent ++ heading ++ nl ++ indent ++ nl ++ indent ++ "CV:" ++ nl ++ indent
  ++ cv_text ++ nl ++ indent ++ nl ++ indent ++ "Job Description:" ++ nl ++ indent
  ++ job_description ++ nl ++ indent.

Definition keyword_prompt (cv_text job_description : string) : string :=
  comparison_prompt "Analyze keyword optimization between CV and job description:"
    cv_text job_description.

Definition content_prompt (cv_text job_description : string) : string :=
  comparison_prompt "Analyze the content quality of this CV for ATS compliance:"
    cv_text job_description.

(** [s.split('\n\n')]: the pieces between blank-line separators, found
    from the left. *)
Definition cons_char (c : ascii) (pieces : list string) : list string :=
  match pieces with
  | [] => [String c ""]
  | piece :: rest => String c piece :: rest
  end.

Fixpoint split_paragraphs (s : string) : list string :=
  match s with
  | EmptyString => [""]
  | String c s' =>
      match s' with
      | String c' s'' =>
          if Ascii.eqb c (ascii_of_nat 10) && Ascii.eqb c' (ascii_of_nat 10)
          then "" :: split_paragraphs s''
          else cons_char c (split_paragraphs s')
      | EmptyString => cons_char c (split_paragraphs s')
      end
  end.

(** A check that failed: the dictionary the [except] clauses return, with
    the further entries of the keyword check. *)
Definition failed_check : pyval :=
  PDict [ ("score", PInt 0); ("issues", PList [PStr "Validation failed"]);
          ("passes_validation", PBool false) ].

Definition failed_keyword_check : pyval :=
  PDict [ ("score", PInt 0); ("matched_keywords", PList []);
          ("missing_keywords", PList []); ("passes_validation", PBool false) ].

(** [_validate_structure]; nothing in its [try] block raises on a
    string. *)
Definition _validate_structure (cv_text : string) : pyval :=
  let sections := split_paragraphs cv_text in
  let structure_check := ATSRules.validate_structure sections in
  PDict [ ("score", PInt (if ATSRules.valid structure_check then 100 else 50));
          ("issues", PList (map PStr (ATSRules.issues structure_check)));
          ("passes_validation", PBool (ATSRules.valid structure_check)) ].

(** [_calculate_overall_score] *)
Definition weighted_score (validation_results : pyval) (name : string) (weight : Q)
  : result Q :=
  check <-- py_item validation_results name ;;
  score <-- py_item check "score" ;;
  score <-- number score ;;
  Ok (score * weight).

Definition _calculate_overall_score (validation_results : pyval) : result Q :=
  f <-- weighted_score validation_results "format" (format_compliance validation_weights) ;;
  k <-- weighted_score validation_results "keywords"
          (keyword_optimization validation_weights) ;;
  s <-- weighted_score validation_results "structure"
          (section_structure validation_weights) ;;
  c <-- weighted_score validation_results "content" (content_clarity validation_weights) ;;
  Ok (round2 (0 + f + k + s + c)).

(** [', '.join(items)] on values: every item has to be a string. *)
Fixpoint strings_of (items : list pyval) : result (list string) :=
  match items with
  | [] => Ok []
  | PStr s :: rest => rest' <-- strings_of rest ;; Ok (s :: rest')
  | _ :: _ => Raise TypeError
  end.

(** [_generate_suggestions] *)
Definition suggestion (validation_results : pyval) (name text : string)
    (suggestions : list pyval) : result (list pyval) :=
  check <-- py_item validation_results name ;;
  passes <-- py_item check "passes_validation" ;;
  Ok (if negb (truthy passes) then (suggestions ++ [PStr text])%list else suggestions).

Definition _generate_suggestions (validation_results : pyval) : result (list pyval) :=
  suggestions <--
    suggestion validation_results "format"
      "Improve CV formatting for better ATS readability" [] ;;
  suggestions <--
    suggestion validation_results "keywords"
      "Add missing relevant keywords from job description" suggestions ;;
  suggestions <--
    suggestion validation_results "structure"
      "Reorganize CV sections following standard ATS format" suggestions ;;
  suggestion validation_results "content"
    "Enhance content clarity and achievement descriptions" suggestions.

Section Validator.

(** [self.model_manager.get_structured_completion(prompt=...,
    output_schema=..., task_type=...)] *)
Variable get_structured_completion :
  string -> Gateway.schema -> option string -> result pyval.

(** The exception [d[:3]] raises on a dictionary, which depends on the
    version of the interpreter. *)
Variable dict_slice_error : exn.

(** [v[:3]] *)
Definition first_three (v : pyval) : result (list pyval) :=
  match v with
  | PList l => Ok (firstn 3 l)
  | PStr s =>
      Ok (map (fun c => PStr (String c "")) (firstn 3 (list_ascii_of_string s)))
  | PDict _ => Raise dict_slice_error
  | _ => Raise TypeError
  end.

(** [_validate_format] *)
Definition _validate_format (cv_text : string) : pyval :=
  match
    format_analysis <--
      get_structured_completion (format_prompt cv_text) format_schema
        (Some "ats_validation") ;;
    score <-- py_item format_analysis "format_score" ;;
    issues <-- py_item format_analysis "formatting_issues" ;;
    passes <-- py_item format_analysis "is_clean_format" ;;
    Ok (PDict [ ("score", score); ("issues", issues); ("passes_validation", passes) ])
  with
  | Ok check => check
  | Raise _ => failed_check
  end.

(** [_validate_keywords] *)
Definition _validate_keywords (cv_text job_description : string) : pyval :=
  match
    keyword_analysis <--
      get_structured_completion (keyword_prompt cv_text job_description)
        keyword_schema (Some "keyword_validation") ;;
    score <-- py_item keyword_analysis "keyword_placement_score" ;;
    matched <-- py_item keyword_analysis "keyword_matches" ;;
    missing <-- py_item keyword_analysis "missing_keywords" ;;
    placement <-- py_item keyword_analysis "keyword_placement_score" ;;
    passes <-- Coordinator.py_ge placement 70 ;;
    Ok (PDict [ ("score", score); ("matched_keywords", matched);
                ("missing_keywords", missing); ("passes_validation", PBool passes) ])
  with
  | Ok check => check
  | Raise _ => failed_keyword_check
  end.

(** [_validate_content]: the sum of the three scores is divided by 3,
    which only a number allows. *)
Definition _validate_content (cv_text job_description : string) : pyval :=
  match
    content_analysis <--
      get_structured_completion (content_prompt cv_text job_description)
        content_schema (Some "content_validation") ;;
    clarity <-- py_item content_analysis "content_clarity" ;;
    bullets <-- py_item content_analysis "bullet_point_quality" ;;
    focus <-- py_item content_analysis "achievement_focus" ;;
    clarity <-- number clarity ;;
    bullets <-- number bullets ;;
    focus <-- number focus ;;
    let average_score := (clarity + bullets + focus) / 3 in
    issues <-- py_item content_analysis "content_issues" ;;
    Ok (PDict [ ("score", PFloat average_score); ("issues", issues);
                ("passes_validation", PBool (geb average_score 70)) ])
  with
  | Ok check => check
  | Raise _ => failed_check
  end.

(** One block of [_identify_critical_issues] that extends the list. *)
Definition critical_from (validation_results : pyval) (name : string)
    (critical_issues : list pyval) : result (list pyval) :=
  check <-- py_item validation_results name ;;
  passes <-- py_item check "passes_validation" ;;
  if negb (truthy passes) then
    check <-- py_item validation_results name ;;
    issues <-- py_item check "issues" ;;
    items <-- Coordinator.py_iter issues ;;
    Ok (critical_issues ++ items)%list
  else Ok critical_issues.

(** [_identify_critical_issues] *)
Definition _identify_critical_issues (validation_results : pyval)
  : result (list pyval) :=
  critical_issues <-- critical_from validation_results "format" [] ;;
  keywords <-- py_item validation_results "keywords" ;;
  passes <-- py_item keywords "passes_validation" ;;
  critical_issues <--
    (if negb (truthy passes) then
       keywords <-- py_item validation_results "keywords" ;;
       missing <-- py_item keywords "missing_keywords" ;;
       missing <-- first_three missing ;;
       names <-- strings_of missing ;;
       Ok (critical_issues
           ++ [PStr ("Missing critical keywords: " ++ join ", " names)])%list
     else Ok critical_issues) ;;
  critical_issues <-- critical_from validation_results "structure" critical_issues ;;
  critical_from validation_results "content" critical_issues.

(** [validate_cv]: the [except] clause re-raises. *)
Definition validate_cv (cv_text job_description : string) : result pyval :=
  let format_check := _validate_format cv_text in
  let keyword_check := _validate_keywords cv_text job_description in
  let structure_check := _validate_structure cv_text in
  let content_check := _validate_content cv_text job_description in
  let validation_results :=
    PDict [ ("format", format_check); ("keywords", keyword_check);
            ("structure", structure_check); ("content", content_check) ] in
  overall_score <-- _calculate_overall_score validation_results ;;
  critical_issues <-- _identify_critical_issues validation_results ;;
  improvement_suggestions <-- _generate_suggestions validation_results ;;
  Ok (PDict
        [ ("overall_score", PFloat overall_score);
          ("is_ats_compliant", PBool (geb overall_score 75));
          ("validation_details",
            PDict [ ("format_validation", format_check);
                    ("keyword_validation", keyword_check);
                    ("structure_validation", structure_check);
                    ("content_validation", content_check) ]);
          ("critical_issues", PList critical_issues);
          ("improvement_suggestions", PList improvement_suggestions) ]).

End Validator.

End ATSValidator.

(** A model that answers the question about the format with the JSON
    list of the names of the format schema, and every other question
    with prose; a decoder that agrees with [json.loads] on these
    answers; and the model manager over the two, as the validator calls
    it. *)
Module ValidatorSamples.
Local Open Scope string_scope.
Import Py Samples.

Definition json_format_names : string :=
  "[" ++ PyStr.join ", "
           (map (fun k => dq ++ k ++ dq) (dict_keys ATSValidator.format_schema))
  ++ "]".

Definition lists_names (log : list Gateway.request) (rq : Gateway.request)
  : Gateway.reply :=
  if PyStr.contains "Analyze the format of this CV" (Gateway.rq_prompt rq)
  then Gateway.Text json_format_names
  else Gateway.Text "I am sorry, I cannot help with that.".

Definition loads_names (s : string) : result pyval :=
  if String.eqb s json_format_names
  then Ok (PList (map PStr (dict_keys ATSValidator.format_schema)))
  else Raise JSONDecodeError.

Definition manager (prompt : string) (output_schema : Gateway.schema)
    (task_type : option string) : result pyval :=
  fst (Gateway.get_structured_completion lists_names loads_names sample_dumps
         prompt output_schema task_type None []).

End ValidatorSamples.

(* ================================================================== *)
(** * Properties *)
(* ================================================================== *)

(** ** Numbers *)

Lemma round_half_even_proper (x y : Q) :
  (x == y)%Q -> PyNum.round_half_even x = PyNum.round_half_even y.
Proof.
  intros H. unfold PyNum.round_half_even.
  rewrite (Qfloor_comp x y H).
  assert (E : Qcompare (x - inject_Z (Qfloor y)) (1 # 2) =
              Qcompare (y - inject_Z (Qfloor y)) (1 # 2))
    by (apply Qcompare_comp; [rewrite H|]; reflexivity).
  rewrite E. reflexivity.
Qed.

Lemma round2_proper (x y : Q) : (x == y)%Q -> PyNum.round2 x = PyNum.round2 y.
Proof.
  intros H. unfold PyNum.round2.
  rewrite (round_half_even_proper (x * 100) (y * 100)); [reflexivity|].
  rewrite H. reflexivity.
Qed.

Lemma geb_true_iff (x y : Q) : PyNum.geb x y = true <-> (y <= x)%Q.
Proof. unfold PyNum.geb. apply Qle_bool_iff. Qed.

Lemma geb_false_iff (x y : Q) : PyNum.geb x y = false <-> (x < y)%Q.
Proof.
  unfold PyNum.geb. split; intros H.
  - apply Qnot_le_lt. intros L. apply Qle_bool_iff in L. congruence.
  - destruct (Qle_bool y x) eqn:E; [|reflexivity].
    apply Qle_bool_iff in E. exfalso. exact (Qlt_not_le _ _ H E).
Qed.

Lemma gtb_true_iff (x y : Q) : PyNum.gtb x y = true <-> (y < x)%Q.
Proof.
  unfold PyNum.gtb. rewrite negb_true_iff. apply (geb_false_iff y x).
Qed.

Lemma gtb_false_iff (x y : Q) : PyNum.gtb x y = false <-> (x <= y)%Q.
Proof.
  unfold PyNum.gtb. rewrite negb_false_iff. apply Qle_bool_iff.
Qed.

(** ** ATSRules *)

Section ATSRulesFacts.
Import PyStr ATSRules.
Local Open Scope string_scope.

Lemma in_list_iff (x : string) (l : list string) :
  in_list x l = true <-> In x l.
Proof.
  unfold in_list. rewrite existsb_exists. split.
  - intros [y [Hy E]]. apply String.eqb_eq in E. subst. exact Hy.
  - intros H. exists x. split; [exact H | apply String.eqb_refl].
Qed.

(** The issues of [validate_format], check by check. *)
Lemma validate_format_issues (file_format : string) (file_size_mb : Q) :
  issues (validate_format file_format file_size_mb) =
    ((if in_list (lower file_format) [".pdf"; ".docx"]
      then [] else [unsupported_format_msg]) ++
     (if PyNum.gtb file_size_mb 10 then [file_too_large_msg] else []))%list.
Proof.
  unfold validate_format. simpl allowed_formats. simpl max_file_size_mb.
  change (inject_Z 10) with 10%Q.
  destruct (in_list (lower file_format) [".pdf"; ".docx"]);
    destruct (PyNum.gtb file_size_mb 10); reflexivity.
Qed.

Lemma validate_format_valid (file_format : string) (file_size_mb : Q) :
  valid (validate_format file_format file_size_mb) =
    in_list (lower file_format) [".pdf"; ".docx"] && negb (PyNum.gtb file_size_mb 10).
Proof.
  unfold validate_format. simpl allowed_formats. simpl max_file_size_mb.
  change (inject_Z 10) with 10%Q.
  destruct (in_list (lower file_format) [".pdf"; ".docx"]);
    destruct (PyNum.gtb file_size_mb 10); reflexivity.
Qed.

Lemma gtb_Qred (x y : Q) : PyNum.gtb (Qred x) y = PyNum.gtb x y.
Proof.
  unfold PyNum.gtb. f_equal. apply Qleb_comp; [apply Qred_correct | reflexivity].
Qed.

(** The first two required sections name no key of the synonym table;
    the last two do. *)
Lemma section_type_of_required :
  section_type_of "contact_information" = None /\
  section_type_of "professional_experience" = None /\
  section_type_of "education" = Some "education" /\
  section_type_of "skills" = Some "skills".
Proof. repeat split; reflexivity. Qed.

(** What the loop of [validate_structure] amounts to. *)
Lemma validate_structure_issues (sections : list string) :
  issues (validate_structure sections) =
    check_required (map _normalize_section_title sections)
      (check_required (map _normalize_section_title sections) [] "education")
      "skills".
Proof.
  unfold validate_structure. simpl issues. simpl required_sections.
  cbn [fold_left].
  set (ns := map _normalize_section_title sections).
  assert (C : forall i, check_required ns i "contact_information" = i).
  { intros i. unfold check_required.
    destruct section_type_of_required as [E _]. rewrite E. reflexivity. }
  assert (P : forall i, check_required ns i "professional_experience" = i).
  { intros i. unfold check_required.
    destruct section_type_of_required as [_ [E _]]. rewrite E. reflexivity. }
  rewrite C, P. reflexivity.
Qed.

Lemma check_required_cases (ns issues0 : list string) (required : string) :
  check_required ns issues0 required = issues0 \/
  check_required ns issues0 required =
    (issues0 ++ [("Missing required section: " ++ required)%string])%list.
Proof.
  unfold check_required.
  destruct (section_type_of required) as [st|]; [|left; reflexivity].
  destruct (st =? ""); [left; reflexivity|].
  match goal with |- context [if ?b then _ else _] => destruct b end;
    [right | left]; reflexivity.
Qed.

End ATSRulesFacts.

(** C9. [validate_format] is invalid exactly when the lower-cased
    extension is neither [.pdf] nor [.docx] or the size exceeds 10; the
    two checks are independent and their messages add up, in this order;
    the result depends on the size as a number only; and the three sample
    calls of the test suite come out as stated. *)
Theorem validate_format_correct (file_format : string) (file_size_mb : Q) :
  let r := ATSRules.validate_format file_format file_size_mb in
  (ATSRules.valid r = false <->
     ~ In (PyStr.lower file_format) [".pdf"; ".docx"]%string \/ (10 < file_size_mb)%Q) /\
  (ATSRules.valid r = true <-> ATSRules.issues r = []) /\
  ATSRules.issues r =
    (if PyStr.in_list (PyStr.lower file_format) [".pdf"; ".docx"]%string
     then [] else ["Unsupported format. Use .pdf, .docx"%string]) ++
    (if PyNum.gtb file_size_mb 10
     then ["File too large. Maximum size is 10MB"%string] else []) /\
  (~ In (PyStr.lower file_format) [".pdf"; ".docx"]%string ->
   (10 < file_size_mb)%Q ->
   ATSRules.issues r = ["Unsupported format. Use .pdf, .docx"%string;
                        "File too large. Maximum size is 10MB"%string]) /\
  ATSRules.validate_format file_format (Qred file_size_mb) = r /\
  ATSRules.validate_format ".pdf" 5 = {| ATSRules.valid := true; ATSRules.issues := [] |} /\
  ATSRules.valid (ATSRules.validate_format ".jpg" 5) = false /\
  (1 <= List.length (ATSRules.issues (ATSRules.validate_format ".jpg" 5)))%nat /\
  ATSRules.valid (ATSRules.validate_format ".pdf" 15) = false.
Proof.
  intros r. subst r.
  pose proof (validate_format_issues file_format file_size_mb) as HI.
  pose proof (validate_format_valid file_format file_size_mb) as HV.
  change ATSRules.unsupported_format_msg
    with "Unsupported format. Use .pdf, .docx"%string in HI.
  change ATSRules.file_too_large_msg
    with "File too large. Maximum size is 10MB"%string in HI.
  pose proof (in_list_iff (PyStr.lower file_format) [".pdf"; ".docx"]%string) as HL.
  pose proof (gtb_true_iff file_size_mb 10) as HG.
  repeat split.
  - intros Hf. rewrite HV in Hf. apply andb_false_iff in Hf.
    destruct Hf as [Hf | Hf].
    + left. intros Hin. apply HL in Hin. congruence.
    + right. apply HG. apply negb_false_iff. exact Hf.
  - intros [Hn | Hs]; rewrite HV; apply andb_false_iff.
    + left. destruct (PyStr.in_list _ _); [|reflexivity].
      exfalso. apply Hn. apply HL. reflexivity.
    + right. apply negb_false_iff. apply HG. exact Hs.
  - intros Hv. rewrite HV in Hv. apply andb_true_iff in Hv.
    destruct Hv as [Ha Hb]. apply negb_true_iff in Hb.
    rewrite HI, Ha, Hb. reflexivity.
  - intros He. rewrite HV. rewrite HI in He.
    destruct (PyStr.in_list _ _); destruct (PyNum.gtb _ _);
      try discriminate; reflexivity.
  - exact HI.
  - intros Hn Hs. rewrite HI.
    destruct (PyStr.in_list _ _).
    + exfalso. apply Hn. apply HL. reflexivity.
    + apply HG in Hs. rewrite Hs. reflexivity.
  - unfold ATSRules.validate_format. rewrite gtb_Qred. reflexivity.
  - vm_compute. apply le_n.
Qed.

(** C1 (what the code does). Only the education and the skills category
    are ever checked: each contributes at most one issue, [valid] holds
    exactly when there is no issue, and no input makes the contact or the
    experience category an issue. For the empty title list two categories
    are reported, not four, and a CV with only an education and a skills
    section passes. *)
Theorem validate_structure_checks_two_categories :
  ATSRules.validate_structure [] =
    {| ATSRules.valid := false;
       ATSRules.issues := ["Missing required section: education"%string;
                           "Missing required section: skills"%string] |} /\
  ATSRules.validate_structure ["Education"; "Skills"]%string =
    {| ATSRules.valid := true; ATSRules.issues := [] |} /\
  (forall sections : list string,
     let r := ATSRules.validate_structure sections in
     (List.length (ATSRules.issues r) <= 2)%nat /\
     (ATSRules.valid r = true <-> ATSRules.issues r = []) /\
     (forall issue, In issue (ATSRules.issues r) ->
        issue = "Missing required section: education"%string \/
        issue = "Missing required section: skills"%string)).
Proof.
  split; [reflexivity|]. split; [reflexivity|].
  intros sections r. subst r.
  assert (HV : ATSRules.valid (ATSRules.validate_structure sections) =
               (List.length (ATSRules.issues (ATSRules.validate_structure sections)) =? 0)%nat)
    by reflexivity.
  rewrite HV. rewrite validate_structure_issues.
  set (ns := map ATSRules._normalize_section_title sections).
  destruct (check_required_cases ns [] "education"%string) as [E | E];
    destruct (check_required_cases ns (ATSRules.check_required ns [] "education"%string)
                "skills"%string) as [S | S];
    rewrite S, E; cbn [app List.length Nat.eqb In String.append];
    (split; [lia|]); (split; [split; [discriminate || reflexivity | discriminate || reflexivity]|]);
    intros issue Hin; cbn in Hin; intuition.
Qed.

(** ** CVMatcher *)

Section CVMatcherFacts.
Import Py PyNum CVMatcher SkillsSpec.
Local Open Scope Q_scope.

Lemma mem_true_iff (x : hkey) (s : list hkey) : mem x s = true <-> In x s.
Proof.
  unfold mem. destruct (in_dec hkey_eq_dec x s); split; intros; auto; discriminate.
Qed.

Lemma py_set_NoDup (v : pyval) (s : list hkey) : py_set v = Ok s -> NoDup s.
Proof.
  destruct v; simpl; try discriminate.
  - intros H. injection H as <-. apply NoDup_nodup.
  - destruct (hash_all l); [|discriminate].
    intros H. injection H as <-. apply NoDup_nodup.
  - intros H. injection H as <-. apply NoDup_nodup.
Qed.

(** The two ways of counting an intersection agree on sets. *)
Lemma intersection_length (a b : list hkey) :
  NoDup a -> NoDup b ->
  List.length (intersection a b) = List.length (filter (fun x => mem x a) b).
Proof.
  intros Ha Hb. unfold intersection. apply Nat.le_antisymm.
  - apply NoDup_incl_length; [apply NoDup_filter; exact Ha|].
    intros x Hx. apply filter_In in Hx. destruct Hx as [H1 H2].
    apply filter_In. split; [apply mem_true_iff; exact H2 | apply mem_true_iff; exact H1].
  - apply NoDup_incl_length; [apply NoDup_filter; exact Hb|].
    intros x Hx. apply filter_In in Hx. destruct Hx as [H1 H2].
    apply filter_In. split; [apply mem_true_iff; exact H2 | apply mem_true_iff; exact H1].
Qed.

Lemma recall_score_recall (cv_skills wanted : list hkey) :
  NoDup cv_skills -> NoDup wanted ->
  recall_score (intersection cv_skills wanted) wanted = recall cv_skills wanted.
Proof.
  intros Hc Hw. unfold recall_score, recall, len.
  rewrite (intersection_length cv_skills wanted Hc Hw). reflexivity.
Qed.

(** The same on doubles. *)
Lemma recall_score_recall64 (cv_skills wanted : list hkey) :
  NoDup cv_skills -> NoDup wanted ->
  CVMatcher64.recall_score (intersection cv_skills wanted) wanted
    = SkillsSpec.recall64 cv_skills wanted.
Proof.
  intros Hc Hw. unfold CVMatcher64.recall_score, SkillsSpec.recall64, CVMatcher64.len.
  rewrite (intersection_length cv_skills wanted Hc Hw).
  destruct wanted as [|w wanted]; reflexivity.
Qed.

Lemma round2_90 : round2 90 = 9000 # 100.
Proof. reflexivity. Qed.

End CVMatcherFacts.

(** C7. The match level is a step function of the score whose bands
    include their lower bound; it depends on the score as a number only;
    the boundary values of the specification come out as listed. *)
Theorem get_match_level_bands (score : Q) :
  ((90 <= score)%Q -> CVMatcher._get_match_level score = "Excellent Match"%string) /\
  ((75 <= score)%Q -> (score < 90)%Q ->
     CVMatcher._get_match_level score = "Strong Match"%string) /\
  ((60 <= score)%Q -> (score < 75)%Q ->
     CVMatcher._get_match_level score = "Good Match"%string) /\
  ((40 <= score)%Q -> (score < 60)%Q ->
     CVMatcher._get_match_level score = "Partial Match"%string) /\
  ((score < 40)%Q -> CVMatcher._get_match_level score = "Low Match"%string) /\
  CVMatcher._get_match_level (Qred score) = CVMatcher._get_match_level score /\
  CVMatcher._get_match_level 90 = "Excellent Match"%string /\
  CVMatcher._get_match_level 89.999 = "Strong Match"%string /\
  CVMatcher._get_match_level 75 = "Strong Match"%string /\
  CVMatcher._get_match_level 74.999 = "Good Match"%string /\
  CVMatcher._get_match_level 60 = "Good Match"%string /\
  CVMatcher._get_match_level 40 = "Partial Match"%string /\
  CVMatcher._get_match_level 39.999 = "Low Match"%string.
Proof.
  assert (B : forall b, (PyNum.geb score b = true /\ (b <= score)%Q) \/
                        (PyNum.geb score b = false /\ (score < b)%Q)).
  { intros b. destruct (PyNum.geb score b) eqn:E.
    - left. split; [reflexivity | apply geb_true_iff; exact E].
    - right. split; [reflexivity | apply geb_false_iff; exact E]. }
  unfold CVMatcher._get_match_level.
  destruct (B 90%Q) as [[E90 L90] | [E90 L90]];
  destruct (B 75%Q) as [[E75 L75] | [E75 L75]];
  destruct (B 60%Q) as [[E60 L60] | [E60 L60]];
  destruct (B 40%Q) as [[E40 L40] | [E40 L40]];
  rewrite ?E90, ?E75, ?E60, ?E40;
  (repeat split; try reflexivity; try (intros; reflexivity); try (intros; exfalso; lra));
  unfold PyNum.geb;
  rewrite ?(Qleb_comp _ _ (Qeq_refl _) _ _ (Qred_correct score));
  fold (PyNum.geb score 90); fold (PyNum.geb score 75);
  fold (PyNum.geb score 60); fold (PyNum.geb score 40);
  rewrite ?E90, ?E75, ?E60, ?E40; reflexivity.
Qed.

(** The overall score of three perfect sub-scores. *)
Lemma perfect_overall (s e d : Q) :
  (s == 100)%Q -> (e == 100)%Q -> (d == 100)%Q ->
  (PyNum.round2 (s * 0.4 + e * 0.3 + d * 0.2) == 90)%Q /\
  ~ (PyNum.round2 (s * 0.4 + e * 0.3 + d * 0.2) == 100)%Q.
Proof.
  intros Hs He Hd.
  assert (E : (s * 0.4 + e * 0.3 + d * 0.2 == 90)%Q) by (rewrite Hs, He, Hd; reflexivity).
  rewrite (round2_proper _ _ E). rewrite round2_90.
  split; [reflexivity | discriminate].
Qed.

(** C5 (as the code has it). Whenever [match_cv_to_job] returns, the
    result holds the three sub-matches of the two analyses and its
    overall score is [skills * 0.4 + experience * 0.3 + education * 0.2]
    as the interpreter evaluates it on doubles, from left to right, and
    then rounded to two places; with three sub-scores of 100 that is
    exactly 90 and not 100. The call returns whenever both analyses do,
    and otherwise raises what the failing analysis raised. *)
Theorem match_cv_to_job_overall_score
    (py_str : Py.pyval -> string)
    (analyze_cv analyze_job : string -> Py.result Py.pyval)
    (cv_text job_description : string) :
  match CVMatcher64.match_cv_to_job py_str analyze_cv analyze_job cv_text
          job_description with
  | Py.Ok r =>
      let s := CVMatcher64.sm_score (CVMatcher64.skills_match r) in
      let e := CVMatcher64.em_score (CVMatcher64.experience_match r) in
      let d := CVMatcher64.ed_score (CVMatcher64.education_match r) in
      (exists cv job,
         analyze_cv cv_text = Py.Ok cv /\
         analyze_job job_description = Py.Ok job /\
         CVMatcher64.skills_match r = CVMatcher64._calculate_skills_match cv job /\
         CVMatcher64.experience_match r = CVMatcher64._calculate_experience_match cv job /\
         CVMatcher64.education_match r
           = CVMatcher64._calculate_education_match py_str cv job) /\
      CVMatcher64.score (CVMatcher64.overall_match r) =
        Binary64.round2
          (Binary64.add
             (Binary64.add (Binary64.mul s (Binary64.dec 4 10))
                           (Binary64.mul e (Binary64.dec 3 10)))
             (Binary64.mul d (Binary64.dec 2 10))) /\
      (s = Binary64.of_Z 100 -> e = Binary64.of_Z 100 -> d = Binary64.of_Z 100 ->
       CVMatcher64.score (CVMatcher64.overall_match r) = Binary64.of_Z 90 /\
       CVMatcher64.score (CVMatcher64.overall_match r) <> Binary64.of_Z 100)
  | Py.Raise ex =>
      analyze_cv cv_text = Py.Raise ex \/ analyze_job job_description = Py.Raise ex
  end /\
  (forall cv job,
     analyze_cv cv_text = Py.Ok cv -> analyze_job job_description = Py.Ok job ->
     exists r,
       CVMatcher64.match_cv_to_job py_str analyze_cv analyze_job cv_text job_description
       = Py.Ok r).
Proof.
  unfold CVMatcher64.match_cv_to_job.
  destruct (analyze_cv cv_text) as [cv | ex] eqn:Ecv; cbn [Py.rbind].
  - destruct (analyze_job job_description) as [job | ex] eqn:Ejob; cbn [Py.rbind].
    + split.
      * cbn [CVMatcher64.overall_match CVMatcher64.skills_match
             CVMatcher64.experience_match CVMatcher64.education_match
             CVMatcher64.score].
        cbn [CVMatcher64.matching_weights CVMatcher64.w_required_skills
             CVMatcher64.w_experience CVMatcher64.w_education].
        split; [exists cv, job; repeat split; reflexivity|].
        split; [reflexivity|].
        intros -> -> ->. split; [vm_compute; reflexivity|].
        vm_compute. discriminate.
      * intros cv' job' _ _. eexists. reflexivity.
    + split; [right; reflexivity|]. intros cv' job' _ H. discriminate.
  - split; [left; reflexivity|]. intros cv' job' H. discriminate.
Qed.

(** C5 (as stated) fails in the last digit: with five years against
    eleven the experience score is 45.45, the sum the interpreter forms
    from 100, 45.45 and 100 lies just below 73.635, and the score is
    73.63, while the weighted sum of the three scores, rounded to two
    places, is 73.64. *)
Lemma overall_score_differs_from_rounded_sum :
  match CVMatcher64.match_cv_to_job Samples.sample_str
          (fun _ => Py.Ok Samples.five_of_eleven_cv)
          (fun _ => Py.Ok Samples.five_of_eleven_job) "cv"%string "job"%string with
  | Py.Ok r =>
      let s := CVMatcher64.sm_score (CVMatcher64.skills_match r) in
      let e := CVMatcher64.em_score (CVMatcher64.experience_match r) in
      let d := CVMatcher64.ed_score (CVMatcher64.education_match r) in
      s = Binary64.of_Z 100 /\
      e = Binary64.dec 4545 100 /\
      d = Binary64.of_Z 100 /\
      CVMatcher64.score (CVMatcher64.overall_match r) = Binary64.dec 7363 100 /\
      (PyNum.round2 (Binary64.to_Q s * 0.4 + Binary64.to_Q e * 0.3
                     + Binary64.to_Q d * 0.2) == 73.64)%Q /\
      (Binary64.to_Q (CVMatcher64.score (CVMatcher64.overall_match r)) < 73.64)%Q
  | Py.Raise _ => False
  end.
Proof. vm_compute. repeat split; congruence. Qed.

(** The end-to-end scenario of the specification: all three sub-scores
    are 100, the overall score is 90, and the level is read from 90. *)
Example scenario_overall_score :
  match CVMatcher.match_cv_to_job Samples.sample_str
          (fun _ => Py.Ok Samples.scenario_cv) (fun _ => Py.Ok Samples.scenario_job)
          "cv"%string "job"%string with
  | Py.Ok r =>
      (CVMatcher.sm_score (CVMatcher.skills_match r) == 100)%Q /\
      (CVMatcher.em_score (CVMatcher.experience_match r) == 100)%Q /\
      (CVMatcher.ed_score (CVMatcher.education_match r) == 100)%Q /\
      (CVMatcher.score (CVMatcher.overall_match r) == 90)%Q /\
      CVMatcher.match_level (CVMatcher.overall_match r) = "Excellent Match"%string
  | Py.Raise _ => False
  end.
Proof. vm_compute. repeat split; reflexivity. Qed.

(** The same scenario on doubles. *)
Example scenario_overall_score_double :
  match CVMatcher64.match_cv_to_job Samples.sample_str
          (fun _ => Py.Ok Samples.scenario_cv) (fun _ => Py.Ok Samples.scenario_job)
          "cv"%string "job"%string with
  | Py.Ok r =>
      CVMatcher64.sm_score (CVMatcher64.skills_match r) = Binary64.of_Z 100 /\
      CVMatcher64.em_score (CVMatcher64.experience_match r) = Binary64.of_Z 100 /\
      CVMatcher64.ed_score (CVMatcher64.education_match r) = Binary64.of_Z 100 /\
      CVMatcher64.score (CVMatcher64.overall_match r) = Binary64.of_Z 90 /\
      CVMatcher64.match_level (CVMatcher64.overall_match r) = "Excellent Match"%string
  | Py.Raise _ => False
  end.
Proof. vm_compute. repeat split; reflexivity. Qed.

(** C6 (as the code has it). The skills score is the weighted recall,
    0.7 for the required and 0.3 for the preferred skills, formed on
    doubles and then rounded to two places, where a recall is the share
    of the wanted set found among the CV skills, in percent, and 100 for
    an empty wanted set; when one of the three sets cannot be built the
    score is 0. *)
Theorem skills_match_score (cv_analysis job_analysis : Py.pyval) :
  CVMatcher64.sm_score (CVMatcher64._calculate_skills_match cv_analysis job_analysis) =
    match SkillsSpec.required_set job_analysis,
          SkillsSpec.preferred_set job_analysis,
          SkillsSpec.cv_set cv_analysis with
    | Py.Ok required, Py.Ok preferred, Py.Ok cv_skills =>
        Binary64.round2 (SkillsSpec.weighted_recall64 cv_skills required preferred)
    | _, _, _ => Binary64.of_Z 0
    end.
Proof.
  unfold CVMatcher64._calculate_skills_match, CVMatcher64.skills_match_try,
    SkillsSpec.required_set, SkillsSpec.preferred_set, SkillsSpec.cv_set,
    SkillsSpec.weighted_recall64.
  destruct (Py.py_get job_analysis "requirements" (Py.PDict [])) as [rq | ex];
    cbn [Py.rbind]; [|reflexivity].
  destruct (Py.py_get rq "required_skills" (Py.PList [])) as [rs | ex];
    cbn [Py.rbind]; [|reflexivity].
  destruct (CVMatcher.py_set rs) as [required | ex] eqn:Er;
    cbn [Py.rbind]; [|reflexivity].
  destruct (Py.py_get rq "preferred_skills" (Py.PList [])) as [ps | ex];
    cbn [Py.rbind]; [|reflexivity].
  destruct (CVMatcher.py_set ps) as [preferred | ex] eqn:Ep;
    cbn [Py.rbind]; [|reflexivity].
  destruct (Py.py_get cv_analysis "skills" (Py.PDict [])) as [sk | ex];
    cbn [Py.rbind]; [|reflexivity].
  destruct (Py.py_get sk "technical_skills" (Py.PList [])) as [ts | ex];
    cbn [Py.rbind]; [|reflexivity].
  destruct (CVMatcher.py_set ts) as [cv_skills | ex] eqn:Ec;
    cbn [Py.rbind]; [|reflexivity].
  cbn [CVMatcher64.sm_score].
  apply py_set_NoDup in Er, Ep, Ec.
  rewrite (recall_score_recall64 cv_skills required Ec Er).
  rewrite (recall_score_recall64 cv_skills preferred Ec Ep).
  reflexivity.
Qed.

(** C6 (as stated) fails: with one of three required skills and nothing
    preferred the weighted recall is the double 53.33333333333333, while
    the score is 53.33. *)
Lemma skills_match_score_is_rounded :
  SkillsSpec.required_set Samples.one_of_three_job
    = Py.Ok [CVMatcher.HStr "Python"; CVMatcher.HStr "Go"; CVMatcher.HStr "Rust"] /\
  SkillsSpec.preferred_set Samples.one_of_three_job = Py.Ok [] /\
  SkillsSpec.cv_set Samples.one_of_three_cv = Py.Ok [CVMatcher.HStr "Python"] /\
  SkillsSpec.weighted_recall64 [CVMatcher.HStr "Python"]
     [CVMatcher.HStr "Python"; CVMatcher.HStr "Go"; CVMatcher.HStr "Rust"] []
   = Binary64.div_int 5333333333333333 100000000000000 /\
  CVMatcher64.sm_score
     (CVMatcher64._calculate_skills_match Samples.one_of_three_cv Samples.one_of_three_job)
   = Binary64.dec 5333 100 /\
  Binary64.ltb
    (CVMatcher64.sm_score
       (CVMatcher64._calculate_skills_match Samples.one_of_three_cv
          Samples.one_of_three_job))
    (SkillsSpec.weighted_recall64 [CVMatcher.HStr "Python"]
       [CVMatcher.HStr "Python"; CVMatcher.HStr "Go"; CVMatcher.HStr "Rust"] [])
  = true.
Proof. vm_compute. repeat split. Qed.

(** Thirteen of sixteen required skills and none of one preferred: the
    sum the interpreter forms lies just below 56.875 and the score is
    56.87. *)
Example skills_match_thirteen_of_sixteen :
  CVMatcher64.sm_score
    (CVMatcher64._calculate_skills_match Samples.thirteen_of_sixteen_cv
       Samples.thirteen_of_sixteen_job)
  = Binary64.dec 5687 100.
Proof. vm_compute. reflexivity. Qed.

(** A requirement entry that is not a dictionary is caught and scored 0. *)
Example skills_match_malformed :
  CVMatcher64.sm_score
    (CVMatcher64._calculate_skills_match Samples.scenario_cv
       (Py.PDict [("requirements"%string, Py.PStr "")])) = Binary64.of_Z 0.
Proof. reflexivity. Qed.

(** ** QualityMetrics and Coordinator *)

(** C8 (as the code has it). [calculate_overall_quality] returns
    [cv * 0.4 + letter * 0.3 + ats * 0.3], formed on doubles from left
    to right and then rounded to two places, and meets the threshold
    exactly when that sum, before rounding, is at least 75;
    [_aggregate_results] returns [ats * 0.4 + cv * 0.4 + letter * 0.2],
    formed and rounded likewise, whenever the three results carry an
    overall score that is a number a double can hold, and raises
    otherwise; both weight tables sum to 1; and the two aggregations
    differ on the scores cv 0, letter 100, ats 0. *)
Theorem overall_aggregations (cv_score letter_score ats_score : spec_float)
    (ats_results cv_results letter_results : Py.pyval) :
  let q := Quality64.calculate_overall_quality cv_score letter_score ats_score in
  let sum :=
    Binary64.add
      (Binary64.add (Binary64.mul cv_score (Binary64.dec 4 10))
                    (Binary64.mul letter_score (Binary64.dec 3 10)))
      (Binary64.mul ats_score (Binary64.dec 3 10)) in
  Quality64.overall_score q = Binary64.round2 sum /\
  Quality64.meets_threshold q = Binary64.geb sum (Binary64.of_Z 75) /\
  match Quality64.overall_of ats_results, Quality64.overall_of cv_results,
        Quality64.overall_of letter_results with
  | Py.Ok a, Py.Ok c, Py.Ok l =>
      exists r,
        Quality64._aggregate_results ats_results cv_results letter_results = Py.Ok r /\
        Quality64.agg_overall_score r =
          Binary64.round2
            (Binary64.add
               (Binary64.add (Binary64.mul a (Binary64.dec 4 10))
                             (Binary64.mul c (Binary64.dec 4 10)))
               (Binary64.mul l (Binary64.dec 2 10)))
  | _, _, _ =>
      exists ex,
        Quality64._aggregate_results ats_results cv_results letter_results = Py.Raise ex
  end /\
  Binary64.add
    (Binary64.add (Quality64.weight_cv Quality64.weights)
                  (Quality64.weight_letter Quality64.weights))
    (Quality64.weight_ats Quality64.weights) = Binary64.of_Z 1 /\
  Binary64.add
    (Binary64.add (Quality64.ats_compliance Quality64.quality_weights)
                  (Quality64.cv_quality Quality64.quality_weights))
    (Quality64.letter_quality Quality64.quality_weights) = Binary64.of_Z 1 /\
  Quality64.overall_score
    (Quality64.calculate_overall_quality (Binary64.of_Z 0) (Binary64.of_Z 100)
       (Binary64.of_Z 0)) = Binary64.of_Z 30 /\
  (exists r,
     Quality64._aggregate_results (Quality.scored 0) (Quality.scored 0)
       (Quality.scored 100) = Py.Ok r /\
     Quality64.agg_overall_score r = Binary64.of_Z 20).
Proof.
  intros q sum. subst q sum.
  split; [reflexivity|].
  split; [reflexivity|].
  split.
  { unfold Quality64.overall_of, Quality64._aggregate_results.
    destruct (Py.py_item ats_results "overall_score") as [va | ex];
      cbn [Py.rbind]; [|eexists; reflexivity].
    destruct (Quality64.number va) as [a | ex];
      cbn [Py.rbind]; [|eexists; reflexivity].
    destruct (Py.py_item cv_results "overall_score") as [vc | ex];
      cbn [Py.rbind]; [|eexists; reflexivity].
    destruct (Quality64.number vc) as [c | ex];
      cbn [Py.rbind]; [|eexists; reflexivity].
    destruct (Py.py_item letter_results "overall_score") as [vl | ex];
      cbn [Py.rbind]; [|eexists; reflexivity].
    destruct (Quality64.number vl) as [l | ex];
      cbn [Py.rbind]; [|eexists; reflexivity].
    eexists. split; reflexivity. }
  split; [vm_compute; reflexivity|]. split; [vm_compute; reflexivity|].
  split; [vm_compute; reflexivity|].
  eexists. split; vm_compute; reflexivity.
Qed.

(** C8 (as stated) fails: three scores of 74.996 give the rounded overall
    score 75, which is at least 75, and yet the threshold flag is false. *)
Lemma overall_quality_threshold_before_rounding :
  let x := Binary64.dec 74996 1000 in
  Quality64.overall_score (Quality64.calculate_overall_quality x x x) = Binary64.of_Z 75 /\
  Binary64.geb (Quality64.overall_score (Quality64.calculate_overall_quality x x x))
    (Binary64.of_Z 75) = true /\
  Quality64.meets_threshold (Quality64.calculate_overall_quality x x x) = false.
Proof. vm_compute. repeat split. Qed.

(** Two more points where the last digit of a double decides: the sum
    for 86.1, 85.8, 49.4 lies just below 75, so the flag is false though
    the score is 75; the sum for 90.58, 38.18, 56.63 lies just below
    64.675, so the score is 64.67. *)
Example overall_quality_last_digit :
  let q := Quality64.calculate_overall_quality (Binary64.dec 861 10)
             (Binary64.dec 858 10) (Binary64.dec 494 10) in
  let q' := Quality64.calculate_overall_quality (Binary64.dec 9058 100)
              (Binary64.dec 3818 100) (Binary64.dec 5663 100) in
  Quality64.meets_threshold q = false /\
  Quality64.overall_score q = Binary64.of_Z 75 /\
  Quality64.overall_score q' = Binary64.dec 6467 100.
Proof. vm_compute. repeat split. Qed.

(** ** WorkflowManager *)

Section WorkflowFacts.
Import Py Workflow.
Local Open Scope string_scope.

(** Resetting flags that carry the five stage names gives the initial
    flags. *)
Lemma reset_initial (s : states) :
  map fst s = map fst initial_states -> _reset_workflow_states s = initial_states.
Proof.
  intros H.
  destruct s as [|[k1 b1] [|[k2 b2] [|[k3 b3] [|[k4 b4] [|[k5 b5] [|? ?]]]]]];
    try discriminate.
  cbn in H. injection H as -> -> -> -> ->. reflexivity.
Qed.

(** Whatever a run does, the flags keep the five stage names: the
    hypothesis on the flags below holds of every state a manager reaches. *)
Lemma process_application_keeps_stages
    (py_str : pyval -> string)
    (process_document : string -> result pyval)
    (analyze_cv : pyval -> result pyval)
    (analyze_job : string -> result pyval)
    (match_cv_to_job : pyval -> string -> result pyval)
    (optimize_cv : pyval -> string -> result pyval)
    (generate_cover_letter : pyval -> string -> string -> result pyval)
    (assess_application_quality :
       pyval -> pyval -> string -> string -> option string -> result pyval)
    (cv_file_path job_description company_name : string) (industry : option string)
    (generate_letter : bool) (s0 : states) :
  map fst s0 = map fst initial_states ->
  map fst (snd (process_application py_str process_document analyze_cv analyze_job
                  match_cv_to_job optimize_cv generate_cover_letter
                  assess_application_quality cv_file_path job_description
                  company_name industry generate_letter s0))
  = map fst initial_states.
Proof.
  intros Hkeys.
  unfold process_application, wbind, reset, wlift, mark, status, wret, wraise.
  rewrite (reset_initial s0 Hkeys).
  repeat match goal with
         | |- context [match ?x with _ => _ end] =>
             match x with
             | context [match _ with _ => _ end] => fail 1
             | _ => destruct x
             end
         end; reflexivity.
Qed.

End WorkflowFacts.

(** C10. A run of [process_application] without a cover letter that
    returns leaves the flags of the first three stages and of the quality
    check set and the flag of the letter stage clear, so a later stage is
    complete while an earlier one is not; the status in the result, which
    is also the status read afterwards, counts 4 of 5 steps, that is 80
    percent. *)
Theorem process_application_without_letter
    (py_str : Py.pyval -> string)
    (process_document : string -> Py.result Py.pyval)
    (analyze_cv : Py.pyval -> Py.result Py.pyval)
    (analyze_job : string -> Py.result Py.pyval)
    (match_cv_to_job : Py.pyval -> string -> Py.result Py.pyval)
    (optimize_cv : Py.pyval -> string -> Py.result Py.pyval)
    (generate_cover_letter : Py.pyval -> string -> string -> Py.result Py.pyval)
    (assess_application_quality :
       Py.pyval -> Py.pyval -> string -> string -> option string -> Py.result Py.pyval)
    (cv_file_path job_description company_name : string) (industry : option string)
    (s0 s1 : Workflow.states) (r : Workflow.final_results_t) :
  map fst s0 = map fst Workflow.initial_states ->
  Workflow.process_application py_str process_document analyze_cv analyze_job
    match_cv_to_job optimize_cv generate_cover_letter assess_application_quality
    cv_file_path job_description company_name industry false s0 = (Py.Ok r, s1) ->
  s1 = [ ("document_processing", true); ("initial_analysis", true);
         ("optimization", true); ("letter_generation", false);
         ("quality_check", true) ]%string /\
  Workflow.get_state "letter_generation" s1 = Some false /\
  Workflow.get_state "quality_check" s1 = Some true /\
  Workflow.completed_steps (Workflow.workflow_status r) = 4%Z /\
  Workflow.total_steps (Workflow.workflow_status r) = 5%Z /\
  (Workflow.completion_percentage (Workflow.workflow_status r) == 80)%Q /\
  Workflow.get_workflow_status s1 = Py.Ok (Workflow.workflow_status r) /\
  Workflow.cover_letter r = Py.PNone.
Proof.
  intros Hkeys Hrun.
  unfold Workflow.process_application, Workflow.wbind, Workflow.reset,
    Workflow.wlift, Workflow.mark, Workflow.status, Workflow.wret,
    Workflow.wraise in Hrun.
  rewrite (reset_initial s0 Hkeys) in Hrun.
  destruct (process_document cv_file_path) as [cv_result|]; [|discriminate].
  destruct (Py.py_item cv_result "success") as [success|]; [|discriminate].
  destruct (negb (Py.truthy success)).
  { destruct (Py.py_item cv_result "error"); discriminate. }
  destruct (Py.py_item cv_result "content") as [cv_text|]; [|discriminate].
  destruct (analyze_cv cv_text); [|discriminate].
  destruct (analyze_job job_description); [|discriminate].
  destruct (match_cv_to_job cv_text job_description); [|discriminate].
  destruct (optimize_cv cv_text job_description) as [opt|]; [|discriminate].
  destruct (Py.py_item opt "optimized_cv") as [optimized|]; [|discriminate].
  cbn [Py.truthy] in Hrun.
  destruct (assess_application_quality optimized (Py.PStr "") job_description
              company_name industry); [|discriminate].
  cbn in Hrun. injection Hrun as <- <-.
  repeat split; reflexivity.
Qed.

(** The theorem applies to the successful run the test suite mocks, with
    the letter switched off. *)
Lemma process_application_without_letter_witness :
  exists r s1,
    Workflow.process_application Samples.sample_str Samples.ok_document
      Samples.ok_cv_analysis Samples.ok_job_analysis Samples.ok_match
      Samples.ok_optimization Samples.ok_letter
      Samples.ok_quality "test_cv.pdf" "Software Engineer position" "Tech Corp"
      None false Workflow.initial_states = (Py.Ok r, s1) /\
    Workflow.completed_steps (Workflow.workflow_status r) = 4%Z /\
    (Workflow.completion_percentage (Workflow.workflow_status r) == 80)%Q /\
    Workflow.get_state "letter_generation" s1 = Some false /\
    Workflow.get_state "quality_check" s1 = Some true.
Proof.
  eexists. eexists. split; [reflexivity|].
  pose proof (process_application_without_letter Samples.sample_str Samples.ok_document
      Samples.ok_cv_analysis Samples.ok_job_analysis Samples.ok_match
      Samples.ok_optimization Samples.ok_letter
      Samples.ok_quality "test_cv.pdf" "Software Engineer position" "Tech Corp"
      None Workflow.initial_states _ _ eq_refl eq_refl) as H.
  destruct H as (_ & Hl & Hq & Hc & _ & Hp & _).
  repeat split; assumption.
Defined.


(** ** The model gateway *)

Section GatewayFacts.
Import Py PyStr Gateway.
Local Open Scope string_scope.

Variable backend : list request -> request -> reply.
Variable json_loads : string -> result pyval.
Variable json_dumps : schema -> string.

(** A handler's [get_completion] is the client call: one request is
    logged, and a failure of the call is raised as it is. *)
Lemma openai_get_completion_run model prompt system_message temperature max_tokens log :
  openai_get_completion backend model prompt system_message temperature max_tokens log =
    (match backend log (openai_request model prompt system_message temperature max_tokens) with
     | Text t => Ok t
     | Failure e => Raise e
     end,
     (log ++ [openai_request model prompt system_message temperature max_tokens])%list).
Proof.
  unfold openai_get_completion, try_except, create.
  destruct (backend log _); reflexivity.
Qed.

Lemma anthropic_get_completion_run prompt system_message log :
  anthropic_get_completion backend anthropic_model prompt system_message (Some 0.3%Q) None log =
    (match backend log
             {| rq_provider := Anthropic;
                rq_model := anthropic_model;
                rq_system := if truthy_str system_message then system_message else None;
                rq_prompt := prompt;
                rq_temperature := 0.3%Q;
                rq_max_tokens := 4096%Z |} with
     | Text t => Ok t
     | Failure e => Raise e
     end,
     (log ++ [{| rq_provider := Anthropic;
                 rq_model := anthropic_model;
                 rq_system := if truthy_str system_message then system_message else None;
                 rq_prompt := prompt;
                 rq_temperature := 0.3%Q;
                 rq_max_tokens := 4096%Z |}])%list).
Proof.
  unfold anthropic_get_completion, try_except, create. cbn.
  destruct (backend log _); reflexivity.
Qed.

(** The inner [try] of the Anthropic handler, seen as a pure function. *)
Lemma anthropic_extract_run response log :
  anthropic_extract json_loads response log = (anthropic_json json_loads response, log).
Proof.
  unfold anthropic_extract, anthropic_json, loads, lift, raise.
  destruct ((find "{"%char response >=? 0)%Z &&
            (rfind "}"%char response + 1 >? find "{"%char response)%Z); reflexivity.
Qed.

(** *** Default injection *)

Lemma dict_get_set k k' v d :
  dict_get k' (dict_set k v d) = if String.eqb k' k then Some v else dict_get k' d.
Proof.
  induction d as [|[k0 v0] d IH]; cbn.
  - destruct (String.eqb k' k); reflexivity.
  - destruct (String.eqb k k0) eqn:E.
    + apply String.eqb_eq in E. subst k0. cbn.
      destruct (String.eqb k' k); reflexivity.
    + cbn. destruct (String.eqb k' k0) eqn:E0.
      * apply String.eqb_eq in E0. subst k0.
        rewrite String.eqb_sym in E. rewrite E. reflexivity.
      * exact IH.
Qed.

Lemma validate_against_schema_dict rest d :
  validate_against_schema rest (PDict d) = Ok (PDict (inject_defaults rest d)).
Proof.
  revert d. induction rest as [|[k hint] rest IH]; intros d; cbn.
  - reflexivity.
  - destruct (dict_has k d); cbn; apply IH.
Qed.

(** The entries of the injected object: what was parsed stays, and a
    missing schema key gets the default of its type. *)
Lemma inject_defaults_get (output_schema : schema) (d : dict) (k : string) :
  dict_get k (inject_defaults output_schema d) =
    match dict_get k d with
    | Some v => Some v
    | None => dict_get k (default_entries output_schema)
    end.
Proof.
  revert d. induction output_schema as [|[k0 hint] rest IH]; intros d.
  - cbn. destruct (dict_get k d); reflexivity.
  - unfold inject_defaults. cbn [fold_left fst snd].
    fold (inject_defaults rest
            (if dict_has k0 d then d
             else dict_set k0 (if is_list hint then PList [] else PStr "") d)).
    rewrite IH. cbn [default_entries map fst snd dict_get].
    fold (default_entries rest).
    unfold dict_has. destruct (dict_get k0 d) as [v0|] eqn:E0.
    + destruct (dict_get k d) eqn:E; [reflexivity|].
      destruct (String.eqb k k0) eqn:Ek; [|reflexivity].
      apply String.eqb_eq in Ek. subst k0. congruence.
    + rewrite dict_get_set.
      destruct (String.eqb k k0) eqn:Ek.
      * apply String.eqb_eq in Ek. subst k0. rewrite E0. reflexivity.
      * reflexivity.
Qed.

Lemma default_entries_has (output_schema : schema) (k : string) (hint : pyval) :
  In (k, hint) output_schema ->
  exists v, dict_get k (default_entries output_schema) = Some v.
Proof.
  induction output_schema as [|[k0 h0] rest IH]; [contradiction|].
  intros Hin. cbn [default_entries map fst snd dict_get].
  destruct (String.eqb k k0) eqn:E; [eauto|].
  destruct Hin as [Hin | Hin].
  - injection Hin as -> ->. rewrite String.eqb_refl in E. discriminate.
  - apply IH. exact Hin.
Qed.

(** The schema loop raises nothing but [TypeError]. *)
Lemma validate_against_schema_raises rest v e :
  validate_against_schema rest v = Raise e -> e = TypeError.
Proof.
  revert v. induction rest as [|[k hint] rest IH]; intros v; cbn.
  - discriminate.
  - destruct (key_missing k v) as [[|] | e0] eqn:Ek.
    + destruct (set_item k _ v) as [r | e1] eqn:Es.
      * apply IH.
      * intros H. injection H as <-. destruct v; cbn in Es; congruence.
    + apply IH.
    + intros H. injection H as <-. destruct v; cbn in Ek; congruence.
Qed.

(** *** OpenAIHandler.get_structured_completion *)

Lemma openai_structured_run model prompt output_schema system_message log :
  openai_get_structured_completion backend json_loads json_dumps model prompt
    output_schema system_message log =
  let rq1 := openai_first_request json_dumps model prompt output_schema system_message in
  let rq2 := openai_second_request json_dumps model prompt output_schema in
  match backend log rq1 with
  | Failure _ => (Ok (default_response output_schema), (log ++ [rq1])%list)
  | Text t1 =>
      match json_loads (clean_response t1) with
      | Ok v =>
          (match validate_against_schema output_schema v with
           | Ok r => Ok r
           | Raise _ => Ok (default_response output_schema)
           end, (log ++ [rq1])%list)
      | Raise e =>
          if is_json_decode_error e
          then
            (match backend (log ++ [rq1])%list rq2 with
             | Failure _ => Ok (default_response output_schema)
             | Text t2 =>
                 match json_loads (strip t2) with
                 | Ok v => Ok v
                 | Raise _ => Ok (default_response output_schema)
                 end
             end, ((log ++ [rq1]) ++ [rq2])%list)
          else (Ok (default_response output_schema), (log ++ [rq1])%list)
      end
  end.
Proof.
  cbv zeta.
  unfold openai_get_structured_completion, openai_first_request, openai_second_request.
  unfold try_except at 1. unfold bind at 1.
  rewrite openai_get_completion_run.
  destruct (backend log _) as [t1 | e1]; [|reflexivity].
  unfold try_except at 1. unfold bind at 1. unfold loads at 1. unfold lift at 1.
  destruct (json_loads (clean_response t1)) as [v | e].
  - unfold ret, lift.
    destruct (validate_against_schema output_schema v) as [r | e] eqn:Ev;
      [reflexivity|].
    apply validate_against_schema_raises in Ev. subst e. reflexivity.
  - destruct (is_json_decode_error e); [|reflexivity].
    unfold try_except at 1. unfold bind at 1.
    rewrite openai_get_completion_run.
    destruct (backend (log ++ _)%list _) as [t2 | e2]; [|reflexivity].
    unfold try_except, loads, lift.
    destruct (json_loads (strip t2)) as [v2 | e2]; [reflexivity|].
    destruct (is_json_decode_error e2); reflexivity.
Qed.

(** No exception escapes the OpenAI handler. *)
Lemma openai_structured_never_raises model prompt output_schema system_message log :
  exists v log',
    openai_get_structured_completion backend json_loads json_dumps model prompt
      output_schema system_message log = (Ok v, log').
Proof.
  rewrite openai_structured_run. cbv zeta.
  destruct (backend log _) as [t1|]; [|eauto].
  destruct (json_loads (clean_response t1)) as [v | e].
  - destruct (validate_against_schema _ v); eauto.
  - destruct (is_json_decode_error e); [|eauto].
    destruct (backend (log ++ _)%list _) as [t2|]; [|eauto].
    destruct (json_loads (strip t2)); eauto.
Qed.

(** *** AnthropicHandler.get_structured_completion *)

Lemma anthropic_structured_run prompt output_schema system_message log :
  anthropic_get_structured_completion backend json_loads json_dumps anthropic_model
    prompt output_schema system_message log =
  let rq := anthropic_first_request json_dumps prompt output_schema system_message in
  (match backend log rq with
   | Failure e => Raise e
   | Text t =>
       match anthropic_json json_loads t with
       | Ok v => Ok v
       | Raise e =>
           if is_value_error e
           then Raise (ValueError "Invalid JSON response from model")
           else Raise e
       end
   end, (log ++ [rq])%list).
Proof.
  cbv zeta.
  unfold anthropic_get_structured_completion, anthropic_first_request.
  unfold try_except at 1. unfold bind at 1.
  rewrite anthropic_get_completion_run.
  change anthropic_model with "claude-3-opus-20240229".
  destruct (backend log _) as [t | e]; [|reflexivity].
  unfold try_except. rewrite anthropic_extract_run.
  destruct (anthropic_json json_loads t) as [v | e]; [reflexivity|].
  destruct (is_value_error e); reflexivity.
Qed.

(** *** ModelManager.get_structured_completion *)

Lemma preferred_service_cases task_type :
  preferred_service task_type = "openai" \/ preferred_service task_type = "anthropic".
Proof.
  unfold preferred_service. destruct task_type as [t|]; [|left; reflexivity].
  cbn.
  repeat match goal with
         | |- context [String.eqb t ?k] => destruct (String.eqb t k)
         end; auto.
Qed.

(** With OpenAI preferred the manager returns what the OpenAI handler
    returns, and asks nothing else. *)
Lemma manager_openai_run prompt output_schema task_type system_message log :
  preferred_service task_type = "openai" ->
  get_structured_completion backend json_loads json_dumps prompt output_schema
    task_type system_message log =
  openai_get_structured_completion backend json_loads json_dumps openai_model prompt
    output_schema system_message log.
Proof.
  intros Hp. unfold get_structured_completion. rewrite Hp.
  unfold dispatch. cbn [String.eqb Ascii.eqb Bool.eqb].
  unfold try_except at 1.
  destruct (openai_structured_never_raises openai_model prompt output_schema
              system_message log) as (v & log' & E).
  rewrite E. reflexivity.
Qed.

(** With Anthropic preferred the manager returns what the Anthropic
    handler returns, or, when that raises, what the OpenAI handler returns
    next. *)
Lemma manager_anthropic_run prompt output_schema task_type system_message log :
  preferred_service task_type = "anthropic" ->
  get_structured_completion backend json_loads json_dumps prompt output_schema
    task_type system_message log =
  match anthropic_get_structured_completion backend json_loads json_dumps
          anthropic_model prompt output_schema system_message log with
  | (Ok v, log') => (Ok v, log')
  | (Raise _, log') =>
      openai_get_structured_completion backend json_loads json_dumps openai_model
        prompt output_schema system_message log'
  end.
Proof.
  intros Hp. unfold get_structured_completion. rewrite Hp.
  unfold dispatch at 1. cbn [String.eqb Ascii.eqb Bool.eqb].
  unfold try_except at 1.
  destruct (anthropic_get_structured_completion _ _ _ _ _ _ _ log) as [[v | e] log'];
    [reflexivity|].
  cbn [any_exception fallback_order model_config fallback_loop].
  cbn [String.eqb Ascii.eqb Bool.eqb negb].
  unfold dispatch at 1. cbn [String.eqb Ascii.eqb Bool.eqb].
  unfold try_except at 1.
  destruct (openai_structured_never_raises openai_model prompt output_schema
              system_message log') as (v & log'' & E).
  rewrite E. reflexivity.
Qed.

(** X1. The terminal raise of the manager is out of reach: a structured
    completion returns for every task, prompt and behaviour of the
    services. *)
Lemma manager_never_raises prompt output_schema task_type system_message log :
  exists v log',
    get_structured_completion backend json_loads json_dumps prompt output_schema
      task_type system_message log = (Ok v, log').
Proof.
  destruct (preferred_service_cases task_type) as [Hp | Hp].
  - rewrite (manager_openai_run _ _ _ _ _ Hp). apply openai_structured_never_raises.
  - rewrite (manager_anthropic_run _ _ _ _ _ Hp).
    destruct (anthropic_get_structured_completion _ _ _ _ _ _ _ log) as [[v | e] log'].
    + eauto.
    + apply openai_structured_never_raises.
Qed.

End GatewayFacts.

(** C2 (what the code does). When OpenAI is the preferred service and its
    client call fails, the manager returns the schema-shaped default
    after that single request: the OpenAI handler turns the failure into
    the default, so the manager's fallback never starts and no other
    provider is asked. *)
Theorem openai_transport_failure_skips_fallback
    (backend : list Gateway.request -> Gateway.request -> Gateway.reply)
    (json_loads : string -> Py.result Py.pyval)
    (json_dumps : Gateway.schema -> string)
    (prompt : string) (output_schema : Gateway.schema)
    (task_type system_message : option string)
    (log : list Gateway.request) (e : Py.exn) :
  Gateway.preferred_service task_type = "openai"%string ->
  backend log (Gateway.openai_first_request json_dumps Gateway.openai_model prompt
                 output_schema system_message) = Gateway.Failure e ->
  Gateway.get_structured_completion backend json_loads json_dumps prompt
    output_schema task_type system_message log =
  (Py.Ok (Gateway.default_response output_schema),
   log ++ [Gateway.openai_first_request json_dumps Gateway.openai_model prompt
             output_schema system_message]).
Proof.
  intros Hp Hf.
  rewrite (manager_openai_run backend json_loads json_dumps _ _ _ _ _ Hp).
  rewrite openai_structured_run. cbv zeta. rewrite Hf. reflexivity.
Qed.

(** The failing input of C2: OpenAI is down, Anthropic would answer, the
    task has no preference. One OpenAI request, the default comes back. *)
Lemma openai_transport_failure_skips_fallback_witness :
  Gateway.get_structured_completion Samples.openai_down Samples.sample_loads
    Samples.sample_dumps "prompt" Samples.ab_schema None None [] =
  (Py.Ok (Gateway.default_response Samples.ab_schema),
   [] ++ [Gateway.openai_first_request Samples.sample_dumps Gateway.openai_model
            "prompt" Samples.ab_schema None]).
Proof.
  exact (openai_transport_failure_skips_fallback Samples.openai_down
           Samples.sample_loads Samples.sample_dumps "prompt" Samples.ab_schema
           None None [] (Py.Exception "Connection error.") eq_refl eq_refl).
Defined.

(** In that run the default is [{"a": "", "b": []}], the only request went
    to OpenAI, and Anthropic had an answer ready. *)
Example openai_down_run :
  Gateway.get_structured_completion Samples.openai_down Samples.sample_loads
    Samples.sample_dumps "prompt" Samples.ab_schema None None [] =
  (Py.Ok (Py.PDict [("a"%string, Py.PStr ""); ("b"%string, Py.PList [])]),
   [Gateway.openai_first_request Samples.sample_dumps Gateway.openai_model
      "prompt" Samples.ab_schema None]) /\
  Gateway.is_openai
    (Gateway.openai_first_request Samples.sample_dumps Gateway.openai_model
       "prompt" Samples.ab_schema None) = true /\
  Samples.openai_down
    [Gateway.openai_first_request Samples.sample_dumps Gateway.openai_model
       "prompt" Samples.ab_schema None]
    (Gateway.anthropic_first_request Samples.sample_dumps "prompt" Samples.ab_schema None)
  = Gateway.Text Samples.json_a_x.
Proof. repeat split; reflexivity. Qed.

(** C3 (as the code has it). In the OpenAI handler a first response on
    which [json.loads] raises [JSONDecodeError] is followed by exactly
    one more request, the stricter prompt, to OpenAI again; the parsed
    second response is returned, and the schema-shaped default when that
    call fails or does not parse. When [json.loads] raises another
    exception on the first response, as [RecursionError] on a document
    nested too deeply, the default is returned after the single request.
    The handler returns for every behaviour of the service and of the
    parser. The Anthropic handler asks once: a response from which no
    JSON can be read makes it raise a [ValueError], and another exception
    of the parser is raised as it is. The manager answers either with a
    call of the OpenAI handler, a provider fallback, and with OpenAI
    preferred it asks the OpenAI handler alone. *)
Theorem parse_failure_handling
    (backend : list Gateway.request -> Gateway.request -> Gateway.reply)
    (json_loads : string -> Py.result Py.pyval)
    (json_dumps : Gateway.schema -> string)
    (model prompt : string) (output_schema : Gateway.schema)
    (task_type system_message : option string) (log : list Gateway.request) :
  let rq1 := Gateway.openai_first_request json_dumps model prompt output_schema
               system_message in
  let rq2 := Gateway.openai_second_request json_dumps model prompt output_schema in
  let rqa := Gateway.anthropic_first_request json_dumps prompt output_schema
               system_message in
  (forall t1 e,
     backend log rq1 = Gateway.Text t1 ->
     json_loads (Gateway.clean_response t1) = Py.Raise e ->
     Py.is_json_decode_error e = true ->
     Gateway.openai_get_structured_completion backend json_loads json_dumps model
       prompt output_schema system_message log =
     (Py.Ok match backend (log ++ [rq1]) rq2 with
            | Gateway.Text t2 =>
                match json_loads (PyStr.strip t2) with
                | Py.Ok v => v
                | Py.Raise _ => Gateway.default_response output_schema
                end
            | Gateway.Failure _ => Gateway.default_response output_schema
            end,
      log ++ [rq1; rq2])) /\
  (forall t1 e,
     backend log rq1 = Gateway.Text t1 ->
     json_loads (Gateway.clean_response t1) = Py.Raise e ->
     Py.is_json_decode_error e = false ->
     Gateway.openai_get_structured_completion backend json_loads json_dumps model
       prompt output_schema system_message log =
     (Py.Ok (Gateway.default_response output_schema), log ++ [rq1])) /\
  Gateway.rq_provider rq2 = Gateway.OpenAI /\
  Gateway.rq_prompt rq2 = Gateway.openai_fallback_prompt json_dumps prompt output_schema /\
  (exists v log',
     Gateway.openai_get_structured_completion backend json_loads json_dumps model
       prompt output_schema system_message log = (Py.Ok v, log')) /\
  (forall t e,
     backend log rqa = Gateway.Text t ->
     Gateway.anthropic_json json_loads t = Py.Raise e ->
     Gateway.anthropic_get_structured_completion backend json_loads json_dumps
       Gateway.anthropic_model prompt output_schema system_message log =
     (Py.Raise (if Py.is_value_error e
                then Py.ValueError "Invalid JSON response from model"
                else e),
      log ++ [rqa])) /\
  (forall t e,
     Gateway.preferred_service task_type = "anthropic"%string ->
     backend log rqa = Gateway.Text t ->
     Gateway.anthropic_json json_loads t = Py.Raise e ->
     Gateway.get_structured_completion backend json_loads json_dumps prompt
       output_schema task_type system_message log =
     Gateway.openai_get_structured_completion backend json_loads json_dumps
       Gateway.openai_model prompt output_schema system_message (log ++ [rqa])) /\
  (Gateway.preferred_service task_type = "openai"%string ->
   Gateway.get_structured_completion backend json_loads json_dumps prompt
     output_schema task_type system_message log =
   Gateway.openai_get_structured_completion backend json_loads json_dumps
     Gateway.openai_model prompt output_schema system_message log).
Proof.
  intros rq1 rq2 rqa. subst rq1 rq2 rqa.
  split; [|split; [|split; [reflexivity|split; [reflexivity|split; [|split; [|split]]]]]].
  - intros t1 e Ht Hl He. rewrite openai_structured_run. cbv zeta.
    rewrite Ht, Hl, He. rewrite <- app_assoc. cbn [app].
    destruct (backend (log ++ _) _) as [t2|]; [|reflexivity].
    destruct (json_loads (PyStr.strip t2)); reflexivity.
  - intros t1 e Ht Hl He. rewrite openai_structured_run. cbv zeta.
    rewrite Ht, Hl, He. reflexivity.
  - apply openai_structured_never_raises.
  - intros t e Ht Hj. rewrite anthropic_structured_run. cbv zeta.
    rewrite Ht, Hj. destruct (Py.is_value_error e); reflexivity.
  - intros t e Hp Ht Hj.
    rewrite (manager_anthropic_run backend json_loads json_dumps _ _ _ _ _ Hp).
    rewrite anthropic_structured_run. cbv zeta. rewrite Ht, Hj.
    destruct (Py.is_value_error e); reflexivity.
  - intros Hp. apply manager_openai_run. exact Hp.
Qed.

(** C3 (as stated) fails for the Anthropic handler: a prose answer makes
    it raise after its one request, without a second prompt and without
    a default; and the manager then asks OpenAI, a provider fallback. *)
Lemma anthropic_parse_failure_raises :
  Gateway.anthropic_get_structured_completion Samples.prose Samples.sample_loads
    Samples.sample_dumps Gateway.anthropic_model "prompt" Samples.ab_schema None [] =
  (Py.Raise (Py.ValueError "Invalid JSON response from model"),
   [Gateway.anthropic_first_request Samples.sample_dumps "prompt" Samples.ab_schema None]) /\
  map Gateway.rq_provider
    (snd (Gateway.get_structured_completion Samples.prose Samples.sample_loads
            Samples.sample_dumps "prompt" Samples.ab_schema (Some "cv_analysis"%string)
            None [])) =
  [Gateway.Anthropic; Gateway.OpenAI; Gateway.OpenAI].
Proof. split; reflexivity. Qed.

(** The OpenAI side of C3 on the same prose service: two requests, the
    second one the stricter prompt, and the default comes back. *)
Lemma parse_failure_handling_witness :
  Gateway.openai_get_structured_completion Samples.prose Samples.sample_loads
    Samples.sample_dumps Gateway.openai_model "prompt" Samples.ab_schema None [] =
  (Py.Ok (Py.PDict [("a"%string, Py.PStr ""); ("b"%string, Py.PList [])]),
   [Gateway.openai_first_request Samples.sample_dumps Gateway.openai_model "prompt"
      Samples.ab_schema None;
    Gateway.openai_second_request Samples.sample_dumps Gateway.openai_model "prompt"
      Samples.ab_schema]).
Proof.
  destruct (parse_failure_handling Samples.prose Samples.sample_loads
              Samples.sample_dumps Gateway.openai_model "prompt" Samples.ab_schema
              None None []) as [H _].
  rewrite (H _ Py.JSONDecodeError eq_refl eq_refl eq_refl). reflexivity.
Defined.

(** A reply nested too deeply for the parser: the OpenAI handler gives
    the default after its single request, the Anthropic handler raises
    [RecursionError] after its single request, and the manager, asked
    for a task that prefers Anthropic, then asks OpenAI once. *)
Example deeply_nested_reply :
  Gateway.openai_get_structured_completion Samples.answers_deep Samples.sample_loads
    Samples.sample_dumps Gateway.openai_model "prompt" Samples.ab_schema None [] =
  (Py.Ok (Py.PDict [("a"%string, Py.PStr ""); ("b"%string, Py.PList [])]),
   [Gateway.openai_first_request Samples.sample_dumps Gateway.openai_model "prompt"
      Samples.ab_schema None]) /\
  Gateway.anthropic_get_structured_completion Samples.answers_deep Samples.sample_loads
    Samples.sample_dumps Gateway.anthropic_model "prompt" Samples.ab_schema None [] =
  (Py.Raise Py.RecursionError,
   [Gateway.anthropic_first_request Samples.sample_dumps "prompt" Samples.ab_schema None]) /\
  map Gateway.rq_provider
    (snd (Gateway.get_structured_completion Samples.answers_deep Samples.sample_loads
            Samples.sample_dumps "prompt" Samples.ab_schema (Some "cv_analysis"%string)
            None [])) =
  [Gateway.Anthropic; Gateway.OpenAI].
Proof. vm_compute. repeat split. Qed.

(** X3. Whatever the model, the second request goes out with
    temperature 0.7: the handler asks for 0.0, which [get_completion]
    treats as no temperature given and replaces by the configured
    value. *)
Lemma openai_second_request_temperature
    (json_dumps : Gateway.schema -> string) (model prompt : string)
    (output_schema : Gateway.schema) :
  Gateway.rq_temperature
    (Gateway.openai_second_request json_dumps model prompt output_schema) = 0.7%Q.
Proof.
  unfold Gateway.openai_second_request, Gateway.openai_request.
  cbn [Gateway.rq_temperature Gateway.or_Q Qeq_bool].
  unfold Gateway.openai_model_configs. cbn [Gateway.assoc].
  repeat match goal with
         | |- context [String.eqb model ?k] => destruct (String.eqb model k)
         end; reflexivity.
Qed.

(** C4 (as the code has it). When the first response of the OpenAI
    handler parses as an object, the handler returns that object with
    every parsed entry kept and every missing schema key set to the
    default of its type, empty list or empty string; the schema a, b with
    the reply a = x gives exactly a = x, b = []. The Anthropic handler
    returns the document it reads as it is. *)
Theorem default_injection
    (backend : list Gateway.request -> Gateway.request -> Gateway.reply)
    (json_loads : string -> Py.result Py.pyval)
    (json_dumps : Gateway.schema -> string)
    (model prompt : string) (output_schema : Gateway.schema)
    (system_message : option string) (log : list Gateway.request) :
  (forall t d,
     backend log (Gateway.openai_first_request json_dumps model prompt output_schema
                    system_message) = Gateway.Text t ->
     json_loads (Gateway.clean_response t) = Py.Ok (Py.PDict d) ->
     exists d',
       Gateway.openai_get_structured_completion backend json_loads json_dumps model
         prompt output_schema system_message log =
       (Py.Ok (Py.PDict d'),
        log ++ [Gateway.openai_first_request json_dumps model prompt output_schema
                  system_message]) /\
       (forall k, Py.dict_get k d' =
                  match Py.dict_get k d with
                  | Some v => Some v
                  | None => Py.dict_get k (Gateway.default_entries output_schema)
                  end) /\
       (forall k hint, In (k, hint) output_schema -> Py.dict_has k d' = true)) /\
  (forall t,
     backend log (Gateway.openai_first_request json_dumps model prompt Samples.ab_schema
                    system_message) = Gateway.Text t ->
     json_loads (Gateway.clean_response t)
       = Py.Ok (Py.PDict [("a"%string, Py.PStr "x")]) ->
     Gateway.openai_get_structured_completion backend json_loads json_dumps model
       prompt Samples.ab_schema system_message log =
     (Py.Ok (Py.PDict [("a"%string, Py.PStr "x"); ("b"%string, Py.PList [])]),
      log ++ [Gateway.openai_first_request json_dumps model prompt Samples.ab_schema
                system_message])) /\
  (forall t v,
     backend log (Gateway.anthropic_first_request json_dumps prompt output_schema
                    system_message) = Gateway.Text t ->
     Gateway.anthropic_json json_loads t = Py.Ok v ->
     Gateway.anthropic_get_structured_completion backend json_loads json_dumps
       Gateway.anthropic_model prompt output_schema system_message log =
     (Py.Ok v,
      log ++ [Gateway.anthropic_first_request json_dumps prompt output_schema
                system_message])).
Proof.
  split; [|split].
  - intros t d Ht Hl. exists (Gateway.inject_defaults output_schema d).
    split; [|split].
    + rewrite openai_structured_run. cbv zeta. rewrite Ht, Hl.
      rewrite validate_against_schema_dict. reflexivity.
    + apply inject_defaults_get.
    + intros k hint Hin. unfold Py.dict_has. rewrite inject_defaults_get.
      destruct (Py.dict_get k d); [reflexivity|].
      destruct (default_entries_has output_schema k hint Hin) as [v Hv].
      rewrite Hv. reflexivity.
  - intros t Ht Hl. rewrite openai_structured_run. cbv zeta. rewrite Ht, Hl.
    reflexivity.
  - intros t v Ht Hj. rewrite anthropic_structured_run. cbv zeta.
    rewrite Ht, Hj. reflexivity.
Qed.

(** C4 (as stated) fails for the Anthropic handler: with the schema a, b
    and the reply a = x it returns a = x, and the key b is absent; so does
    the manager for a task that prefers Anthropic. *)
Lemma anthropic_returns_parsed_object_unchanged :
  Gateway.anthropic_get_structured_completion Samples.answers_a_x Samples.sample_loads
    Samples.sample_dumps Gateway.anthropic_model "prompt" Samples.ab_schema None [] =
  (Py.Ok (Py.PDict [("a"%string, Py.PStr "x")]),
   [Gateway.anthropic_first_request Samples.sample_dumps "prompt" Samples.ab_schema None]) /\
  Py.dict_has "b" [("a"%string, Py.PStr "x")] = false /\
  fst (Gateway.get_structured_completion Samples.answers_a_x Samples.sample_loads
         Samples.sample_dumps "prompt" Samples.ab_schema (Some "cv_analysis"%string)
         None []) =
  Py.Ok (Py.PDict [("a"%string, Py.PStr "x")]).
Proof. repeat split; reflexivity. Qed.

(** The round trip of the specification through the OpenAI handler. *)
Lemma default_injection_witness :
  Gateway.openai_get_structured_completion Samples.answers_a_x Samples.sample_loads
    Samples.sample_dumps Gateway.openai_model "prompt" Samples.ab_schema None [] =
  (Py.Ok (Py.PDict [("a"%string, Py.PStr "x"); ("b"%string, Py.PList [])]),
   [Gateway.openai_first_request Samples.sample_dumps Gateway.openai_model "prompt"
      Samples.ab_schema None]).
Proof.
  destruct (default_injection Samples.answers_a_x Samples.sample_loads
              Samples.sample_dumps Gateway.openai_model "prompt" Samples.ab_schema
              None []) as (_ & H & _).
  exact (H _ eq_refl eq_refl).
Defined.

(** ** The sample points on IEEE doubles

    [round(x, 2)] of a double that is exactly a number with two decimals
    is that double; a double strictly between two neighbouring half
    hundredths rounds to the hundredth between them. *)

(** Three perfect sub-scores give exactly 90.0, and the level read from
    it is the one of 90. *)
Example binary64_perfect_match_score :
  Binary64.match_score (Binary64.of_Z 100) (Binary64.of_Z 100) (Binary64.of_Z 100)
  = Binary64.of_Z 90.
Proof. vm_compute. reflexivity. Qed.

(** Four steps of five are exactly 80.0 percent. *)
Example binary64_completion :
  Binary64.completion 4 5 = Binary64.of_Z 80.
Proof. vm_compute. reflexivity. Qed.

(** Three scores of 74.996 sum to a double below 75 and above 74.995. *)
Example binary64_overall_74996 :
  let x := Binary64.dec 74996 1000 in
  Binary64.geb (Binary64.overall_score x x x) (Binary64.of_Z 75) = false /\
  Binary64.ltb (Binary64.dec 74995 1000) (Binary64.overall_score x x x) = true /\
  Binary64.ltb (Binary64.overall_score x x x) (Binary64.dec 75005 1000) = true.
Proof. vm_compute. repeat split. Qed.

(** One required skill of three, nothing preferred: the total lies
    strictly between 53.325 and 53.335. *)
Example binary64_skills_one_of_three :
  let t := Binary64.skills_total (Binary64.recall_score 1 3) (Binary64.recall_score 0 0) in
  Binary64.ltb (Binary64.dec 53325 1000) t = true /\
  Binary64.ltb t (Binary64.dec 53335 1000) = true.
Proof. vm_compute. repeat split. Qed.

(** The two aggregations on the scores cv 0, letter 100, ats 0. *)
Example binary64_aggregations_differ :
  Binary64.overall_score (Binary64.of_Z 0) (Binary64.of_Z 100) (Binary64.of_Z 0)
  = Binary64.of_Z 30 /\
  Binary64.aggregate_score (Binary64.of_Z 0) (Binary64.of_Z 0) (Binary64.of_Z 100)
  = Binary64.of_Z 20.
Proof. vm_compute. repeat split. Qed.

(** ** The overall match score never exceeds 90 *)

Lemma round_half_even_bounds (q : Q) :
  (Qfloor q <= PyNum.round_half_even q <= Qfloor q + 1)%Z.
Proof.
  unfold PyNum.round_half_even.
  destruct (Qcompare _ _); [destruct (Z.even _)| |]; lia.
Qed.

Lemma round_half_even_mono (x y : Q) :
  (x <= y)%Q -> (PyNum.round_half_even x <= PyNum.round_half_even y)%Z.
Proof.
  intros H.
  pose proof (Qfloor_resp_le x y H) as Hf.
  destruct (Z.eq_dec (Qfloor x) (Qfloor y)) as [E | NE].
  - unfold PyNum.round_half_even. rewrite E.
    destruct (Qcompare_spec (x - inject_Z (Qfloor y)) (1 # 2)) as [Ex | Lx | Gx];
      destruct (Qcompare_spec (y - inject_Z (Qfloor y)) (1 # 2)) as [Ey | Ly | Gy];
      try (destruct (Z.even (Qfloor y))); try lia; exfalso; lra.
  - pose proof (round_half_even_bounds x). pose proof (round_half_even_bounds y). lia.
Qed.

Lemma round2_mono (x y : Q) : (x <= y)%Q -> (PyNum.round2 x <= PyNum.round2 y)%Q.
Proof.
  intros H. unfold PyNum.round2.
  assert (M : (PyNum.round_half_even (x * 100) <= PyNum.round_half_even (y * 100))%Z)
    by (apply round_half_even_mono; lra).
  unfold Qle. cbn. lia.
Qed.

Lemma round2_le_100 (x : Q) : (x <= 100)%Q -> (PyNum.round2 x <= 100)%Q.
Proof.
  intros H. apply round2_mono in H.
  assert (E : (PyNum.round2 100 == 100)%Q) by reflexivity.
  lra.
Qed.

(** A share of a positive whole, in percent, is at most 100. *)
Lemma percent_le_100 (a b : Z) :
  (a <= b)%Z -> (0 < b)%Z -> (inject_Z a / inject_Z b * 100 <= 100)%Q.
Proof.
  intros Hab Hb.
  assert (Hq : (inject_Z a / inject_Z b <= 1)%Q).
  { apply Qle_shift_div_r.
    - change 0%Q with (inject_Z 0). rewrite <- Zlt_Qlt. exact Hb.
    - rewrite Qmult_1_l. rewrite <- Zle_Qle. exact Hab. }
  lra.
Qed.

Section ScoreBounds.
Import Py PyNum CVMatcher.
Local Open Scope Q_scope.

Lemma recall_score_le_100 (cv_skills wanted : list hkey) :
  NoDup cv_skills -> NoDup wanted ->
  recall_score (intersection cv_skills wanted) wanted <= 100.
Proof.
  intros Hc Hw. unfold recall_score, len.
  destruct (List.length wanted) as [|n] eqn:E; cbn [Nat.eqb]; [lra|].
  rewrite (intersection_length cv_skills wanted Hc Hw).
  apply percent_le_100; [|lia].
  pose proof (filter_length_le (fun x => mem x cv_skills) wanted). lia.
Qed.

Lemma skills_score_le_100 (cv_analysis job_analysis : pyval) :
  sm_score (_calculate_skills_match cv_analysis job_analysis) <= 100.
Proof.
  unfold _calculate_skills_match, skills_match_try.
  destruct (py_get job_analysis "requirements" (PDict [])) as [rq | ex];
    cbn [rbind sm_score]; [|lra].
  destruct (py_get rq "required_skills" (PList [])) as [rs | ex];
    cbn [rbind sm_score]; [|lra].
  destruct (py_set rs) as [required | ex] eqn:Er; cbn [rbind sm_score]; [|lra].
  destruct (py_get rq "preferred_skills" (PList [])) as [ps | ex];
    cbn [rbind sm_score]; [|lra].
  destruct (py_set ps) as [preferred | ex] eqn:Ep; cbn [rbind sm_score]; [|lra].
  destruct (py_get cv_analysis "skills" (PDict [])) as [sk | ex];
    cbn [rbind sm_score]; [|lra].
  destruct (py_get sk "technical_skills" (PList [])) as [ts | ex];
    cbn [rbind sm_score]; [|lra].
  destruct (py_set ts) as [cv_skills | ex] eqn:Ec; cbn [rbind sm_score]; [|lra].
  apply py_set_NoDup in Er, Ep, Ec.
  pose proof (recall_score_le_100 cv_skills required Ec Er).
  pose proof (recall_score_le_100 cv_skills preferred Ec Ep).
  apply round2_le_100. lra.
Qed.

(** The score shared by the experience and the education match. *)
Lemma level_score_le_100 (have wanted : Z) :
  round2 (if (wanted =? 0)%Z then 100
          else if (have >=? wanted)%Z then 100
          else if (wanted >? 0)%Z
               then (inject_Z have / inject_Z wanted) * 100
               else 0) <= 100.
Proof.
  apply round2_le_100.
  destruct (wanted =? 0)%Z; [lra|].
  destruct (have >=? wanted)%Z eqn:G; [lra|].
  destruct (wanted >? 0)%Z eqn:P; [|lra].
  apply percent_le_100; lia.
Qed.

Lemma experience_score_le_100 (cv_analysis job_analysis : pyval) :
  em_score (_calculate_experience_match cv_analysis job_analysis) <= 100.
Proof.
  unfold _calculate_experience_match, experience_match_try.
  destruct (py_get cv_analysis "experience" (PDict [])) as [ex | e];
    cbn [rbind em_score]; [|lra].
  destruct (py_get ex "years" (PInt 0)) as [y | e]; cbn [rbind em_score]; [|lra].
  destruct (py_get job_analysis "requirements" (PDict [])) as [rq | e];
    cbn [rbind em_score]; [|lra].
  destruct (py_get rq "experience" (PInt 0)) as [w | e]; cbn [rbind em_score]; [|lra].
  apply level_score_le_100.
Qed.

Lemma education_score_le_100 (py_str : pyval -> string)
    (cv_analysis job_analysis : pyval) :
  ed_score (_calculate_education_match py_str cv_analysis job_analysis) <= 100.
Proof.
  unfold _calculate_education_match, education_match_try.
  destruct (py_get job_analysis "requirements" (PDict [])) as [rq | e];
    cbn [rbind ed_score]; [|lra].
  destruct (py_get rq "education" (PStr "")) as [w | e]; cbn [rbind ed_score]; [|lra].
  destruct (py_get cv_analysis "education" (PStr "")) as [h | e];
    cbn [rbind ed_score]; [|lra].
  apply level_score_le_100.
Qed.

End ScoreBounds.

(** X2. Whatever the two analyses say, the overall match score is at
    most 90: the three weights in use sum to 0.9 and each sub-score is at
    most 100. *)
Theorem match_score_at_most_90
    (py_str : Py.pyval -> string)
    (analyze_cv analyze_job : string -> Py.result Py.pyval)
    (cv_text job_description : string) :
  match CVMatcher.match_cv_to_job py_str analyze_cv analyze_job cv_text job_description with
  | Py.Ok r => (CVMatcher.score (CVMatcher.overall_match r) <= 90)%Q
  | Py.Raise _ => True
  end.
Proof.
  unfold CVMatcher.match_cv_to_job.
  destruct (analyze_cv cv_text) as [cv | ex]; cbn [Py.rbind]; [|exact I].
  destruct (analyze_job job_description) as [job | ex]; cbn [Py.rbind]; [|exact I].
  cbn [CVMatcher.overall_match CVMatcher.score].
  cbn [CVMatcher.matching_weights CVMatcher.w_required_skills
       CVMatcher.w_experience CVMatcher.w_education].
  pose proof (skills_score_le_100 cv job) as Hs.
  pose proof (experience_score_le_100 cv job) as He.
  pose proof (education_score_le_100 py_str cv job) as Hd.
  assert (E : (PyNum.round2 90 == 90)%Q) by reflexivity.
  rewrite <- E. apply round2_mono. lra.
Qed.

(* ================================================================== *)
(** * Further properties of the code *)
(* ================================================================== *)

(** ** ATSRules.validate_structure: what the verdict depends on *)

Section StructureFacts.
Import PyStr ATSRules StructureSpec.
Local Open Scope string_scope.

Lemma check_required_education ns issues0 :
  check_required ns issues0 "education" =
    if found "education" ns then issues0
    else (issues0 ++ ["Missing required section: education"])%list.
Proof.
  unfold check_required. destruct section_type_of_required as (_ & _ & E & _).
  rewrite E. cbn [String.eqb Ascii.eqb Bool.eqb]. fold (found "education" ns).
  destruct (found "education" ns); reflexivity.
Qed.

Lemma check_required_skills ns issues0 :
  check_required ns issues0 "skills" =
    if found "skills" ns then issues0
    else (issues0 ++ ["Missing required section: skills"])%list.
Proof.
  unfold check_required. destruct section_type_of_required as (_ & _ & _ & E).
  rewrite E. cbn [String.eqb Ascii.eqb Bool.eqb]. fold (found "skills" ns).
  destruct (found "skills" ns); reflexivity.
Qed.

(** The verdict in closed form. *)
Lemma validate_structure_found (sections : list string) :
  validate_structure sections =
    let ns := map _normalize_section_title sections in
    {| valid := found "education" ns && found "skills" ns;
       issues :=
         ((if found "education" ns then []
           else ["Missing required section: education"]) ++
          (if found "skills" ns then []
           else ["Missing required section: skills"]))%list |}.
Proof.
  cbv zeta.
  assert (H : validate_structure sections =
              {| valid := (List.length (issues (validate_structure sections)) =? 0)%nat;
                 issues := issues (validate_structure sections) |}) by reflexivity.
  rewrite H. rewrite validate_structure_issues.
  rewrite check_required_education, check_required_skills.
  destruct (found "education" _); destruct (found "skills" _); reflexivity.
Qed.

Lemma found_incl (section_type : string) (ns1 ns2 : list string) :
  incl ns1 ns2 -> found section_type ns1 = true -> found section_type ns2 = true.
Proof.
  intros Hincl. unfold found. rewrite !existsb_exists.
  intros [variant [Hv Hx]]. exists variant. split; [exact Hv|].
  rewrite existsb_exists in *. destruct Hx as [s [Hs Hc]].
  exists s. split; [apply Hincl; exact Hs | exact Hc].
Qed.

(** Character facts, checked on every ASCII code. *)
Lemma lower_char_idem (c : ascii) : lower_char (lower_char c) = lower_char c.
Proof. destruct c as [[] [] [] [] [] [] [] []]; reflexivity. Qed.

Lemma isalnum_lower_char (c : ascii) : isalnum (lower_char c) = isalnum c.
Proof. destruct c as [[] [] [] [] [] [] [] []]; reflexivity. Qed.

Lemma isspace_lower_char (c : ascii) : isspace (lower_char c) = isspace c.
Proof. destruct c as [[] [] [] [] [] [] [] []]; reflexivity. Qed.

Lemma kept_lower_char (c : ascii) : kept (lower_char c) = kept c.
Proof. unfold kept. rewrite isalnum_lower_char, isspace_lower_char. reflexivity. Qed.

Lemma filter_lower (s : string) :
  lower (filter_chars kept (lower s)) = lower (filter_chars kept s).
Proof.
  induction s as [|c s IH]; [reflexivity|].
  cbn [lower map_chars filter_chars]. rewrite kept_lower_char.
  destruct (kept c); cbn [lower map_chars].
  - rewrite lower_char_idem. f_equal. exact IH.
  - exact IH.
Qed.

Lemma filter_filter (s : string) :
  filter_chars kept (filter_chars kept s) = filter_chars kept s.
Proof.
  induction s as [|c s IH]; [reflexivity|].
  cbn [filter_chars]. destruct (kept c) eqn:E; cbn [filter_chars].
  - rewrite E. f_equal. exact IH.
  - exact IH.
Qed.

Lemma normalize_lower (title : string) :
  _normalize_section_title (lower title) = _normalize_section_title title.
Proof.
  unfold _normalize_section_title. fold kept. rewrite filter_lower. reflexivity.
Qed.

Lemma normalize_filter (title : string) :
  _normalize_section_title (filter_chars kept title) = _normalize_section_title title.
Proof.
  unfold _normalize_section_title. fold kept. rewrite filter_filter. reflexivity.
Qed.

End StructureFacts.

(** X4. Section titles only ever help: when every title of one list also
    occurs in another, the second list is valid if the first is, and each
    issue reported for the second is reported for the first. In
    particular the verdict ignores the order and the repetition of
    titles. *)
Theorem validate_structure_monotone (sections more : list string) :
  incl sections more ->
  (ATSRules.valid (ATSRules.validate_structure sections) = true ->
   ATSRules.valid (ATSRules.validate_structure more) = true) /\
  incl (ATSRules.issues (ATSRules.validate_structure more))
       (ATSRules.issues (ATSRules.validate_structure sections)).
Proof.
  intros Hincl.
  assert (Hn : incl (map ATSRules._normalize_section_title sections)
                    (map ATSRules._normalize_section_title more))
    by (apply incl_map; exact Hincl).
  rewrite !validate_structure_found. cbv zeta. cbn [ATSRules.valid ATSRules.issues].
  pose proof (found_incl "education" _ _ Hn) as He.
  pose proof (found_incl "skills" _ _ Hn) as Hs.
  destruct (StructureSpec.found "education" (map _ sections));
    destruct (StructureSpec.found "skills" (map _ sections));
    destruct (StructureSpec.found "education" (map _ more));
    destruct (StructureSpec.found "skills" (map _ more));
    try (specialize (He eq_refl)); try (specialize (Hs eq_refl));
    try discriminate;
    (split; [intros; (reflexivity || discriminate)|]);
    intros x Hx; cbn in Hx |- *; tauto.
Qed.

Lemma validate_structure_monotone_witness :
  (ATSRules.valid (ATSRules.validate_structure ["Skills"; "Education"]%string) = true ->
   ATSRules.valid
     (ATSRules.validate_structure ["Education"; "Hobbies"; "Skills"; "Skills"]%string) = true) /\
  incl (ATSRules.issues
          (ATSRules.validate_structure ["Education"; "Hobbies"; "Skills"; "Skills"]%string))
       (ATSRules.issues (ATSRules.validate_structure ["Skills"; "Education"]%string)).
Proof.
  apply (validate_structure_monotone ["Skills"; "Education"]%string
           ["Education"; "Hobbies"; "Skills"; "Skills"]%string).
  intros x Hx. cbn in Hx |- *. tauto.
Defined.

(** X5. For ASCII titles the verdict ignores letter case and every
    character that is neither a letter, a digit nor blank: lower-casing
    the titles, or stripping their punctuation, changes nothing. *)
Theorem validate_structure_ignores_case_and_punctuation (sections : list string) :
  forallb PyStr.isascii sections = true ->
  ATSRules.validate_structure (map PyStr.lower sections)
    = ATSRules.validate_structure sections /\
  ATSRules.validate_structure
    (map (PyStr.filter_chars (fun c => PyStr.isalnum c || PyStr.isspace c)) sections)
    = ATSRules.validate_structure sections.
Proof.
  intros _.
  assert (L : map ATSRules._normalize_section_title (map PyStr.lower sections)
              = map ATSRules._normalize_section_title sections).
  { rewrite map_map. apply map_ext. intros t. apply normalize_lower. }
  assert (F : map ATSRules._normalize_section_title
                (map (PyStr.filter_chars (fun c => PyStr.isalnum c || PyStr.isspace c))
                   sections)
              = map ATSRules._normalize_section_title sections).
  { rewrite map_map. apply map_ext. intros t. apply (normalize_filter t). }
  unfold ATSRules.validate_structure. rewrite L, F. split; reflexivity.
Qed.

Lemma validate_structure_ignores_case_and_punctuation_witness :
  ATSRules.validate_structure ["technical skills"; "education"; "hobbies"]%string
    = ATSRules.validate_structure
        ["Technical SKILLS:"; "** Education **"; "Hobbies"]%string /\
  ATSRules.validate_structure ["Technical SKILLS"; " Education "; "Hobbies"]%string
    = ATSRules.validate_structure
        ["Technical SKILLS:"; "** Education **"; "Hobbies"]%string.
Proof.
  apply (validate_structure_ignores_case_and_punctuation
           ["Technical SKILLS:"; "** Education **"; "Hobbies"]%string).
  reflexivity.
Defined.

(** ** ModelManager.get_completion *)

Section TextFacts.
Import Py PyStr Gateway GatewayText.
Local Open Scope string_scope.

Variable backend : list request -> request -> reply.

Lemma anthropic_text_run prompt log :
  anthropic_get_completion backend anthropic_model prompt None None None log =
    (match backend log (anthropic_text_request prompt) with
     | Text t => Ok t
     | Failure e => Raise e
     end, (log ++ [anthropic_text_request prompt])%list).
Proof.
  unfold anthropic_get_completion, try_except, create. cbn.
  fold (anthropic_text_request prompt).
  destruct (backend log _); reflexivity.
Qed.

Lemma openai_text_run prompt log :
  openai_get_completion backend openai_model prompt None None None log =
    (match backend log (openai_text_request prompt) with
     | Text t => Ok t
     | Failure e => Raise e
     end, (log ++ [openai_text_request prompt])%list).
Proof. apply openai_get_completion_run. Qed.

End TextFacts.

(** X6. A text completion asks the preferred service and, only if that
    call fails, the other one; it returns the first text it gets and
    raises [Exception('All services failed')] exactly when both calls
    fail, after one request to each. A service name that is neither
    [openai] nor [anthropic] issues no request and returns [None]. *)
Theorem get_completion_fallback
    (backend : list Gateway.request -> Gateway.request -> Gateway.reply)
    (prompt : string) (task_type : option string) (log : list Gateway.request) :
  let rqo := GatewayText.openai_text_request prompt in
  let rqa := GatewayText.anthropic_text_request prompt in
  GatewayText.get_completion backend prompt task_type (Some "openai"%string) log =
    match backend log rqo with
    | Gateway.Text t => (Py.Ok (Some t), log ++ [rqo])
    | Gateway.Failure _ =>
        match backend (log ++ [rqo]) rqa with
        | Gateway.Text t => (Py.Ok (Some t), log ++ [rqo; rqa])
        | Gateway.Failure _ =>
            (Py.Raise (Py.Exception "All services failed"), log ++ [rqo; rqa])
        end
    end /\
  GatewayText.get_completion backend prompt task_type (Some "anthropic"%string) log =
    match backend log rqa with
    | Gateway.Text t => (Py.Ok (Some t), log ++ [rqa])
    | Gateway.Failure _ =>
        match backend (log ++ [rqa]) rqo with
        | Gateway.Text t => (Py.Ok (Some t), log ++ [rqa; rqo])
        | Gateway.Failure _ =>
            (Py.Raise (Py.Exception "All services failed"), log ++ [rqa; rqo])
        end
    end /\
  (forall service : string,
     service <> ""%string -> service <> "openai"%string -> service <> "anthropic"%string ->
     GatewayText.get_completion backend prompt task_type (Some service) log
     = (Py.Ok None, log)).
Proof.
  intros rqo rqa. subst rqo rqa. split; [|split].
  - unfold GatewayText.get_completion. cbn [Py.truthy_str String.eqb Ascii.eqb Bool.eqb negb].
    unfold GatewayText.dispatch_text at 1. cbn [String.eqb Ascii.eqb Bool.eqb].
    unfold Gateway.try_except at 1. unfold Gateway.bind at 1.
    rewrite openai_text_run.
    destruct (backend log _) as [t | e]; [reflexivity|].
    cbn [Gateway.any_exception Gateway.fallback_order Gateway.model_config
         GatewayText.fallback_text_loop String.eqb Ascii.eqb Bool.eqb negb].
    unfold GatewayText.dispatch_text at 1. cbn [String.eqb Ascii.eqb Bool.eqb].
    unfold Gateway.try_except at 1. unfold Gateway.bind at 1.
    rewrite anthropic_text_run. rewrite <- app_assoc. cbn [app].
    destruct (backend (log ++ _) _) as [t | e2]; reflexivity.
  - unfold GatewayText.get_completion. cbn [Py.truthy_str String.eqb Ascii.eqb Bool.eqb negb].
    unfold GatewayText.dispatch_text at 1. cbn [String.eqb Ascii.eqb Bool.eqb].
    unfold Gateway.try_except at 1. unfold Gateway.bind at 1.
    rewrite anthropic_text_run.
    destruct (backend log _) as [t | e]; [reflexivity|].
    cbn [Gateway.any_exception Gateway.fallback_order Gateway.model_config
         GatewayText.fallback_text_loop String.eqb Ascii.eqb Bool.eqb negb].
    unfold GatewayText.dispatch_text at 1. cbn [String.eqb Ascii.eqb Bool.eqb].
    unfold Gateway.try_except at 1. unfold Gateway.bind at 1.
    rewrite openai_text_run. rewrite <- app_assoc. cbn [app].
    destruct (backend (log ++ _) _) as [t | e2]; reflexivity.
  - intros service H0 Ho Ha.
    unfold GatewayText.get_completion. cbn [Py.truthy_str].
    apply String.eqb_neq in H0, Ho, Ha. rewrite H0. cbn [negb].
    unfold GatewayText.dispatch_text. rewrite Ho, Ha. reflexivity.
Qed.

(** ** QualityMetrics *)

Section QualityMetricsFacts.
Import Py PyNum Quality QualityMetrics.
Local Open Scope Q_scope.

Lemma round2_75 : (round2 75 == 75)%Q.
Proof. reflexivity. Qed.

Lemma round2_0 : (round2 0 == 0)%Q.
Proof. reflexivity. Qed.

(** Rounding keeps a score on its side of a threshold with two decimals. *)
Lemma round2_ge_75 (x : Q) : 75 <= x -> 75 <= round2 x.
Proof. intros H. apply round2_mono in H. pose proof round2_75. lra. Qed.

Lemma round2_nonneg (x : Q) : 0 <= x -> 0 <= round2 x.
Proof. intros H. apply round2_mono in H. pose proof round2_0. lra. Qed.

Lemma weighted_percent (d : dict) (c : component) :
  percent_metrics d -> 0 <= weight c ->
  exists x, weighted (PDict d) c = Ok x /\ 0 <= x <= 100 * weight c.
Proof.
  intros Hd Hw. unfold weighted. cbn [py_get rbind].
  destruct (dict_get (metric c) d) as [v|] eqn:E.
  - destruct (Hd _ _ E) as (q & Hq & Hb). rewrite Hq. cbn [rbind].
    eexists. split; [reflexivity|]. nra.
  - cbn [number rbind]. eexists. split; [reflexivity|].
    change (inject_Z 0) with 0. nra.
Qed.

Lemma calculate_domain_percent (cs : list component) (minimum : Q) (d : dict)
    (c1 c2 c3 c4 : component) :
  cs = [c1; c2; c3; c4] ->
  0 <= weight c1 -> 0 <= weight c2 -> 0 <= weight c3 -> 0 <= weight c4 ->
  weight c1 + weight c2 + weight c3 + weight c4 == 1 ->
  percent_metrics d ->
  exists r, calculate_domain cs minimum (PDict d) = Ok r /\
            0 <= total_score r <= 100.
Proof.
  intros -> H1 H2 H3 H4 Hs Hd.
  destruct (weighted_percent d c1 Hd H1) as (x1 & E1 & B1).
  destruct (weighted_percent d c2 Hd H2) as (x2 & E2 & B2).
  destruct (weighted_percent d c3 Hd H3) as (x3 & E3 & B3).
  destruct (weighted_percent d c4 Hd H4) as (x4 & E4 & B4).
  unfold calculate_domain. cbn [weighted_scores].
  rewrite E1, E2, E3, E4. cbn [rbind total fold_left snd total_score].
  eexists. split; [reflexivity|]. cbn [total_score].
  split; [apply round2_nonneg | apply round2_le_100]; nra.
Qed.

End QualityMetricsFacts.

(** X7. In each of the three domains a score stays between 0 and 100
    when every metric that is given is a number between 0 and 100;
    metrics that are missing count as 0. *)
Theorem domain_scores_within_percent (d : Py.dict) :
  (forall k v, Py.dict_get k d = Some v ->
     exists q, Quality.number v = Py.Ok q /\ (0 <= q <= 100)%Q) ->
  (exists r, QualityMetrics.calculate_cv_score (Py.PDict d) = Py.Ok r /\
             (0 <= QualityMetrics.total_score r <= 100)%Q) /\
  (exists r, QualityMetrics.calculate_letter_score (Py.PDict d) = Py.Ok r /\
             (0 <= QualityMetrics.total_score r <= 100)%Q) /\
  (exists r, QualityMetrics.calculate_ats_score (Py.PDict d) = Py.Ok r /\
             (0 <= QualityMetrics.total_score r <= 100)%Q).
Proof.
  intros Hd. repeat split.
  - eapply calculate_domain_percent; try reflexivity; try exact Hd; cbn; lra.
  - eapply calculate_domain_percent; try reflexivity; try exact Hd; cbn; lra.
  - eapply calculate_domain_percent; try reflexivity; try exact Hd; cbn; lra.
Qed.

Lemma domain_scores_within_percent_witness :
  (exists r, QualityMetrics.calculate_cv_score
               (Py.PDict [("skills_match"%string, Py.PInt 80)]) = Py.Ok r /\
             (0 <= QualityMetrics.total_score r <= 100)%Q) /\
  (exists r, QualityMetrics.calculate_letter_score
               (Py.PDict [("skills_match"%string, Py.PInt 80)]) = Py.Ok r /\
             (0 <= QualityMetrics.total_score r <= 100)%Q) /\
  (exists r, QualityMetrics.calculate_ats_score
               (Py.PDict [("skills_match"%string, Py.PInt 80)]) = Py.Ok r /\
             (0 <= QualityMetrics.total_score r <= 100)%Q).
Proof.
  apply (domain_scores_within_percent [("skills_match"%string, Py.PInt 80)]).
  intros k v H. cbn in H.
  destruct (String.eqb k "skills_match"); [|discriminate].
  injection H as <-. exists 80%Q. split; [reflexivity|]. lra.
Defined.

Section AssessmentFacts.
Import Py PyNum Quality QualityMetrics.
Local Open Scope Q_scope.

Lemma ltb_true_iff (x y : Q) : PyNum.ltb x y = true <-> x < y.
Proof. unfold PyNum.ltb. rewrite negb_true_iff. apply (geb_false_iff x y). Qed.

Lemma ltb_false_iff (x y : Q) : PyNum.ltb x y = false <-> y <= x.
Proof.
  unfold PyNum.ltb. rewrite negb_false_iff. apply (geb_true_iff x y).
Qed.

(** A domain that meets its threshold of 75 reports a total of at least
    75. *)
Lemma calculate_domain_meets (cs : list component) (metrics : pyval) (r : domain_score) :
  calculate_domain cs 75 metrics = Ok r ->
  ds_meets_threshold r = true -> 75 <= total_score r.
Proof.
  unfold calculate_domain. destruct (weighted_scores metrics cs) as [scores|e];
    cbn [rbind]; [|discriminate].
  intros [= <-]. cbn [ds_meets_threshold total_score]. intros H.
  apply geb_true_iff in H. apply round2_ge_75. exact H.
Qed.

Lemma overall_meets (a b c : Q) :
  75 <= a -> 75 <= b -> 75 <= c ->
  meets_threshold (calculate_overall_quality a b c) = true.
Proof.
  intros Ha Hb Hc. unfold calculate_overall_quality. cbn [meets_threshold].
  apply geb_true_iff. cbn. lra.
Qed.

Lemma get_quality_assessment_inv (cv letter ats : pyval) (qa : quality_assessment) :
  get_quality_assessment cv letter ats = Ok qa ->
  calculate_cv_score cv = Ok (cv_assessment qa) /\
  calculate_letter_score letter = Ok (letter_assessment qa) /\
  calculate_ats_score ats = Ok (ats_assessment qa) /\
  meets_all_thresholds qa =
    ds_meets_threshold (cv_assessment qa) && ds_meets_threshold (letter_assessment qa)
    && ds_meets_threshold (ats_assessment qa).
Proof.
  unfold get_quality_assessment.
  destruct (calculate_cv_score cv) as [rc|e] eqn:Ec; cbn [rbind]; [|discriminate].
  destruct (calculate_letter_score letter) as [rl|e] eqn:El; cbn [rbind]; [|discriminate].
  destruct (calculate_ats_score ats) as [ra|e] eqn:Ea; cbn [rbind]; [|discriminate].
  intros [= <-].
  cbn [cv_assessment letter_assessment ats_assessment meets_all_thresholds forallb].
  repeat split.
  destruct (ds_meets_threshold rc) eqn:Mc; [|reflexivity].
  destruct (ds_meets_threshold rl) eqn:Ml; [|reflexivity].
  destruct (ds_meets_threshold ra) eqn:Ma; [|reflexivity].
  pose proof (overall_meets _ _ _ (calculate_domain_meets _ _ _ Ec Mc)
                (calculate_domain_meets _ _ _ El Ml)
                (calculate_domain_meets _ _ _ Ea Ma)) as O.
  unfold calculate_overall_quality in O. cbn [meets_threshold] in O.
  cbn [andb]. rewrite andb_true_r. exact O.
Qed.

(** [min] returns an entry of the dictionary, and no entry is below it. *)
Lemma min_from_spec (rest : list (string * Q)) (best : string * Q) :
  In (min_from best rest) (best :: rest) /\
  (forall kv, In kv (best :: rest) -> snd (min_from best rest) <= snd kv).
Proof.
  revert best. induction rest as [|kv rest IH]; intros best; cbn [min_from].
  - split; [left; reflexivity|]. intros kv [<-|[]]. lra.
  - destruct (IH (if PyNum.ltb (snd kv) (snd best) then kv else best)) as [I M].
    split.
    + destruct I as [E|I]; [|right; right; exact I].
      rewrite <- E. destruct (PyNum.ltb (snd kv) (snd best)); [right; left|left]; reflexivity.
    + intros kv' H.
      assert (B : snd (min_from (if PyNum.ltb (snd kv) (snd best) then kv else best) rest)
                  <= snd (if PyNum.ltb (snd kv) (snd best) then kv else best))
        by (apply M; left; reflexivity).
      destruct H as [<-|[<-|H]].
      * destruct (PyNum.ltb (snd kv) (snd best)) eqn:E; [|exact B].
        apply ltb_true_iff in E. lra.
      * destruct (PyNum.ltb (snd kv) (snd best)) eqn:E; [exact B|].
        apply ltb_false_iff in E. lra.
      * apply M. right. exact H.
Qed.

Lemma weighted_scores_names (metrics : pyval) (cs : list component)
    (scores : list (string * Q)) :
  weighted_scores metrics cs = Ok scores -> map fst scores = map score_name cs.
Proof.
  revert scores. induction cs as [|c cs IH]; intros scores; cbn [weighted_scores].
  - intros [= <-]. reflexivity.
  - destruct (weighted metrics c) as [x|e]; cbn [rbind]; [|discriminate].
    destruct (weighted_scores metrics cs) as [rest|e]; cbn [rbind]; [|discriminate].
    intros [= <-]. cbn [map fst]. rewrite (IH rest eq_refl). reflexivity.
Qed.

Lemma calculate_domain_names (cs : list component) (minimum : Q) (metrics : pyval)
    (r : domain_score) :
  calculate_domain cs minimum metrics = Ok r ->
  map fst (ds_component_scores r) = map score_name cs.
Proof.
  unfold calculate_domain.
  destruct (weighted_scores metrics cs) as [scores|e] eqn:E; cbn [rbind]; [|discriminate].
  intros [= <-]. cbn [ds_component_scores]. exact (weighted_scores_names _ _ _ E).
Qed.

(** One block of [get_improvement_priorities] on a domain with at least
    one component. *)
Lemma priority_of_run (label : string) (d : domain_score) (priorities : list string) :
  ds_component_scores d <> [] ->
  exists name q,
    In (name, q) (ds_component_scores d) /\
    (forall kv, In kv (ds_component_scores d) -> q <= snd kv) /\
    priority_of label d priorities =
      Ok (if ds_meets_threshold d then priorities
          else priorities ++
               [("Improve " ++ label ++ " " ++ PyStr.replace "_score" "" name)%string]).
Proof.
  intros Hne. unfold priority_of.
  destruct (ds_component_scores d) as [|kv rest] eqn:E; [congruence|].
  destruct (min_from_spec rest kv) as [I M].
  exists (fst (min_from kv rest)), (snd (min_from kv rest)).
  split; [rewrite <- surjective_pairing; exact I|].
  split; [exact M|].
  destruct (ds_meets_threshold d); cbn [negb]; [reflexivity|].
  cbn [lowest rbind]. reflexivity.
Qed.

Lemma domain_nonempty (cs : list component) (minimum : Q) (metrics : pyval)
    (r : domain_score) :
  cs <> [] -> calculate_domain cs minimum metrics = Ok r -> ds_component_scores r <> [].
Proof.
  intros Hne H E. apply calculate_domain_names in H. rewrite E in H.
  destruct cs; [congruence|discriminate].
Qed.

End AssessmentFacts.

(** X8. Whenever [get_quality_assessment] returns, [meets_all_thresholds]
    is the conjunction of the three domain flags alone: the overall
    threshold, the fourth member of the [all], is met as soon as the
    three domains meet theirs. *)
Theorem meets_all_thresholds_is_three_flags
    (cv_metrics letter_metrics ats_metrics : Py.pyval)
    (qa : QualityMetrics.quality_assessment) :
  QualityMetrics.get_quality_assessment cv_metrics letter_metrics ats_metrics = Py.Ok qa ->
  QualityMetrics.meets_all_thresholds qa =
    QualityMetrics.ds_meets_threshold (QualityMetrics.cv_assessment qa)
    && QualityMetrics.ds_meets_threshold (QualityMetrics.letter_assessment qa)
    && QualityMetrics.ds_meets_threshold (QualityMetrics.ats_assessment qa).
Proof.
  intros H. apply get_quality_assessment_inv in H. tauto.
Qed.

Lemma meets_all_thresholds_is_three_flags_witness :
  exists qa,
    QualityMetrics.get_quality_assessment
      (QualityMetrics.uniform_metrics QualityMetrics.cv_components 80)
      (QualityMetrics.uniform_metrics QualityMetrics.letter_components 70)
      (Py.PDict []) = Py.Ok qa /\
    QualityMetrics.meets_all_thresholds qa =
      QualityMetrics.ds_meets_threshold (QualityMetrics.cv_assessment qa)
      && QualityMetrics.ds_meets_threshold (QualityMetrics.letter_assessment qa)
      && QualityMetrics.ds_meets_threshold (QualityMetrics.ats_assessment qa).
Proof.
  eexists. split.
  - vm_compute. reflexivity.
  - apply (meets_all_thresholds_is_three_flags
             (QualityMetrics.uniform_metrics QualityMetrics.cv_components 80)
             (QualityMetrics.uniform_metrics QualityMetrics.letter_components 70)
             (Py.PDict [])).
    vm_compute. reflexivity.
Defined.

(** X9. On an assessment that [get_quality_assessment] returned,
    [get_improvement_priorities] returns without raising, with one
    priority for each domain below its threshold, CV first, then letter,
    then ATS; each names a component of that domain whose weighted score
    no other component of the domain is below.  The list is empty exactly
    when [meets_all_thresholds] is true. *)
Theorem improvement_priorities_of_assessment
    (cv_metrics letter_metrics ats_metrics : Py.pyval)
    (qa : QualityMetrics.quality_assessment) :
  QualityMetrics.get_quality_assessment cv_metrics letter_metrics ats_metrics = Py.Ok qa ->
  let lowest_of (d : QualityMetrics.domain_score) (name : string) :=
    exists q, In (name, q) (QualityMetrics.ds_component_scores d) /\
              forall kv, In kv (QualityMetrics.ds_component_scores d) -> (q <= snd kv)%Q in
  let entry (label : string) (d : QualityMetrics.domain_score) (name : string) :=
    if QualityMetrics.ds_meets_threshold d then []
    else [("Improve " ++ label ++ " " ++ PyStr.replace "_score" "" name)%string] in
  exists cv_name letter_name ats_name priorities,
    lowest_of (QualityMetrics.cv_assessment qa) cv_name /\
    lowest_of (QualityMetrics.letter_assessment qa) letter_name /\
    lowest_of (QualityMetrics.ats_assessment qa) ats_name /\
    QualityMetrics.get_improvement_priorities qa = Py.Ok priorities /\
    priorities =
      entry "CV"%string (QualityMetrics.cv_assessment qa) cv_name
      ++ entry "letter"%string (QualityMetrics.letter_assessment qa) letter_name
      ++ entry "ATS"%string (QualityMetrics.ats_assessment qa) ats_name /\
    (priorities = [] <-> QualityMetrics.meets_all_thresholds qa = true).
Proof.
  intros H lowest_of entry. subst lowest_of entry.
  destruct (get_quality_assessment_inv _ _ _ _ H) as (Ec & El & Ea & M).
  assert (Nc : QualityMetrics.ds_component_scores (QualityMetrics.cv_assessment qa) <> [])
    by (eapply domain_nonempty; [|exact Ec]; discriminate).
  assert (Nl : QualityMetrics.ds_component_scores (QualityMetrics.letter_assessment qa) <> [])
    by (eapply domain_nonempty; [|exact El]; discriminate).
  assert (Na : QualityMetrics.ds_component_scores (QualityMetrics.ats_assessment qa) <> [])
    by (eapply domain_nonempty; [|exact Ea]; discriminate).
  destruct (priority_of_run "CV" (QualityMetrics.cv_assessment qa) [] Nc)
    as (nc & qc & Ic & Mc & Rc).
  exists nc.
  destruct (QualityMetrics.ds_meets_threshold (QualityMetrics.cv_assessment qa)) eqn:Fc;
  match type of Rc with _ = Py.Ok ?p =>
    destruct (priority_of_run "letter" (QualityMetrics.letter_assessment qa) p Nl)
      as (nl & ql & Il & Ml & Rl) end;
  exists nl;
  destruct (QualityMetrics.ds_meets_threshold (QualityMetrics.letter_assessment qa)) eqn:Fl;
  match type of Rl with _ = Py.Ok ?p =>
    destruct (priority_of_run "ATS" (QualityMetrics.ats_assessment qa) p Na)
      as (na & qa' & Ia & Ma & Ra) end;
  exists na;
  destruct (QualityMetrics.ds_meets_threshold (QualityMetrics.ats_assessment qa)) eqn:Fa;
  (eexists; split; [exists qc; split; assumption|];
   split; [exists ql; split; assumption|];
   split; [exists qa'; split; assumption|];
   split; [unfold QualityMetrics.get_improvement_priorities;
           rewrite Rc; cbn [Py.rbind]; rewrite Rl; cbn [Py.rbind]; exact Ra|];
   split; [reflexivity|];
   rewrite M; cbn; split; intros X; (reflexivity || discriminate)).
Qed.

Lemma improvement_priorities_of_assessment_witness :
  exists qa priorities,
    QualityMetrics.get_quality_assessment
      (QualityMetrics.uniform_metrics QualityMetrics.cv_components 80)
      (QualityMetrics.uniform_metrics QualityMetrics.letter_components 70)
      (Py.PDict []) = Py.Ok qa /\
    QualityMetrics.get_improvement_priorities qa = Py.Ok priorities /\
    (priorities = [] <-> QualityMetrics.meets_all_thresholds qa = true).
Proof.
  pose proof (improvement_priorities_of_assessment
    (QualityMetrics.uniform_metrics QualityMetrics.cv_components 80)
    (QualityMetrics.uniform_metrics QualityMetrics.letter_components 70)
    (Py.PDict [])) as T.
  destruct (QualityMetrics.get_quality_assessment _ _ _) as [qa|e] eqn:E.
  - destruct (T qa eq_refl) as (nc & nl & na & ps & _ & _ & _ & R & _ & P).
    exists qa, ps. split; [reflexivity|]. split; [exact R | exact P].
  - vm_compute in E. discriminate E.
Defined.

(** ** Coordinator *)

Section CoordinatorFacts.
Import Py PyNum Quality Coordinator.
Local Open Scope Q_scope.

Lemma aggregate_results_inv (ats cv letter : pyval) (agg : aggregated_t) :
  _aggregate_results ats cv letter = Ok agg ->
  exists va vc vl a c l,
    agg_component_scores agg = (va, vc, vl) /\
    py_item ats "overall_score" = Ok va /\
    py_item cv "overall_score" = Ok vc /\
    py_item letter "overall_score" = Ok vl /\
    number va = Ok a /\ number vc = Ok c /\ number vl = Ok l /\
    agg_overall_score agg = round2 (a * 0.4 + c * 0.4 + l * 0.2).
Proof.
  unfold _aggregate_results.
  destruct (py_item ats "overall_score") as [va|e]; cbn [rbind]; [|discriminate].
  destruct (number va) as [a|e] eqn:Na; cbn [rbind]; [|discriminate].
  destruct (py_item cv "overall_score") as [vc|e]; cbn [rbind]; [|discriminate].
  destruct (number vc) as [c|e] eqn:Nc; cbn [rbind]; [|discriminate].
  destruct (py_item letter "overall_score") as [vl|e]; cbn [rbind]; [|discriminate].
  destruct (number vl) as [l|e] eqn:Nl; cbn [rbind]; [|discriminate].
  intros [= <-]. exists va, vc, vl, a, c, l.
  cbn [agg_component_scores agg_overall_score]. repeat split; assumption || reflexivity.
Qed.

End CoordinatorFacts.

(** X10. On the aggregate that [_aggregate_results] returned,
    [_check_quality_standards] returns without raising, and
    [meets_all_standards] is the conjunction of the three component
    checks alone: the check of the overall score passes whenever the
    three components reach 75. *)
Theorem check_quality_standards_of_aggregate
    (ats_results cv_results letter_results : Py.pyval)
    (aggregated_results : Quality.aggregated_t) :
  Quality._aggregate_results ats_results cv_results letter_results
    = Py.Ok aggregated_results ->
  exists standards,
    Coordinator._check_quality_standards aggregated_results = Py.Ok standards /\
    Coordinator.meets_all_standards standards =
      Coordinator.sc_ats_compliance (Coordinator.standards_results standards)
      && Coordinator.sc_cv_quality (Coordinator.standards_results standards)
      && Coordinator.sc_letter_quality (Coordinator.standards_results standards).
Proof.
  intros H.
  destruct (aggregate_results_inv _ _ _ _ H)
    as (va & vc & vl & a & c & l & Ec & _ & _ & _ & Na & Nc & Nl & Eo).
  unfold Coordinator._check_quality_standards, Coordinator.py_ge.
  rewrite Ec, Na, Nc, Nl, Eo. cbn [Py.rbind].
  eexists. split; [reflexivity|].
  cbn [Coordinator.meets_all_standards Coordinator.standards_results
       Coordinator.sc_ats_compliance Coordinator.sc_cv_quality
       Coordinator.sc_letter_quality forallb].
  cbn [Coordinator.th_ats_compliance Coordinator.th_cv_quality
       Coordinator.th_letter_quality Coordinator.th_overall_quality
       Coordinator.quality_thresholds].
  destruct (PyNum.geb a 75) eqn:Ga; [|reflexivity].
  destruct (PyNum.geb c 75) eqn:Gc; [|reflexivity].
  destruct (PyNum.geb l 75) eqn:Gl; [|reflexivity].
  apply geb_true_iff in Ga, Gc, Gl.
  assert (O : PyNum.geb (PyNum.round2 (a * 0.4 + c * 0.4 + l * 0.2)) 75 = true).
  { apply geb_true_iff. apply round2_ge_75. lra. }
  rewrite O. reflexivity.
Qed.

Lemma check_quality_standards_of_aggregate_witness :
  exists standards,
    Coordinator._check_quality_standards
      {| Quality.agg_overall_score := PyNum.round2 (80 * 0.4 + 90 * 0.4 + 70 * 0.2);
         Quality.agg_component_scores := (Py.PFloat 80, Py.PFloat 90, Py.PFloat 70) |}
      = Py.Ok standards /\
    Coordinator.meets_all_standards standards =
      Coordinator.sc_ats_compliance (Coordinator.standards_results standards)
      && Coordinator.sc_cv_quality (Coordinator.standards_results standards)
      && Coordinator.sc_letter_quality (Coordinator.standards_results standards).
Proof.
  apply (check_quality_standards_of_aggregate
           (Quality.scored 80) (Quality.scored 90) (Quality.scored 70)).
  reflexivity.
Defined.

Section RecommendationFacts.
Import Py PyNum Quality Coordinator.
Local Open Scope Q_scope.

Lemma by_band_low (results : pyval) (key : string) (threshold : Q)
    (r r' : recommendations_t) :
  by_band results key threshold r = Ok r' -> low_priority r' = low_priority r.
Proof.
  unfold by_band.
  destruct (py_item results "overall_score") as [score|e]; cbn [rbind]; [|discriminate].
  destruct (py_lt score threshold) as [[|]|e]; cbn [rbind]; [| |discriminate].
  - destruct (py_lt score 60) as [[|]|e]; cbn [rbind]; [| |discriminate].
    + destruct (extend_from results key (high_priority r)) as [h|e]; cbn [rbind];
        [|discriminate].
      intros [= <-]. reflexivity.
    + destruct (extend_from results key (medium_priority r)) as [m|e]; cbn [rbind];
        [|discriminate].
      intros [= <-]. reflexivity.
  - intros [= <-]. reflexivity.
Qed.

Lemma by_band_result_with (x : Q) (key : string) (items : list pyval) (threshold : Q)
    (r : recommendations_t) :
  key <> "overall_score"%string ->
  by_band (result_with x key items) key threshold r =
    Ok {| high_priority :=
            high_priority r ++ (if ltb x threshold && ltb x 60 then items else []);
          medium_priority :=
            medium_priority r
            ++ (if ltb x threshold && negb (ltb x 60) then items else []);
          low_priority := low_priority r |}.
Proof.
  intros Hk. unfold by_band, result_with, py_lt, extend_from.
  cbn [py_item dict_get String.eqb Ascii.eqb Bool.eqb rbind number py_get].
  apply String.eqb_neq in Hk. rewrite Hk, String.eqb_refl. cbn [py_iter rbind].
  destruct (ltb x threshold); cbn [andb negb].
  - destruct (ltb x 60); cbn [andb negb rbind]; rewrite app_nil_r; reflexivity.
  - rewrite !app_nil_r. destruct r; reflexivity.
Qed.

End RecommendationFacts.

(** X11. [_generate_recommendations] never fills [low_priority].  For
    results that carry a numeric overall score and a list of remarks, the
    ATS recommendations are high priority when the ATS score is under 75
    and are never medium priority; the CV improvement areas and the
    letter's needed improvements are high priority under 60, medium
    priority from 60 up to but not including 75, and dropped from 75
    on. *)
Theorem generate_recommendations_routing :
  (forall ats_results cv_results letter_results r,
     Coordinator._generate_recommendations ats_results cv_results letter_results
       = Py.Ok r ->
     Coordinator.low_priority r = []) /\
  (forall (a c l : Q) (ats_recs cv_areas letter_needed : list Py.pyval),
     Coordinator._generate_recommendations
       (Coordinator.result_with a "recommendations" ats_recs)
       (Coordinator.result_with c "improvement_areas" cv_areas)
       (Coordinator.result_with l "improvement_needed" letter_needed)
     = Py.Ok
         {| Coordinator.high_priority :=
              (if PyNum.ltb a 75 then ats_recs else [])
              ++ (if PyNum.ltb c 60 then cv_areas else [])
              ++ (if PyNum.ltb l 60 then letter_needed else []);
            Coordinator.medium_priority :=
              (if PyNum.ltb c 75 && negb (PyNum.ltb c 60) then cv_areas else [])
              ++ (if PyNum.ltb l 75 && negb (PyNum.ltb l 60) then letter_needed else []);
            Coordinator.low_priority := [] |}).
Proof.
  split.
  - intros ats cv letter r. unfold Coordinator._generate_recommendations.
    destruct (Py.py_item ats "overall_score") as [score|e]; cbn [Py.rbind];
      [|discriminate].
    destruct (Coordinator.py_lt score _) as [below|e]; cbn [Py.rbind]; [|discriminate].
    assert (L : forall r0,
      (if below
       then Py.rbind (Coordinator.extend_from ats "recommendations" [])
              (fun h => Py.Ok {| Coordinator.high_priority := h;
                                 Coordinator.medium_priority := [];
                                 Coordinator.low_priority := [] |})
       else Py.Ok {| Coordinator.high_priority := [];
                     Coordinator.medium_priority := [];
                     Coordinator.low_priority := [] |}) = Py.Ok r0 ->
      Coordinator.low_priority r0 = []).
    { intros r0. destruct below.
      - destruct (Coordinator.extend_from ats "recommendations" []) as [h|e];
          cbn [Py.rbind]; [|discriminate].
        intros [= <-]. reflexivity.
      - intros [= <-]. reflexivity. }
    cbn [Coordinator.high_priority Coordinator.medium_priority Coordinator.low_priority].
    match goal with |- Py.rbind ?m _ = _ -> _ => destruct m as [r0|e] eqn:E0 end;
      cbn [Py.rbind]; [|discriminate].
    specialize (L r0 eq_refl).
    destruct (Coordinator.by_band cv _ _ r0) as [r1|e] eqn:E1; cbn [Py.rbind];
      [|discriminate].
    intros E2. apply by_band_low in E1, E2. congruence.
  - intros a c l ats_recs cv_areas letter_needed.
    assert (F60 : forall x, PyNum.ltb x 60 = true -> PyNum.ltb x 75 = true).
    { intros x H. apply ltb_true_iff in H. apply ltb_true_iff. lra. }
    unfold Coordinator._generate_recommendations.
    cbn [Coordinator.th_ats_compliance Coordinator.th_cv_quality
         Coordinator.th_letter_quality Coordinator.quality_thresholds].
    unfold Coordinator.result_with at 1 2.
    unfold Coordinator.py_lt at 1. unfold Coordinator.extend_from.
    cbn [Py.py_item Py.dict_get String.eqb Ascii.eqb Bool.eqb Py.rbind Quality.number
         Py.py_get Coordinator.py_iter Coordinator.high_priority
         Coordinator.medium_priority Coordinator.low_priority app].
    assert (R : forall h,
      Py.rbind (Coordinator.by_band
                  (Coordinator.result_with c "improvement_areas" cv_areas)
                  "improvement_areas" 75
                  {| Coordinator.high_priority := h;
                     Coordinator.medium_priority := [];
                     Coordinator.low_priority := [] |})
        (fun r => Coordinator.by_band
                    (Coordinator.result_with l "improvement_needed" letter_needed)
                    "improvement_needed" 75 r)
      = Py.Ok
          {| Coordinator.high_priority :=
               h ++ (if PyNum.ltb c 60 then cv_areas else [])
               ++ (if PyNum.ltb l 60 then letter_needed else []);
             Coordinator.medium_priority :=
               (if PyNum.ltb c 75 && negb (PyNum.ltb c 60) then cv_areas else [])
               ++ (if PyNum.ltb l 75 && negb (PyNum.ltb l 60) then letter_needed else []);
             Coordinator.low_priority := [] |}).
    { intros h. rewrite by_band_result_with by discriminate. cbn [Py.rbind].
      rewrite by_band_result_with by discriminate.
      cbn [Coordinator.high_priority Coordinator.medium_priority
           Coordinator.low_priority app].
      rewrite <- app_assoc.
      destruct (PyNum.ltb c 60) eqn:C60; [rewrite (F60 c C60)|rewrite andb_false_r];
      (destruct (PyNum.ltb l 60) eqn:L60; [rewrite (F60 l L60)|rewrite andb_false_r]);
      cbn [andb negb]; reflexivity. }
    destruct (PyNum.ltb a 75); cbn [Py.rbind]; apply R.
Qed.

(** ** CVMatcher: the three sub-matches *)

Section MatchFacts.
Import Py PyStr PyNum CVMatcher.
Local Open Scope Q_scope.

Lemma highest_level_range (text : string) : (0 <= highest_level text <= 4)%Z.
Proof.
  unfold highest_level, education_levels. cbn [fold_left fst snd].
  repeat match goal with |- context [contains ?n text] => destruct (contains n text) end;
    lia.
Qed.

Lemma round2_100 : (round2 100 == 100)%Q.
Proof. reflexivity. Qed.

(** The score of a level that falls short of a required level of at most
    4 is at most 75. *)
Lemma short_level_score (have wanted : Z) :
  (0 <= have < wanted)%Z -> (wanted <= 4)%Z ->
  ~ round2 (inject_Z have / inject_Z wanted * 100) == 100.
Proof.
  intros H1 H2.
  assert (W : (wanted = 1 \/ wanted = 2 \/ wanted = 3 \/ wanted = 4)%Z) by lia.
  assert (V : (have = 0 \/ have = 1 \/ have = 2 \/ have = 3)%Z) by lia.
  destruct W as [-> | [-> | [-> | ->]]]; destruct V as [-> | [-> | [-> | ->]]];
    try lia; intros E; vm_compute in E; discriminate E.
Qed.

Lemma level_meets_iff (have wanted : Z) :
  (0 <= have <= 4)%Z -> (0 <= wanted <= 4)%Z ->
  ((have >=? wanted)%Z = true <->
   round2 (if (wanted =? 0)%Z then 100
           else if (have >=? wanted)%Z then 100
           else if (wanted >? 0)%Z
                then (inject_Z have / inject_Z wanted) * 100
                else 0) == 100).
Proof.
  intros Hh Hw.
  destruct (wanted =? 0)%Z eqn:E0.
  - apply Z.eqb_eq in E0. split; [intros _; reflexivity|]. intros _.
    apply Z.geb_le. lia.
  - apply Z.eqb_neq in E0.
    destruct (have >=? wanted)%Z eqn:G; [split; reflexivity|].
    assert (P : (wanted >? 0)%Z = true) by (apply Z.gtb_lt; lia). rewrite P.
    split; [discriminate|]. intros E. exfalso.
    apply (short_level_score have wanted); [|lia|exact E].
    assert (~ (wanted <= have)%Z) by (intros L; apply Z.geb_le in L; congruence).
    lia.
Qed.

Lemma int_of_digits_app (a b : string) :
  int_of_digits (a ++ b) =
    (int_of_digits a * 10 ^ Z.of_nat (String.length b) + int_of_digits b)%Z.
Proof.
  unfold int_of_digits.
  assert (G : forall (s : string) (acc : Z),
    fold_left (fun acc c => (acc * 10 + (Z.of_nat (code c) - 48))%Z)
      (list_ascii_of_string s) acc =
    (acc * 10 ^ Z.of_nat (String.length s) +
     fold_left (fun acc c => (acc * 10 + (Z.of_nat (code c) - 48))%Z)
       (list_ascii_of_string s) 0)%Z).
  { induction s as [|c s IH]; intros acc.
    - cbn. lia.
    - cbn [list_ascii_of_string fold_left String.length].
      rewrite IH. rewrite (IH (0 * 10 + _)%Z).
      rewrite Nat2Z.inj_succ, Z.pow_succ_r by lia. lia. }
  assert (A : forall (s t : string),
    list_ascii_of_string (s ++ t) = (list_ascii_of_string s ++ list_ascii_of_string t)%list).
  { induction s as [|c s IH]; intros t; cbn; [reflexivity|]. rewrite IH. reflexivity. }
  rewrite A, fold_left_app. rewrite G. reflexivity.
Qed.

Lemma filter_chars_app (p : ascii -> bool) (a b : string) :
  filter_chars p (a ++ b) = (filter_chars p a ++ filter_chars p b)%string.
Proof.
  induction a as [|c a IH]; cbn; [reflexivity|].
  destruct (p c); cbn; rewrite IH; reflexivity.
Qed.

Lemma extract_years_str (s : string) :
  (Z.of_nat (String.length (filter_chars isdigit s)) <= int_max_str_digits)%Z ->
  _extract_years (PStr s) = int_of_digits (filter_chars isdigit s).
Proof.
  intros H. cbn [_extract_years].
  destruct (String.eqb (filter_chars isdigit s) "") eqn:E.
  - apply String.eqb_eq in E. rewrite E. reflexivity.
  - destruct (int_max_str_digits <? Z.of_nat (String.length (filter_chars isdigit s)))%Z
      eqn:L; [apply Z.ltb_lt in L; lia | reflexivity].
Qed.

Lemma extract_years_long (s : string) :
  (int_max_str_digits < Z.of_nat (String.length (filter_chars isdigit s)))%Z ->
  _extract_years (PStr s) = 0%Z.
Proof.
  intros H. cbn [_extract_years].
  destruct (String.eqb (filter_chars isdigit s) ""); [reflexivity|].
  apply Z.ltb_lt in H. rewrite H. reflexivity.
Qed.

Lemma length_app (a b : string) :
  String.length (a ++ b) = (String.length a + String.length b)%nat.
Proof. induction a as [|c a IH]; cbn; [reflexivity|]. rewrite IH. reflexivity. Qed.

Lemma int_of_digits_nonneg (s : string) :
  (0 <= int_of_digits (filter_chars isdigit s))%Z.
Proof.
  unfold int_of_digits.
  assert (G : forall (t : string) (acc : Z), (0 <= acc)%Z ->
    (0 <= fold_left (fun acc c => (acc * 10 + (Z.of_nat (code c) - 48))%Z)
           (list_ascii_of_string (filter_chars isdigit t)) acc)%Z).
  { induction t as [|c t IH]; intros acc Hacc; cbn [filter_chars]; [exact Hacc|].
    destruct (isdigit c) eqn:D; [|apply IH; exact Hacc].
    cbn [list_ascii_of_string fold_left]. apply IH.
    unfold isdigit, is_digit, between in D. apply andb_true_iff in D.
    destruct D as [D _]. apply Nat.leb_le in D. lia. }
  apply G. lia.
Qed.

Lemma extract_years_nonneg (s : string) : (0 <= _extract_years (PStr s))%Z.
Proof.
  cbn [_extract_years].
  destruct (String.eqb (filter_chars isdigit s) ""); [lia|].
  destruct (int_max_str_digits <? Z.of_nat (String.length (filter_chars isdigit s)))%Z;
    [lia|]. apply int_of_digits_nonneg.
Qed.

End MatchFacts.

(** X12. The education match reports levels between 0 and 4, and says
    that the requirement is met exactly when its score is 100, on every
    input, the inputs that make the computation fail included. *)
Theorem education_meets_iff_full_score
    (py_str : Py.pyval -> string) (cv_analysis job_analysis : Py.pyval) :
  let r := CVMatcher._calculate_education_match py_str cv_analysis job_analysis in
  (0 <= CVMatcher.ed_cv_level r <= 4)%Z /\
  (0 <= CVMatcher.ed_required_level r <= 4)%Z /\
  (CVMatcher.ed_meets_requirement r = true <-> (CVMatcher.ed_score r == 100)%Q).
Proof.
  unfold CVMatcher._calculate_education_match, CVMatcher.education_match_try.
  assert (D : (0 <= 0 <= 4)%Z /\ (0 <= 0 <= 4)%Z /\ (false = true <-> (0 == 100)%Q)).
  { split; [lia|]. split; [lia|]. split; [discriminate|].
    intros E. vm_compute in E. discriminate E. }
  destruct (Py.py_get job_analysis "requirements" (Py.PDict [])) as [rq|e];
    cbn [Py.rbind]; [|exact D].
  destruct (Py.py_get rq "education" (Py.PStr "")) as [w|e]; cbn [Py.rbind]; [|exact D].
  destruct (Py.py_get cv_analysis "education" (Py.PStr "")) as [h|e];
    cbn [Py.rbind]; [|exact D].
  cbn [CVMatcher.ed_cv_level CVMatcher.ed_required_level
       CVMatcher.ed_meets_requirement CVMatcher.ed_score].
  split; [apply highest_level_range|]. split; [apply highest_level_range|].
  apply level_meets_iff; apply highest_level_range.
Qed.

(** X13. In the experience match a met requirement always scores 100,
    and a CV whose years are not negative never scores below 0.  The
    converse of the first fails: a negative number of years against no
    requirement scores 100 although the requirement is reported as not
    met. *)
Theorem experience_meets_full_score :
  (forall cv_analysis job_analysis,
     let r := CVMatcher._calculate_experience_match cv_analysis job_analysis in
     (CVMatcher.em_meets_requirement r = true -> (CVMatcher.em_score r == 100)%Q) /\
     ((0 <= CVMatcher.em_cv_years r)%Z -> (0 <= CVMatcher.em_score r)%Q)) /\
  (forall years : Z, (years < 0)%Z ->
     let r := CVMatcher._calculate_experience_match
                (Py.PDict [("experience"%string,
                            Py.PDict [("years"%string, Py.PInt years)])])
                (Py.PDict []) in
     (CVMatcher.em_score r == 100)%Q /\ CVMatcher.em_meets_requirement r = false).
Proof.
  split.
  - intros cv job.
    unfold CVMatcher._calculate_experience_match, CVMatcher.experience_match_try.
    assert (D : (false = true -> (0 == 100)%Q) /\ ((0 <= 0)%Z -> (0 <= 0)%Q))
      by (split; [discriminate | intros _; lra]).
    destruct (Py.py_get cv "experience" (Py.PDict [])) as [ex|e]; cbn [Py.rbind];
      [|exact D].
    destruct (Py.py_get ex "years" (Py.PInt 0)) as [y|e]; cbn [Py.rbind]; [|exact D].
    destruct (Py.py_get job "requirements" (Py.PDict [])) as [rq|e]; cbn [Py.rbind];
      [|exact D].
    destruct (Py.py_get rq "experience" (Py.PInt 0)) as [w|e]; cbn [Py.rbind];
      [|exact D].
    cbn [CVMatcher.em_meets_requirement CVMatcher.em_score CVMatcher.em_cv_years].
    set (have := CVMatcher._extract_years y). set (wanted := CVMatcher._extract_years w).
    split.
    + intros G. rewrite G. destruct (wanted =? 0)%Z; reflexivity.
    + intros Hh. apply round2_nonneg.
      destruct (wanted =? 0)%Z; [lra|].
      destruct (have >=? wanted)%Z; [lra|].
      destruct (wanted >? 0)%Z eqn:P; [|lra].
      apply Z.gtb_lt in P.
      assert (0 <= inject_Z have / inject_Z wanted).
      { apply Qle_shift_div_l.
        - change 0 with (inject_Z 0). rewrite <- Zlt_Qlt. exact P.
        - rewrite Qmult_0_l. change 0 with (inject_Z 0). rewrite <- Zle_Qle. exact Hh. }
      lra.
  - intros years Hy.
    unfold CVMatcher._calculate_experience_match, CVMatcher.experience_match_try.
    cbn [Py.py_get Py.dict_get String.eqb Ascii.eqb Bool.eqb Py.rbind
         CVMatcher._extract_years Z.eqb CVMatcher.em_score
         CVMatcher.em_meets_requirement].
    split; [reflexivity|].
    destruct (years >=? 0)%Z eqn:G; [apply Z.geb_le in G; lia | reflexivity].
Qed.

(** X14. On an ASCII text with at most 4300 digits [_extract_years]
    runs all the digits together: the value of a concatenation is the
    value of the first part shifted by the number of digits of the
    second, plus the value of the second, and a single digit reads as
    itself; so the range 3-5 reads as 35.  A text never yields a negative
    number, and a text without a digit, or with more than 4300 of them
    (where [int] raises), yields 0. *)
Theorem extract_years_runs_digits_together (a b : string) :
  PyStr.isascii a = true -> PyStr.isascii b = true ->
  (Z.of_nat (String.length (PyStr.filter_chars PyStr.isdigit (a ++ b)))
     <= CVMatcher.int_max_str_digits)%Z ->
  CVMatcher._extract_years (Py.PStr (a ++ b)) =
    (CVMatcher._extract_years (Py.PStr a)
       * 10 ^ Z.of_nat (String.length (PyStr.filter_chars PyStr.isdigit b))
     + CVMatcher._extract_years (Py.PStr b))%Z /\
  (0 <= CVMatcher._extract_years (Py.PStr a))%Z /\
  (PyStr.filter_chars PyStr.isdigit a = ""%string ->
   CVMatcher._extract_years (Py.PStr a) = 0%Z) /\
  (forall s : string,
     (CVMatcher.int_max_str_digits
        < Z.of_nat (String.length (PyStr.filter_chars PyStr.isdigit s)))%Z ->
     CVMatcher._extract_years (Py.PStr s) = 0%Z) /\
  (forall c : ascii, PyStr.isdigit c = true ->
     CVMatcher._extract_years (Py.PStr (String c ""))
       = (Z.of_nat (PyStr.code c) - 48)%Z /\
     (0 <= Z.of_nat (PyStr.code c) - 48 <= 9)%Z) /\
  CVMatcher._extract_years (Py.PStr "3-5 years") = 35%Z.
Proof.
  intros _ _ H.
  assert (Hab := H). rewrite filter_chars_app, length_app, Nat2Z.inj_add in Hab.
  split; [|split; [|split; [|split; [|split]]]].
  - rewrite !extract_years_str by lia.
    rewrite filter_chars_app. apply int_of_digits_app.
  - apply extract_years_nonneg.
  - intros E. cbn [CVMatcher._extract_years]. rewrite E. reflexivity.
  - apply extract_years_long.
  - intros c D. cbn [CVMatcher._extract_years PyStr.filter_chars]. rewrite D.
    split; [cbn; lia|].
    unfold PyStr.isdigit, PyStr.is_digit, PyStr.between in D.
    apply andb_true_iff in D. destruct D as [D1 D2].
    apply Nat.leb_le in D1, D2. lia.
  - vm_compute. reflexivity.
Qed.

Lemma extract_years_runs_digits_together_witness :
  CVMatcher._extract_years (Py.PStr ("12 to " ++ "15 years")) =
    (CVMatcher._extract_years (Py.PStr "12 to ")
       * 10 ^ Z.of_nat (String.length (PyStr.filter_chars PyStr.isdigit "15 years"))
     + CVMatcher._extract_years (Py.PStr "15 years"))%Z /\
  CVMatcher._extract_years (Py.PStr ("12 to " ++ "15 years")) = 1215%Z.
Proof.
  split; [|vm_compute; reflexivity].
  apply (extract_years_runs_digits_together "12 to " "15 years");
    [reflexivity | reflexivity | vm_compute; discriminate].
Defined.

Section SkillsPartition.
Import Py PyNum CVMatcher.

Lemma skills_match_try_inv (cv_analysis job_analysis : pyval) (r : skills_match_t) :
  skills_match_try cv_analysis job_analysis = Ok r ->
  exists requirements required preferred skills technical
         required_skills preferred_skills cv_skills,
    py_get job_analysis "requirements" (PDict []) = Ok requirements /\
    py_get requirements "required_skills" (PList []) = Ok required /\
    py_set required = Ok required_skills /\
    py_get requirements "preferred_skills" (PList []) = Ok preferred /\
    py_set preferred = Ok preferred_skills /\
    py_get cv_analysis "skills" (PDict []) = Ok skills /\
    py_get skills "technical_skills" (PList []) = Ok technical /\
    py_set technical = Ok cv_skills /\
    matched_required r = intersection cv_skills required_skills /\
    matched_preferred r = intersection cv_skills preferred_skills /\
    missing_required r = difference required_skills cv_skills /\
    missing_preferred r = difference preferred_skills cv_skills.
Proof.
  unfold skills_match_try.
  destruct (py_get job_analysis "requirements" (PDict [])) as [rq|e] eqn:G1; cbn [rbind];
    [|discriminate].
  destruct (py_get rq "required_skills" (PList [])) as [rs|e] eqn:G2; cbn [rbind];
    [|discriminate].
  destruct (py_set rs) as [required|e] eqn:Er; cbn [rbind]; [|discriminate].
  destruct (py_get rq "preferred_skills" (PList [])) as [ps|e] eqn:G3; cbn [rbind];
    [|discriminate].
  destruct (py_set ps) as [preferred|e] eqn:Ep; cbn [rbind]; [|discriminate].
  destruct (py_get cv_analysis "skills" (PDict [])) as [sk|e] eqn:G4; cbn [rbind];
    [|discriminate].
  destruct (py_get sk "technical_skills" (PList [])) as [ts|e] eqn:G5; cbn [rbind];
    [|discriminate].
  destruct (py_set ts) as [cv_skills|e] eqn:Ec; cbn [rbind]; [|discriminate].
  intros [= <-]. exists rq, rs, ps, sk, ts, required, preferred, cv_skills.
  cbn [matched_required matched_preferred missing_required missing_preferred].
  repeat split; reflexivity || assumption.
Qed.

(** Matched and missing split a wanted set. *)
Lemma matched_missing_split (cv_skills wanted : list hkey) :
  NoDup cv_skills -> NoDup wanted ->
  (forall k, In k wanted <->
             In k (intersection cv_skills wanted) \/ In k (difference wanted cv_skills)) /\
  (forall k, In k (intersection cv_skills wanted) -> ~ In k (difference wanted cv_skills)) /\
  (List.length (intersection cv_skills wanted)
   + List.length (difference wanted cv_skills) = List.length wanted)%nat.
Proof.
  intros Hc Hw. split; [|split].
  - intros k. unfold intersection, difference. rewrite !filter_In. split.
    + intros H. destruct (mem k cv_skills) eqn:M.
      * left. split; [apply mem_true_iff; exact M | apply mem_true_iff; exact H].
      * right. split; [exact H | reflexivity].
    + intros [[_ H]|[H _]]; [apply mem_true_iff; exact H | exact H].
  - intros k. unfold intersection, difference. rewrite !filter_In.
    intros [H _] [_ N]. apply mem_true_iff in H. rewrite H in N. discriminate.
  - rewrite (intersection_length cv_skills wanted Hc Hw). unfold difference.
    clear Hc Hw. induction wanted as [|x wanted IH]; [reflexivity|].
    cbn [filter]. destruct (mem x cv_skills); cbn [negb List.length]; lia.
Qed.

End SkillsPartition.

(** X15. When the skills match is computed without an exception, the
    matched and the missing required skills split the set of required
    skills: every required skill is in one of the two lists, none is in
    both, and their lengths add up to the number of required skills; the
    same holds for the preferred skills. *)
Theorem skills_matched_and_missing_split
    (cv_analysis job_analysis : Py.pyval) (r : CVMatcher.skills_match_t) :
  CVMatcher.skills_match_try cv_analysis job_analysis = Py.Ok r ->
  exists requirements required preferred required_skills preferred_skills,
    Py.py_get job_analysis "requirements" (Py.PDict []) = Py.Ok requirements /\
    Py.py_get requirements "required_skills" (Py.PList []) = Py.Ok required /\
    CVMatcher.py_set required = Py.Ok required_skills /\
    Py.py_get requirements "preferred_skills" (Py.PList []) = Py.Ok preferred /\
    CVMatcher.py_set preferred = Py.Ok preferred_skills /\
    (forall k, In k required_skills <->
       In k (CVMatcher.matched_required r) \/ In k (CVMatcher.missing_required r)) /\
    (forall k, In k (CVMatcher.matched_required r) ->
       ~ In k (CVMatcher.missing_required r)) /\
    (List.length (CVMatcher.matched_required r)
     + List.length (CVMatcher.missing_required r) = List.length required_skills)%nat /\
    (forall k, In k preferred_skills <->
       In k (CVMatcher.matched_preferred r) \/ In k (CVMatcher.missing_preferred r)) /\
    (forall k, In k (CVMatcher.matched_preferred r) ->
       ~ In k (CVMatcher.missing_preferred r)) /\
    (List.length (CVMatcher.matched_preferred r)
     + List.length (CVMatcher.missing_preferred r) = List.length preferred_skills)%nat.
Proof.
  intros H.
  destruct (skills_match_try_inv _ _ _ H)
    as (rq & rs & ps & sk & ts & required & preferred & cv_skills &
        E1 & E2 & E3 & E4 & E5 & _ & _ & E8 & M1 & M2 & M3 & M4).
  exists rq, rs, ps, required, preferred.
  rewrite M1, M2, M3, M4.
  pose proof (py_set_NoDup _ _ E3) as Nr.
  pose proof (py_set_NoDup _ _ E5) as Np.
  pose proof (py_set_NoDup _ _ E8) as Nc.
  destruct (matched_missing_split cv_skills required Nc Nr) as (A1 & A2 & A3).
  destruct (matched_missing_split cv_skills preferred Nc Np) as (B1 & B2 & B3).
  repeat split; try assumption; try (apply A1); try (apply B1).
Qed.

Lemma skills_matched_and_missing_split_witness :
  exists (r : CVMatcher.skills_match_t) (required_skills : list CVMatcher.hkey),
    CVMatcher.skills_match_try
      (Py.PDict [("skills"%string,
         Py.PDict [("technical_skills"%string,
                    Py.PList [Py.PStr "python"; Py.PStr "sql"])])])
      (Py.PDict [("requirements"%string,
         Py.PDict [("required_skills"%string,
                    Py.PList [Py.PStr "python"; Py.PStr "rust"; Py.PStr "go"])])])
      = Py.Ok r /\
    (List.length (CVMatcher.matched_required r)
     + List.length (CVMatcher.missing_required r) = List.length required_skills)%nat /\
    List.length required_skills = 3%nat.
Proof.
  pose proof (skills_matched_and_missing_split
    (Py.PDict [("skills"%string,
       Py.PDict [("technical_skills"%string,
                  Py.PList [Py.PStr "python"; Py.PStr "sql"])])])
    (Py.PDict [("requirements"%string,
       Py.PDict [("required_skills"%string,
                  Py.PList [Py.PStr "python"; Py.PStr "rust"; Py.PStr "go"])])])) as T.
  destruct (CVMatcher.skills_match_try _ _) as [r|e] eqn:E.
  - destruct (T r eq_refl)
      as (rq & rs & ps & required & preferred & E1 & E2 & E3 & _ & _ & _ & _ & L & _).
    exists r, required. split; [reflexivity|]. split; [exact L|].
    vm_compute in E1. injection E1 as <-.
    vm_compute in E2. injection E2 as <-.
    vm_compute in E3. injection E3 as <-. reflexivity.
  - vm_compute in E. discriminate E.
Defined.

(** ** CVMatcher: confidence and recommendations *)

Section ReportFacts.
Import Py PyStr PyNum CVMatcher CVMatcherReport.
Local Open Scope Q_scope.

Variable float_of_str : string -> result pyfloat.

Lemma skills_advice_inv (lead : string) (missing : list hkey)
    (recommendations out : list string) :
  skills_advice lead missing recommendations = Ok out ->
  forall x, In x out -> In x recommendations \/ exists names, x = (lead ++ names)%string.
Proof.
  unfold skills_advice. destruct (negb (Nat.eqb (List.length missing) 0)).
  - destruct (join_items ", " missing) as [names|e]; cbn [rbind]; [|discriminate].
    intros [= <-] x Hx. apply in_app_or in Hx. destruct Hx as [Hx|[<-|[]]].
    + left. exact Hx.
    + right. exists names. reflexivity.
  - intros [= <-] x Hx. left. exact Hx.
Qed.

Lemma confidence_values (b1 b2 b3 b4 : bool) :
  let c := round2
    (inject_Z (Z.of_nat (List.length (filter (fun factor : bool => factor)
                                        [b1; b2; b3; b4])))
     / inject_Z (Z.of_nat (List.length [b1; b2; b3; b4])) * 100) in
  c == 0 \/ c == 25 \/ c == 50 \/ c == 75 \/ c == 100.
Proof.
  destruct b1, b2, b3, b4; cbv zeta;
    first [ left; reflexivity
          | right; left; reflexivity
          | right; right; left; reflexivity
          | right; right; right; left; reflexivity
          | right; right; right; right; reflexivity ].
Qed.

End ReportFacts.

(** X16. The confidence of a match is one of 0, 25, 50, 75 and 100 on
    every input: it counts which of four factors hold, and is 0 when the
    computation fails. *)
Theorem confidence_is_a_quarter_step
    (float_of_str : string -> Py.result CVMatcherReport.pyfloat)
    (cv_analysis job_analysis : Py.pyval) :
  let c := CVMatcherReport._calculate_confidence float_of_str cv_analysis job_analysis in
  (c == 0 \/ c == 25 \/ c == 50 \/ c == 75 \/ c == 100)%Q.
Proof.
  unfold CVMatcherReport._calculate_confidence, CVMatcherReport.confidence_try.
  assert (D : (0 == 0 \/ 0 == 25 \/ 0 == 50 \/ 0 == 75 \/ 0 == 100)%Q)
    by (left; reflexivity).
  repeat match goal with
  | |- context [Py.rbind ?m _] =>
      lazymatch m with
      | Py.rbind _ _ => fail
      | _ => destruct m; cbn [Py.rbind]; [|exact D]
      end
  end.
  apply confidence_values.
Qed.

(** ** WorkflowManager and DocumentProcessor *)

(** X17. A run of [process_application] that raises leaves the stage
    flags set in order up to the stage that failed: the document stage,
    then the analysis, then the optimization, then, only when a letter
    was asked for, the letter; the quality check is never set. *)
Theorem process_application_failure_flags
    (py_str : Py.pyval -> string)
    (process_document : string -> Py.result Py.pyval)
    (analyze_cv : Py.pyval -> Py.result Py.pyval)
    (analyze_job : string -> Py.result Py.pyval)
    (match_cv_to_job : Py.pyval -> string -> Py.result Py.pyval)
    (optimize_cv : Py.pyval -> string -> Py.result Py.pyval)
    (generate_cover_letter : Py.pyval -> string -> string -> Py.result Py.pyval)
    (assess_application_quality :
       Py.pyval -> Py.pyval -> string -> string -> option string -> Py.result Py.pyval)
    (cv_file_path job_description company_name : string) (industry : option string)
    (generate_letter : bool) (s0 s1 : Workflow.states) (e : Py.exn) :
  map fst s0 = map fst Workflow.initial_states ->
  Workflow.process_application py_str process_document analyze_cv analyze_job
    match_cv_to_job optimize_cv generate_cover_letter assess_application_quality
    cv_file_path job_description company_name industry generate_letter s0
    = (Py.Raise e, s1) ->
  In s1 (WorkflowInputs.failure_states generate_letter) /\
  Workflow.get_state "quality_check" s1 = Some false.
Proof.
  intros Hkeys Hrun.
  unfold Workflow.process_application, Workflow.wbind, Workflow.reset,
    Workflow.wlift, Workflow.mark, Workflow.status, Workflow.wret,
    Workflow.wraise in Hrun.
  rewrite (reset_initial s0 Hkeys) in Hrun.
  destruct generate_letter;
  repeat match type of Hrun with
         | context [Workflow.get_workflow_status ?s] =>
             let v := eval vm_compute in (Workflow.get_workflow_status s) in
             change (Workflow.get_workflow_status s) with v in Hrun
         | context [match ?x with _ => _ end] =>
             match x with
             | context [match _ with _ => _ end] => fail 1
             | _ => destruct x
             end
         end;
  try discriminate Hrun;
  injection Hrun as _ <-;
  (split; [cbn; tauto | reflexivity]).
Qed.

Lemma process_application_failure_flags_witness :
  In Workflow.initial_states (WorkflowInputs.failure_states true) /\
  Workflow.get_state "quality_check" Workflow.initial_states = Some false.
Proof.
  apply (process_application_failure_flags
           (fun _ => ""%string)
           (fun _ => Py.Raise Py.TypeError)
           (fun _ => Py.Raise Py.TypeError)
           (fun _ => Py.Raise Py.TypeError)
           (fun _ _ => Py.Raise Py.TypeError)
           (fun _ _ => Py.Raise Py.TypeError)
           (fun _ _ _ => Py.Raise Py.TypeError)
           (fun _ _ _ _ _ => Py.Raise Py.TypeError)
           "cv.pdf"%string "job"%string "company"%string None true
           Workflow.initial_states Workflow.initial_states Py.TypeError).
  - reflexivity.
  - reflexivity.
Defined.

Section DocumentFacts.
Import Py PyStr DocumentProcessor.
Local Open Scope string_scope.

Variable path_exists : string -> bool.
Variable _process_pdf _process_docx : string -> result (string * pyval).
Variable reader_message : exn -> string.

(** What [process_document] returns when the [try] block raises. *)
Lemma process_document_failure (file_path : string) (e : exn) :
  process_try path_exists _process_pdf _process_docx file_path = Raise e ->
  process_document path_exists _process_pdf _process_docx reader_message file_path =
    PDict [ ("success", PBool false); ("content", PNone); ("metadata", PNone);
            ("error", PStr ("Error processing document: " ++ message reader_message e)) ].
Proof. intros H. unfold process_document. rewrite H. reflexivity. Qed.

(** A supported extension selects its reader. *)
Lemma process_try_supported (file_path : string) :
  path_exists file_path = true ->
  in_list (lower (snd (splitext file_path))) supported_formats = true ->
  process_try path_exists _process_pdf _process_docx file_path =
    if eqb (lower (snd (splitext file_path))) ".pdf"
    then _process_pdf file_path else _process_docx file_path.
Proof.
  intros He Hf. unfold process_try. rewrite He, Hf. cbn [negb].
  destruct (eqb (lower (snd (splitext file_path))) ".pdf") eqn:P; [reflexivity|].
  unfold in_list, supported_formats in Hf. cbn [existsb] in Hf. rewrite P in Hf.
  cbn [orb] in Hf. unfold in_list. cbn [existsb]. rewrite Hf. reflexivity.
Qed.

End DocumentFacts.

(** X18. A CV file that does not exist, or whose extension is not one of
    the supported ones, stops the workflow at once: [process_document]
    reports the failure in its result, and [process_application] turns
    it into a [ValueError] carrying both messages, with no stage flag
    set, whatever the other components would do. *)
Theorem process_application_rejects_unreadable_cv
    (path_exists : string -> bool)
    (_process_pdf _process_docx : string -> Py.result (string * Py.pyval))
    (reader_message : Py.exn -> string)
    (py_str : Py.pyval -> string)
    (analyze_cv : Py.pyval -> Py.result Py.pyval)
    (analyze_job : string -> Py.result Py.pyval)
    (match_cv_to_job : Py.pyval -> string -> Py.result Py.pyval)
    (optimize_cv : Py.pyval -> string -> Py.result Py.pyval)
    (generate_cover_letter : Py.pyval -> string -> string -> Py.result Py.pyval)
    (assess_application_quality :
       Py.pyval -> Py.pyval -> string -> string -> option string -> Py.result Py.pyval)
    (cv_file_path job_description company_name : string) (industry : option string)
    (generate_letter : bool) (s0 : Workflow.states) :
  (forall s, py_str (Py.PStr s) = s) ->
  map fst s0 = map fst Workflow.initial_states ->
  let run :=
    Workflow.process_application py_str
      (fun p => Py.Ok (DocumentProcessor.process_document path_exists _process_pdf
                         _process_docx reader_message p))
      analyze_cv analyze_job match_cv_to_job optimize_cv generate_cover_letter
      assess_application_quality cv_file_path job_description company_name industry
      generate_letter s0 in
  let file_ext := PyStr.lower (snd (DocumentProcessor.splitext cv_file_path)) in
  (path_exists cv_file_path = false ->
   run = (Py.Raise (Py.ValueError
            ("Failed to process CV: Error processing document: File not found: "
             ++ cv_file_path)), Workflow.initial_states)) /\
  (path_exists cv_file_path = true ->
   PyStr.in_list file_ext DocumentProcessor.supported_formats = false ->
   run = (Py.Raise (Py.ValueError
            ("Failed to process CV: Error processing document: Unsupported file format: "
             ++ file_ext)), Workflow.initial_states)).
Proof.
  intros Hstr Hkeys run file_ext. subst run file_ext.
  unfold Workflow.process_application, Workflow.wbind, Workflow.reset,
    Workflow.wlift, Workflow.mark, Workflow.status, Workflow.wret, Workflow.wraise.
  rewrite (reset_initial s0 Hkeys).
  split.
  - intros He.
    rewrite (process_document_failure path_exists _process_pdf _process_docx
               reader_message cv_file_path
               (Py.Exception ("File not found: " ++ cv_file_path)))
      by (unfold DocumentProcessor.process_try; rewrite He; reflexivity).
    cbn [Py.py_item Py.dict_get String.eqb Ascii.eqb Bool.eqb Py.truthy negb
         DocumentProcessor.message].
    rewrite Hstr. reflexivity.
  - intros He Hf.
    rewrite (process_document_failure path_exists _process_pdf _process_docx
               reader_message cv_file_path
               (Py.ValueError ("Unsupported file format: "
                  ++ PyStr.lower (snd (DocumentProcessor.splitext cv_file_path)))))
      by (unfold DocumentProcessor.process_try; rewrite He, Hf; reflexivity).
    cbn [Py.py_item Py.dict_get String.eqb Ascii.eqb Bool.eqb Py.truthy negb
         DocumentProcessor.message].
    rewrite Hstr. reflexivity.
Qed.

Lemma process_application_rejects_unreadable_cv_witness :
  Workflow.process_application
    (fun v => match v with Py.PStr s => s | _ => ""%string end)
    (fun p => Py.Ok (DocumentProcessor.process_document
                       (fun _ => true)
                       (fun _ => Py.Raise Py.TypeError) (fun _ => Py.Raise Py.TypeError)
                       (fun _ => ""%string) p))
    (fun _ => Py.Raise Py.TypeError) (fun _ => Py.Raise Py.TypeError)
    (fun _ _ => Py.Raise Py.TypeError) (fun _ _ => Py.Raise Py.TypeError)
    (fun _ _ _ => Py.Raise Py.TypeError) (fun _ _ _ _ _ => Py.Raise Py.TypeError)
    "docs/my.cv.TXT"%string "job"%string "company"%string None true
    Workflow.initial_states
  = (Py.Raise (Py.ValueError
       "Failed to process CV: Error processing document: Unsupported file format: .txt"),
     Workflow.initial_states).
Proof.
  refine (proj2 (process_application_rejects_unreadable_cv
           (fun _ => true)
           (fun _ => Py.Raise Py.TypeError) (fun _ => Py.Raise Py.TypeError)
           (fun _ => ""%string)
           (fun v => match v with Py.PStr s => s | _ => ""%string end)
           (fun _ => Py.Raise Py.TypeError) (fun _ => Py.Raise Py.TypeError)
           (fun _ _ => Py.Raise Py.TypeError) (fun _ _ => Py.Raise Py.TypeError)
           (fun _ _ _ => Py.Raise Py.TypeError) (fun _ _ _ _ _ => Py.Raise Py.TypeError)
           "docs/my.cv.TXT"%string "job"%string "company"%string None true
           Workflow.initial_states _ _) _ _).
  - intros s. reflexivity.
  - reflexivity.
  - reflexivity.
  - reflexivity.
Defined.

(** X19. Inputs that [validate_inputs] accepts are inputs the document
    processor reads: the file exists, its extension is a supported one,
    so [process_document] hands it to the reader of its format (the PDF
    reader for [.pdf], the DOCX reader for [.docx] and [.doc]); the job
    description has at least 50 characters and the company name at least
    2, blanks at both ends not counted. *)
Theorem validate_inputs_accepts_readable_cv
    (path_exists : string -> bool)
    (_process_pdf _process_docx : string -> Py.result (string * Py.pyval))
    (cv_file_path job_description company_name : string) :
  WorkflowInputs.validate_inputs path_exists cv_file_path job_description company_name
    = (true, None) ->
  let file_ext := PyStr.lower (snd (DocumentProcessor.splitext cv_file_path)) in
  path_exists cv_file_path = true /\
  In file_ext [".pdf"; ".docx"; ".doc"]%string /\
  DocumentProcessor.process_try path_exists _process_pdf _process_docx cv_file_path =
    (if String.eqb file_ext ".pdf" then _process_pdf cv_file_path
     else _process_docx cv_file_path) /\
  (50 <= String.length (PyStr.strip job_description))%nat /\
  (2 <= String.length (PyStr.strip company_name))%nat.
Proof.
  intros H file_ext. subst file_ext. unfold WorkflowInputs.validate_inputs in H.
  destruct (path_exists cv_file_path) eqn:He; cbn [negb] in H; [|discriminate].
  destruct (PyStr.in_list (PyStr.lower (snd (DocumentProcessor.splitext cv_file_path)))
              WorkflowInputs.valid_formats) eqn:Hf; cbn [negb] in H; [|discriminate].
  destruct (negb (Py.truthy (Py.PStr job_description))
            || (String.length (PyStr.strip job_description) <? 50)%nat) eqn:Hj;
    [discriminate|].
  destruct (negb (Py.truthy (Py.PStr company_name))
            || (String.length (PyStr.strip company_name) <? 2)%nat) eqn:Hc;
    [discriminate|].
  apply orb_false_iff in Hj, Hc. destruct Hj as [_ Hj]. destruct Hc as [_ Hc].
  apply Nat.ltb_ge in Hj, Hc.
  split; [reflexivity|]. split.
  - unfold PyStr.in_list, WorkflowInputs.valid_formats in Hf. cbn [existsb] in Hf.
    repeat (apply orb_true_iff in Hf; destruct Hf as [Hf|Hf]);
      try discriminate Hf; apply String.eqb_eq in Hf; rewrite Hf; cbn; tauto.
  - split; [|split; assumption].
    apply process_try_supported; [exact He | exact Hf].
Qed.

Lemma validate_inputs_accepts_readable_cv_witness :
  In (PyStr.lower (snd (DocumentProcessor.splitext "uploads/.cache/Resume.v2.DOC")))
     [".pdf"; ".docx"; ".doc"]%string /\
  DocumentProcessor.process_try (fun _ => true)
    (fun _ => Py.Raise Py.TypeError) (fun p => Py.Ok (p, Py.PNone))
    "uploads/.cache/Resume.v2.DOC"
  = Py.Ok ("uploads/.cache/Resume.v2.DOC"%string, Py.PNone).
Proof.
  destruct (validate_inputs_accepts_readable_cv (fun _ => true)
              (fun _ => Py.Raise Py.TypeError) (fun p => Py.Ok (p, Py.PNone))
              "uploads/.cache/Resume.v2.DOC"
              "Senior engineer with experience in distributed systems wanted."
              "Acme" eq_refl) as (_ & I & T & _).
  split; [exact I | exact T].
Defined.

(** ** TextAnalyzer.extract_sections and CVAnalyzer.validate_ats_compliance *)

Section SectionFacts.
Import Py PyStr TextAnalyzer SectionsSpec.
Local Open Scope string_scope.

Lemma header_of_names (line name : string) :
  header_of line = Some name -> In name section_names.
Proof.
  unfold header_of. intros H.
  destruct (List.find _ section_patterns) as [entry|] eqn:F; [|discriminate].
  injection H as <-. apply find_some in F. destruct F as [F _].
  unfold section_names. apply in_map. exact F.
Qed.

Lemma dict_keys_set (k : string) (v : pyval) (d : dict) (x : string) :
  In x (dict_keys (dict_set k v d)) -> x = k \/ In x (dict_keys d).
Proof.
  unfold dict_keys. induction d as [|[k' v'] d IH]; cbn [dict_set map fst In].
  - intros [<-|[]]. left. reflexivity.
  - destruct (String.eqb k k') eqn:E; cbn [map fst In].
    + apply String.eqb_eq in E. subst k'. intros [<-|H]; [left; reflexivity|].
      right. right. exact H.
    + intros [<-|H]; [right; left; reflexivity|].
      destruct (IH H) as [->|H']; [left; reflexivity | right; right; exact H'].
Qed.

Lemma followed_header_more (name : string) (lines : list string) (line : string) :
  followed_header name lines -> followed_header name (lines ++ [line]).
Proof.
  intros (before & h & after & E & H & later & I & N).
  exists before, h, (after ++ [line])%list. split.
  - rewrite E, <- app_assoc. reflexivity.
  - split; [exact H|]. exists later. split; [apply in_or_app; left; exact I | exact N].
Qed.

Lemma scanned_start : scanned start [].
Proof. split; [intros name []|discriminate]. Qed.

Lemma scanned_step (st : scan) (lines : list string) (line : string) :
  scanned st lines -> scanned (scan_line st line) (lines ++ [line]).
Proof.
  intros [S C]. unfold scan_line.
  destruct (String.eqb (strip line) "") eqn:B.
  - split.
    + intros name H. apply followed_header_more. exact (S name H).
    + intros name H. destruct (C name H) as (before & h & after & E & Hh & L).
      exists before, h, (after ++ [line])%list. split.
      * rewrite E, <- app_assoc. reflexivity.
      * split; [exact Hh|]. intros N. destruct (L N) as (later & I & NB).
        exists later. split; [apply in_or_app; left; exact I | exact NB].
  - apply String.eqb_neq in B.
    destruct (header_of (strip line)) as [section_name|] eqn:Hd.
    + split; cbn [sections current_section current_content].
      * intros name H.
        assert (K : (exists c, current_section st = Some c /\ name = c)
                    \/ In name (dict_keys (sections st))).
        { destruct (current_section st) as [c|]; [|right; exact H].
          apply dict_keys_set in H. destruct H as [->|H]; [left|right; exact H].
          exists c. split; reflexivity. }
        destruct K as [(c & Ec & ->)|K]; [|apply followed_header_more; exact (S name K)].
        destruct (C c Ec) as (before & h & after & E & Hh & _).
        exists before, h, (after ++ [line])%list. split.
        -- rewrite E, <- app_assoc. reflexivity.
        -- split; [exact Hh|]. exists line.
           split; [apply in_or_app; right; left; reflexivity | exact B].
      * intros name [= <-]. exists lines, line, []. split; [reflexivity|].
        split; [exact Hd|]. intros N. exfalso. apply N. reflexivity.
    + destruct (current_section st) as [c|] eqn:Ec.
      * split; cbn [sections current_section current_content].
        -- intros name H. apply followed_header_more. exact (S name H).
        -- intros name H. destruct (C name H) as (before & h & after & E & Hh & _).
           exists before, h, (after ++ [line])%list. split.
           ++ rewrite E, <- app_assoc. reflexivity.
           ++ split; [exact Hh|]. intros _. exists line.
              split; [apply in_or_app; right; left; reflexivity | exact B].
      * split.
        -- intros name H. apply followed_header_more. exact (S name H).
        -- intros name H. rewrite Ec in H. discriminate H.
Qed.

Lemma scanned_fold (lines : list string) (st : scan) (read : list string) :
  scanned st read -> scanned (fold_left scan_line lines st) (read ++ lines).
Proof.
  revert st read. induction lines as [|line lines IH]; intros st read H.
  - rewrite app_nil_r. exact H.
  - cbn [fold_left].
    replace (read ++ line :: lines)%list with ((read ++ [line]) ++ lines)%list
      by (rewrite <- app_assoc; reflexivity).
    apply IH. apply scanned_step. exact H.
Qed.

Lemma finish_followed (st : scan) (lines : list string) (name : string) :
  scanned st lines -> In name (dict_keys (finish st)) -> followed_header name lines.
Proof.
  intros [S C]. unfold finish.
  destruct (current_section st) as [c|] eqn:Ec; [|apply S].
  destruct (current_content st) as [|x content] eqn:Ex; [apply S|].
  intros H. apply dict_keys_set in H. destruct H as [->|H]; [|exact (S name H)].
  destruct (C c eq_refl) as (before & h & after & E & Hh & L).
  exists before, h, after. split; [exact E|]. split; [exact Hh|].
  apply L. discriminate.
Qed.

(** The keys of the result are among the five section names. *)
Lemma extract_sections_names (text name : string) :
  In name (dict_keys (extract_sections text)) -> In name section_names.
Proof.
  intros H. unfold extract_sections in H.
  pose proof (scanned_fold (split_on newline text) start [] scanned_start) as Sc.
  cbn [app] in Sc.
  destruct (finish_followed _ _ _ Sc H) as (before & line & after & _ & Hh & _).
  exact (header_of_names _ _ Hh).
Qed.

End SectionFacts.

(** X20. [extract_sections] reports a section only under one of its five
    names, and only when the text has a header line for it that is
    followed by a later non-blank line: a header that ends the text, or
    that only blank lines follow, is not reported on its own account. *)
Theorem extract_sections_needs_followed_header (text name : string) :
  In name (Py.dict_keys (TextAnalyzer.extract_sections text)) ->
  In name TextAnalyzer.section_names /\
  exists before line after,
    TextAnalyzer.split_on TextAnalyzer.newline text = (before ++ line :: after)%list /\
    TextAnalyzer.header_of (PyStr.strip line) = Some name /\
    exists later, In later after /\ PyStr.strip later <> ""%string.
Proof.
  intros H. unfold TextAnalyzer.extract_sections in H.
  pose proof (scanned_fold (TextAnalyzer.split_on TextAnalyzer.newline text)
                TextAnalyzer.start [] scanned_start) as Sc.
  cbn [app] in Sc.
  destruct (finish_followed _ _ _ Sc H) as (before & line & after & E & Hh & L).
  split; [exact (header_of_names _ _ Hh)|].
  exists before, line, after. split; [exact E|]. split; [exact Hh | exact L].
Qed.

Lemma extract_sections_needs_followed_header_witness :
  In "skills"%string TextAnalyzer.section_names /\
  exists before line after,
    TextAnalyzer.split_on TextAnalyzer.newline
      (String.concat (String TextAnalyzer.newline "")
         ["Technical Skills:"; "Python, SQL"; ""; "Education"])%string
    = (before ++ line :: after)%list /\
    TextAnalyzer.header_of (PyStr.strip line) = Some "skills"%string /\
    exists later, In later after /\ PyStr.strip later <> ""%string.
Proof.
  apply (extract_sections_needs_followed_header
           (String.concat (String TextAnalyzer.newline "")
              ["Technical Skills:"; "Python, SQL"; ""; "Education"])%string
           "skills"%string).
  vm_compute. left. reflexivity.
Defined.

Section ComplianceFacts.
Import Py PyStr ATSRules StructureSpec TextAnalyzer.
Local Open Scope string_scope.

Lemma found_exists (section_type : string) (ns : list string) :
  found section_type ns = true <-> exists n, In n ns /\ found section_type [n] = true.
Proof.
  unfold found. rewrite existsb_exists. split.
  - intros (variant & Hv & Hx). apply existsb_exists in Hx.
    destruct Hx as (n & Hn & Hc). exists n. split; [exact Hn|].
    apply existsb_exists. exists variant. split; [exact Hv|].
    cbn [existsb]. rewrite Hc. reflexivity.
  - intros (n & Hn & Hf). apply existsb_exists in Hf.
    destruct Hf as (variant & Hv & Hc). exists variant. split; [exact Hv|].
    apply existsb_exists. exists n. split; [exact Hn|].
    cbn [existsb] in Hc. rewrite orb_false_r in Hc. exact Hc.
Qed.

(** Among the five names [extract_sections] reports, only the name of a
    category counts as a title of it. *)
Lemma found_section_name (section_type name : string) :
  In section_type ["education"; "skills"] -> In name section_names ->
  found section_type [_normalize_section_title name] = String.eqb name section_type.
Proof.
  intros Ht Hn. unfold section_names in Hn. cbn in Ht, Hn.
  destruct Ht as [<-|[<-|[]]];
    destruct Hn as [<-|[<-|[<-|[<-|[<-|[]]]]]]; vm_compute; reflexivity.
Qed.

Lemma found_keys (section_type : string) (keys : list string) :
  In section_type ["education"; "skills"] ->
  (forall k, In k keys -> In k section_names) ->
  (found section_type (map _normalize_section_title keys) = true <-> In section_type keys).
Proof.
  intros Ht Hk. rewrite found_exists. split.
  - intros (n & Hn & Hf). apply in_map_iff in Hn. destruct Hn as (k & <- & Ik).
    rewrite (found_section_name section_type k Ht (Hk k Ik)) in Hf.
    apply String.eqb_eq in Hf. subst k. exact Ik.
  - intros I. exists (_normalize_section_title section_type).
    split; [apply in_map; exact I|].
    rewrite (found_section_name section_type section_type Ht (Hk _ I)).
    apply String.eqb_refl.
Qed.

End ComplianceFacts.

(** X21. [validate_ats_compliance] always gives a format score of 100 and
    no format issue, since it checks a fixed format and size; the CV is
    compliant exactly when [extract_sections] reports both an education
    and a skills section, and each issue names one of the two as
    missing. *)
Theorem validate_ats_compliance_depends_on_two_sections (cv_text : string) :
  let r := CVAnalyzer.validate_ats_compliance cv_text in
  let keys := Py.dict_keys (TextAnalyzer.extract_sections cv_text) in
  CVAnalyzer.format_score r = 100%Z /\
  (CVAnalyzer.is_compliant r = true <->
   In "education"%string keys /\ In "skills"%string keys) /\
  CVAnalyzer.issues r =
    ((if in_dec string_dec "education"%string keys then []
      else ["Missing required section: education"%string])
     ++ (if in_dec string_dec "skills"%string keys then []
         else ["Missing required section: skills"%string]))%list.
Proof.
  cbv zeta. unfold CVAnalyzer.validate_ats_compliance.
  cbn [CVAnalyzer.format_score CVAnalyzer.is_compliant CVAnalyzer.issues].
  assert (V : ATSRules.valid (ATSRules.validate_format ".pdf" 5) = true) by reflexivity.
  assert (I : ATSRules.issues (ATSRules.validate_format ".pdf" 5) = []) by reflexivity.
  rewrite V, I, andb_true_r, app_nil_r.
  set (keys := Py.dict_keys (TextAnalyzer.extract_sections cv_text)).
  assert (Hk : forall k, In k keys -> In k TextAnalyzer.section_names).
  { intros k H. apply (extract_sections_names cv_text k H). }
  rewrite validate_structure_found. cbv zeta. cbn [ATSRules.valid ATSRules.issues].
  pose proof (found_keys "education" keys (or_introl eq_refl) Hk) as Fe.
  pose proof (found_keys "skills" keys (or_intror (or_introl eq_refl)) Hk) as Fs.
  split; [reflexivity|]. split.
  - rewrite andb_true_iff, Fe, Fs. reflexivity.
  - assert (D : forall t, In t ["education"; "skills"]%string ->
                StructureSpec.found t (map ATSRules._normalize_section_title keys) =
                  if in_dec string_dec t keys then true else false).
    { intros t Ht. pose proof (found_keys t keys Ht Hk) as F.
      destruct (in_dec string_dec t keys) as [It|Nt]; [apply F; exact It|].
      destruct (StructureSpec.found t _); [|reflexivity].
      exfalso. apply Nt, F. reflexivity. }
    rewrite (D "education"%string (or_introl eq_refl)).
    rewrite (D "skills"%string (or_intror (or_introl eq_refl))).
    destruct (in_dec string_dec "education"%string keys);
      destruct (in_dec string_dec "skills"%string keys); reflexivity.
Qed.

(** ** JobAnalyzer *)

Section JobFacts.
Import Py PyStr JobAnalyzer.
Local Open Scope string_scope.

Variable extract_keywords : string -> pyval.
Variable structured_completion : string -> result pyval.

Lemma py_len_nonneg (v : pyval) (n : Z) : py_len v = Ok n -> (0 <= n)%Z.
Proof. destruct v; cbn; try discriminate; intros [= <-]; lia. Qed.

Lemma complexity_score_range (analysis : pyval) (score : Z) :
  _calculate_complexity_score analysis = Ok score ->
  exists k, score = (10 * k)%Z /\ (1 <= k <= 10)%Z.
Proof.
  unfold _calculate_complexity_score.
  destruct (py_item analysis "requirements") as [rq|e]; cbn [rbind]; [|discriminate].
  destruct (py_item rq "technical_skills") as [ts|e]; cbn [rbind]; [|discriminate].
  destruct (py_len ts) as [n|e] eqn:L; cbn [rbind]; [|discriminate].
  destruct (py_item rq "experience") as [ex|e]; cbn [rbind]; [|discriminate].
  destruct (py_lower ex) as [exl|e]; cbn [rbind]; [|discriminate].
  destruct (py_item rq "education") as [ed|e]; cbn [rbind]; [|discriminate].
  destruct (py_lower ed) as [edl|e]; cbn [rbind]; [|discriminate].
  apply py_len_nonneg in L.
  intros [= <-].
  assert (M : exists j, Z.min (n * 10) 40 = (10 * j)%Z /\ (0 <= j <= 4)%Z).
  { destruct (Z.min_spec (n * 10) 40) as [[A ->]|[A ->]]; [exists n | exists 4%Z]; lia. }
  destruct M as (j & -> & Hj).
  destruct (contains "senior" exl || contains "lead" exl);
    [|destruct (contains "mid" exl || contains "3" exl)];
    (destruct (contains "phd" edl || contains "doctorate" edl);
     [|destruct (contains "master" edl || contains "msc" edl);
       [|destruct (contains "bachelor" edl || contains "bsc" edl)]]);
    match goal with
    | |- exists k, Z.min ?x 100 = _ /\ _ => rewrite (Z.min_l x 100) by lia
    end;
    first [ exists (j + 1)%Z; lia | exists (j + 2)%Z; lia | exists (j + 3)%Z; lia
          | exists (j + 4)%Z; lia | exists (j + 5)%Z; lia | exists (j + 6)%Z; lia ].
Qed.

(** What [analyze_job] returns: the combined analysis and its score. *)
Lemma analyze_job_inv (job_description : string) (job : pyval) :
  analyze_job extract_keywords structured_completion job_description = Ok job ->
  exists required_skills preferred_skills technical_skills soft_skills experience
         education job_details company_culture score,
    let requirements :=
      PDict [ ("required_skills", required_skills);
              ("preferred_skills", preferred_skills);
              ("technical_skills", technical_skills);
              ("soft_skills", soft_skills);
              ("experience", experience);
              ("education", education) ] in
    job = PDict [ ("requirements", requirements); ("job_details", job_details);
                  ("company_culture", company_culture);
                  ("complexity_score", PInt score) ] /\
    _calculate_complexity_score
      (PDict [ ("requirements", requirements); ("job_details", job_details);
               ("company_culture", company_culture) ]) = Ok score.
Proof.
  unfold analyze_job.
  destruct (structured_completion job_description) as [llm|e]; cbn [rbind];
    [|discriminate].
  repeat match goal with
  | |- context [rbind (py_get ?a ?k ?d) _] =>
      destruct (py_get a k d); cbn [rbind]; [|discriminate]
  end.
  match goal with
  | |- context [rbind (_calculate_complexity_score ?a) _] =>
      destruct (_calculate_complexity_score a) as [score|e] eqn:C; cbn [rbind];
        [|discriminate]
  end.
  intros [= <-]. do 9 eexists. cbv zeta. split; [reflexivity | exact C].
Qed.

End JobFacts.

(** X22. Every job analysis that [analyze_job] returns carries a
    complexity score that is a multiple of 10 between 10 and 100, and
    states its requirements under six keys, [experience] among them and
    [experience_years] not. *)
Theorem analyze_job_complexity_score
    (extract_keywords : string -> Py.pyval)
    (structured_completion : string -> Py.result Py.pyval)
    (job_description : string) (job : Py.pyval) :
  JobAnalyzer.analyze_job extract_keywords structured_completion job_description
    = Py.Ok job ->
  (exists k, Py.py_item job "complexity_score" = Py.Ok (Py.PInt (10 * k))
             /\ (1 <= k <= 10)%Z) /\
  (exists requirements,
     Py.py_item job "requirements" = Py.Ok (Py.PDict requirements) /\
     Py.dict_keys requirements =
       ["required_skills"; "preferred_skills"; "technical_skills"; "soft_skills";
        "experience"; "education"]%string).
Proof.
  intros H. apply analyze_job_inv in H.
  destruct H as (rs & ps & ts & ss & ex & ed & jd & cc & score & -> & C).
  apply complexity_score_range in C. destruct C as (k & -> & Hk).
  split.
  - exists k. split; [reflexivity | exact Hk].
  - eexists. split; reflexivity.
Qed.

Lemma analyze_job_complexity_score_witness :
  exists k,
    Py.py_item
      (Py.PDict
         [ ("requirements"%string,
             Py.PDict [ ("required_skills"%string, Py.PList [Py.PStr "python"]);
                        ("preferred_skills"%string, Py.PList []);
                        ("technical_skills"%string,
                          Py.PList [Py.PStr "python"; Py.PStr "sql"]);
                        ("soft_skills"%string, Py.PList []);
                        ("experience"%string, Py.PStr "Senior, 5+ years");
                        ("education"%string, Py.PStr "") ]);
           ("job_details"%string,
             Py.PDict [ ("responsibilities"%string, Py.PList []);
                        ("seniority_level"%string, Py.PStr "Not specified");
                        ("key_terms"%string, Py.PList []) ]);
           ("company_culture"%string,
             Py.PDict [ ("indicators"%string, Py.PList []);
                        ("benefits"%string, Py.PList []) ]);
           ("complexity_score"%string, Py.PInt 50) ])
      "complexity_score" = Py.Ok (Py.PInt (10 * k)) /\ (1 <= k <= 10)%Z.
Proof.
  refine (proj1 (analyze_job_complexity_score
    (fun _ => Py.PDict [ ("technical_terms"%string,
                           Py.PList [Py.PStr "python"; Py.PStr "sql"]);
                         ("action_verbs"%string, Py.PList []);
                         ("nouns"%string, Py.PList []) ])
    (fun _ => Py.Ok (Py.PDict [ ("required_skills"%string, Py.PList [Py.PStr "python"]);
                                ("experience_level"%string,
                                  Py.PStr "Senior, 5+ years") ]))
    "Senior Python developer"%string _ _)).
  reflexivity.
Defined.

(** X23. [analyze_job] raises [AttributeError] when the model states the
    experience level, or with a string experience level the education
    requirements, as anything but a string, for instance a number of
    years: the complexity score lowercases both. *)
Theorem analyze_job_needs_string_levels
    (extract_keywords : string -> Py.pyval)
    (structured_completion : string -> Py.result Py.pyval)
    (job_description : string) (llm_analysis : Py.dict)
    (technical_terms action_verbs nouns : list Py.pyval) :
  extract_keywords job_description =
    Py.PDict [ ("technical_terms"%string, Py.PList technical_terms);
               ("action_verbs"%string, Py.PList action_verbs);
               ("nouns"%string, Py.PList nouns) ] ->
  structured_completion job_description = Py.Ok (Py.PDict llm_analysis) ->
  (exists v, Py.dict_get "experience_level" llm_analysis = Some v /\
             forall s, v <> Py.PStr s) \/
  ((exists s, Py.py_get (Py.PDict llm_analysis) "experience_level" (Py.PStr "")
              = Py.Ok (Py.PStr s)) /\
   exists v, Py.dict_get "education_requirements" llm_analysis = Some v /\
             forall s, v <> Py.PStr s) ->
  JobAnalyzer.analyze_job extract_keywords structured_completion job_description
    = Py.Raise Py.AttributeError.
Proof.
  intros Hb Hl Hbad. unfold JobAnalyzer.analyze_job. rewrite Hb, Hl.
  cbn [Py.rbind Py.py_get Py.dict_get String.eqb Ascii.eqb Bool.eqb].
  unfold JobAnalyzer._calculate_complexity_score.
  cbn [Py.rbind Py.py_item Py.dict_get String.eqb Ascii.eqb Bool.eqb
       JobAnalyzer.py_len].
  destruct Hbad as [(v & Hv & Hn)|((s & Hs) & v & Hv & Hn)].
  - rewrite Hv. destruct v; cbn [JobAnalyzer.py_lower Py.rbind]; try reflexivity.
    exfalso. exact (Hn _ eq_refl).
  - cbn [Py.py_get] in Hs. injection Hs as Hs. rewrite Hs, Hv.
    cbn [JobAnalyzer.py_lower Py.rbind].
    destruct v; cbn [JobAnalyzer.py_lower Py.rbind]; try reflexivity.
    exfalso. exact (Hn _ eq_refl).
Qed.

Lemma analyze_job_needs_string_levels_witness :
  JobAnalyzer.analyze_job
    (fun _ => Py.PDict [ ("technical_terms"%string, Py.PList []);
                         ("action_verbs"%string, Py.PList []);
                         ("nouns"%string, Py.PList []) ])
    (fun _ => Py.Ok (Py.PDict [ ("experience_level"%string, Py.PInt 5) ]))
    "Developer with five years of experience"%string
  = Py.Raise Py.AttributeError.
Proof.
  apply (analyze_job_needs_string_levels
           (fun _ => Py.PDict [ ("technical_terms"%string, Py.PList []);
                                ("action_verbs"%string, Py.PList []);
                                ("nouns"%string, Py.PList []) ])
           (fun _ => Py.Ok (Py.PDict [ ("experience_level"%string, Py.PInt 5) ]))
           "Developer with five years of experience"%string
           [ ("experience_level"%string, Py.PInt 5) ] [] [] []).
  - reflexivity.
  - reflexivity.
  - left. exists (Py.PInt 5). split; [reflexivity|]. intros s. discriminate.
Defined.

(** X24. The advice to highlight more work experience is governed by the
    key [experience_years], which no job analysis of [analyze_job] has
    and which the experience match does not read: against such an
    analysis the advice is given only for a CV whose years extract to a
    negative number, whatever experience the job requires. *)
Theorem experience_advice_ignores_experience_requirement
    (float_of_str : string -> Py.result CVMatcherReport.pyfloat)
    (extract_keywords : string -> Py.pyval)
    (structured_completion : string -> Py.result Py.pyval)
    (job_description : string)
    (cv_analysis job_analysis : Py.pyval) (skills_match : CVMatcher.skills_match_t) :
  JobAnalyzer.analyze_job extract_keywords structured_completion job_description
    = Py.Ok job_analysis ->
  In CVMatcherReport.experience_advice
     (CVMatcherReport._generate_recommendations float_of_str cv_analysis
        job_analysis skills_match) ->
  exists experience years,
    Py.py_get cv_analysis "experience" (Py.PDict []) = Py.Ok experience /\
    Py.py_get experience "years" (Py.PInt 0) = Py.Ok years /\
    (CVMatcher._extract_years years < 0)%Z.
Proof.
  intros Hjob. apply analyze_job_inv in Hjob.
  destruct Hjob as (rs & ps & ts & ss & exq & ed & jd & cc & score & -> & _).
  unfold CVMatcherReport._generate_recommendations, CVMatcherReport.recommendations_try.
  destruct (CVMatcherReport.skills_advice "Add experience with: " _ [])
    as [r1|e] eqn:E1; cbn [Py.rbind]; [|intros []].
  destruct (CVMatcherReport.skills_advice "Consider adding experience with: " _ r1)
    as [r2|e] eqn:E2; cbn [Py.rbind]; [|intros []].
  destruct (Py.py_get cv_analysis "experience" (Py.PDict [])) as [ex|e] eqn:G1;
    cbn [Py.rbind]; [|intros []].
  destruct (Py.py_get ex "years" (Py.PInt 0)) as [y|e] eqn:G2; cbn [Py.rbind];
    [|intros []].
  cbn [Py.py_get Py.dict_get String.eqb Ascii.eqb Bool.eqb Py.rbind
       CVMatcher._extract_years].
  destruct (Py.py_get cv_analysis "ats_compliance" (Py.PDict [])) as [ats|e];
    cbn [Py.rbind]; [|intros []].
  destruct (Py.py_get ats "format_score" (Py.PInt 0)) as [fs|e]; cbn [Py.rbind];
    [|intros []].
  destruct (CVMatcherReport.py_float float_of_str fs) as [f|e]; cbn [Py.rbind];
    [|intros []].
  intros H.
  assert (S : forall x, In x r2 -> x <> CVMatcherReport.experience_advice).
  { intros x Hx. destruct (skills_advice_inv _ _ _ _ E2 x Hx) as [Hx1|[names ->]].
    - destruct (skills_advice_inv _ _ _ _ E1 x Hx1) as [[]|[names ->]]. discriminate.
    - discriminate. }
  exists ex, y. split; [reflexivity|]. split; [exact G2|].
  destruct (CVMatcher._extract_years y <? 0)%Z eqn:L; [apply Z.ltb_lt; exact L|].
  exfalso.
  destruct (CVMatcherReport.float_lt f 80).
  - apply in_app_or in H. destruct H as [H|[H|[]]].
    + exact (S _ H eq_refl).
    + discriminate H.
  - exact (S _ H eq_refl).
Qed.

Lemma experience_advice_ignores_experience_requirement_witness :
  exists experience years,
    Py.py_get (Py.PDict [("experience"%string,
                          Py.PDict [("years"%string, Py.PInt (-2))])])
      "experience" (Py.PDict []) = Py.Ok experience /\
    Py.py_get experience "years" (Py.PInt 0) = Py.Ok years /\
    (CVMatcher._extract_years years < 0)%Z.
Proof.
  refine (experience_advice_ignores_experience_requirement
           (fun _ => Py.Raise (Py.ValueError "could not convert string to float"))
           (fun _ => Py.PDict [ ("technical_terms"%string, Py.PList []);
                                ("action_verbs"%string, Py.PList []);
                                ("nouns"%string, Py.PList []) ])
           (fun _ => Py.Ok (Py.PDict [ ("experience_level"%string,
                                         Py.PStr "5 years") ]))
           "Developer"%string
           (Py.PDict [("experience"%string,
                       Py.PDict [("years"%string, Py.PInt (-2))])])
           _
           {| CVMatcher.sm_score := 0; CVMatcher.matched_required := [];
              CVMatcher.matched_preferred := []; CVMatcher.missing_required := [];
              CVMatcher.missing_preferred := [] |} _ _).
  - reflexivity.
  - vm_compute. left. reflexivity.
Defined.

(** ** ATSValidator *)

Section ValidatorFacts.
Import Py PyStr PyNum Quality ATSValidator.
Local Open Scope string_scope.

(** The structure check is a dictionary with a numeric score and a list
    of issues. *)
Lemma validate_structure_check (cv_text : string) :
  exists (valid : bool) (issues : list string),
    _validate_structure cv_text =
      PDict [ ("score", PInt (if valid then 100 else 50));
              ("issues", PList (map PStr issues));
              ("passes_validation", PBool valid) ] /\
    valid = ATSRules.valid (ATSRules.validate_structure (split_paragraphs cv_text)).
Proof. eexists. eexists. split; reflexivity. Qed.

Variable get_structured_completion :
  string -> Gateway.schema -> option string -> result pyval.

Lemma item_of_non_dict (a : pyval) (k : string) :
  is_dict a = false -> py_item a k = Raise TypeError.
Proof. destruct a; cbn; intros H; [reflexivity .. | discriminate H]. Qed.

(** The format check fails when the answer is not a dictionary. *)
Lemma validate_format_failed (cv_text : string) :
  (forall a,
     get_structured_completion (format_prompt cv_text) format_schema
       (Some "ats_validation") = Ok a -> is_dict a = false) ->
  _validate_format get_structured_completion cv_text = failed_check.
Proof.
  intros H. unfold _validate_format.
  destruct (get_structured_completion _ _ _) as [a|e]; cbn [rbind]; [|reflexivity].
  rewrite (item_of_non_dict a _ (H a eq_refl)). reflexivity.
Qed.

(** The keyword check fails when the answer is not a dictionary or its
    placement score is not a number. *)
Lemma validate_keywords_failed (cv_text job_description : string) :
  (forall a,
     get_structured_completion (keyword_prompt cv_text job_description) keyword_schema
       (Some "keyword_validation") = Ok a ->
     is_dict a = false \/
     exists v, py_item a "keyword_placement_score" = Ok v /\
               number v = Raise TypeError) ->
  _validate_keywords get_structured_completion cv_text job_description
    = failed_keyword_check.
Proof.
  intros H. unfold _validate_keywords.
  destruct (get_structured_completion _ _ _) as [a|e]; cbn [rbind]; [|reflexivity].
  destruct (H a eq_refl) as [D | (v & I & N)].
  - rewrite (item_of_non_dict a _ D). reflexivity.
  - rewrite I. cbn [rbind].
    destruct (py_item a "keyword_matches"); cbn [rbind]; [|reflexivity].
    destruct (py_item a "missing_keywords"); cbn [rbind]; [|reflexivity].
    unfold Coordinator.py_ge. rewrite N. reflexivity.
Qed.

(** The content check fails when the answer is not a dictionary or its
    clarity score is not a number. *)
Lemma validate_content_failed (cv_text job_description : string) :
  (forall a,
     get_structured_completion (content_prompt cv_text job_description) content_schema
       (Some "content_validation") = Ok a ->
     is_dict a = false \/
     exists v, py_item a "content_clarity" = Ok v /\ number v = Raise TypeError) ->
  _validate_content get_structured_completion cv_text job_description = failed_check.
Proof.
  intros H. unfold _validate_content.
  destruct (get_structured_completion _ _ _) as [a|e]; cbn [rbind]; [|reflexivity].
  destruct (H a eq_refl) as [D | (v & I & N)].
  - rewrite (item_of_non_dict a _ D). reflexivity.
  - rewrite I. cbn [rbind].
    destruct (py_item a "bullet_point_quality"); cbn [rbind]; [|reflexivity].
    destruct (py_item a "achievement_focus"); cbn [rbind]; [|reflexivity].
    rewrite N. reflexivity.
Qed.

End ValidatorFacts.

(** X25. [validate_cv] raises [TypeError] when the format analysis comes
    back with a format score that is not a number, as in the default
    response the OpenAI handler substitutes for an answer it cannot
    parse: the check itself accepts the value, and the overall score
    then multiplies it by a weight. *)
Theorem validate_cv_raises_on_malformed_format_score
    (get_structured_completion :
       string -> Gateway.schema -> option string -> Py.result Py.pyval)
    (dict_slice_error : Py.exn)
    (cv_text job_description : string)
    (format_analysis score issues passes : Py.pyval) :
  get_structured_completion (ATSValidator.format_prompt cv_text)
    ATSValidator.format_schema (Some "ats_validation"%string) = Py.Ok format_analysis ->
  Py.py_item format_analysis "format_score" = Py.Ok score ->
  Py.py_item format_analysis "formatting_issues" = Py.Ok issues ->
  Py.py_item format_analysis "is_clean_format" = Py.Ok passes ->
  Quality.number score = Py.Raise Py.TypeError ->
  ATSValidator.validate_cv get_structured_completion dict_slice_error
    cv_text job_description = Py.Raise Py.TypeError.
Proof.
  intros Hc Hs Hi Hp Hn.
  unfold ATSValidator.validate_cv, ATSValidator._calculate_overall_score.
  unfold ATSValidator.weighted_score at 1.
  unfold ATSValidator._validate_format. rewrite Hc. cbn [Py.rbind].
  rewrite Hs, Hi, Hp.
  cbn [Py.rbind Py.py_item Py.dict_get String.eqb Ascii.eqb Bool.eqb].
  rewrite Hn. reflexivity.
Qed.

Lemma validate_cv_raises_on_malformed_format_score_witness :
  ATSValidator.validate_cv
    (fun _ output_schema _ => Py.Ok (Gateway.default_response output_schema))
    Py.TypeError "Education: MIT"%string "Engineer wanted"%string
  = Py.Raise Py.TypeError.
Proof.
  apply (validate_cv_raises_on_malformed_format_score
           (fun _ output_schema _ => Py.Ok (Gateway.default_response output_schema))
           Py.TypeError "Education: MIT"%string "Engineer wanted"%string
           (Gateway.default_response ATSValidator.format_schema)
           (Py.PStr "") (Py.PList []) (Py.PStr "")); reflexivity.
Defined.

(** X26. When none of the three answers of the model is usable,
    [validate_cv] still returns: if the answer about the format is not a
    dictionary, and the answers about the keywords and the content are
    not dictionaries or hold a placement score, respectively a clarity
    score, that is not a number (as in the default response the OpenAI
    handler substitutes for a reply it cannot parse), or the calls
    raise, then the three checks that ask the model score 0, the overall
    score is the structure check's share, 20 when the text passes the
    structure rules and 10 otherwise, and the CV is reported as not
    compliant. *)
Theorem validate_cv_without_model
    (get_structured_completion :
       string -> Gateway.schema -> option string -> Py.result Py.pyval)
    (dict_slice_error : Py.exn)
    (cv_text job_description : string) :
  (forall a,
     get_structured_completion (ATSValidator.format_prompt cv_text)
       ATSValidator.format_schema (Some "ats_validation"%string) = Py.Ok a ->
     Py.is_dict a = false) ->
  (forall a,
     get_structured_completion (ATSValidator.keyword_prompt cv_text job_description)
       ATSValidator.keyword_schema (Some "keyword_validation"%string) = Py.Ok a ->
     Py.is_dict a = false \/
     exists v, Py.py_item a "keyword_placement_score" = Py.Ok v /\
               Quality.number v = Py.Raise Py.TypeError) ->
  (forall a,
     get_structured_completion (ATSValidator.content_prompt cv_text job_description)
       ATSValidator.content_schema (Some "content_validation"%string) = Py.Ok a ->
     Py.is_dict a = false \/
     exists v, Py.py_item a "content_clarity" = Py.Ok v /\
               Quality.number v = Py.Raise Py.TypeError) ->
  exists r overall_score,
    ATSValidator.validate_cv get_structured_completion dict_slice_error
      cv_text job_description = Py.Ok r /\
    Py.py_item r "overall_score" = Py.Ok (Py.PFloat overall_score) /\
    (overall_score ==
       if ATSRules.valid
            (ATSRules.validate_structure (ATSValidator.split_paragraphs cv_text))
       then 20 else 10)%Q /\
    Py.py_item r "is_ats_compliant" = Py.Ok (Py.PBool false).
Proof.
  intros Hf Hk Hc.
  unfold ATSValidator.validate_cv.
  rewrite (validate_format_failed get_structured_completion cv_text Hf).
  rewrite (validate_keywords_failed get_structured_completion cv_text job_description Hk).
  rewrite (validate_content_failed get_structured_completion cv_text job_description Hc).
  destruct (validate_structure_check cv_text) as (valid & issues & -> & <-).
  unfold ATSValidator._calculate_overall_score, ATSValidator.weighted_score,
    ATSValidator.failed_check, ATSValidator.failed_keyword_check.
  cbn [Py.rbind Py.py_item Py.dict_get String.eqb Ascii.eqb Bool.eqb Quality.number].
  unfold ATSValidator._identify_critical_issues, ATSValidator.critical_from,
    ATSValidator.first_three, ATSValidator._generate_suggestions,
    ATSValidator.suggestion.
  cbn [Py.rbind Py.py_item Py.dict_get String.eqb Ascii.eqb Bool.eqb Py.truthy negb
       Coordinator.py_iter firstn ATSValidator.strings_of].
  destruct valid; cbn [Py.truthy negb Py.rbind Coordinator.py_iter];
    (eexists; eexists; split; [reflexivity|];
     cbn [Py.py_item Py.dict_get String.eqb Ascii.eqb Bool.eqb];
     split; [reflexivity|]; split; reflexivity).
Qed.

Lemma validate_cv_without_model_witness :
  exists r overall_score,
    ATSValidator.validate_cv ValidatorSamples.manager
      Py.TypeError "Education: MIT"%string "Engineer wanted"%string = Py.Ok r /\
    Py.py_item r "overall_score" = Py.Ok (Py.PFloat overall_score) /\
    (overall_score == 10)%Q.
Proof.
  destruct (validate_cv_without_model ValidatorSamples.manager
              Py.TypeError "Education: MIT"%string "Engineer wanted"%string)
    as (r & o & E & I & S & _).
  - intros a H. vm_compute in H. injection H as <-. reflexivity.
  - intros a H. right. vm_compute in H. injection H as <-.
    exists (Py.PStr ""). split; reflexivity.
  - intros a H. right. vm_compute in H. injection H as <-.
    exists (Py.PStr ""). split; reflexivity.
  - exists r, o. split; [exact E|]. split; [exact I|exact S].
Defined.

Section ValidatorResultFacts.
Import Py PyStr PyNum Quality ATSValidator.
Local Open Scope string_scope.

Variable get_structured_completion :
  string -> Gateway.schema -> option string -> result pyval.
Variable dict_slice_error : exn.

(** The entries of a result of [validate_cv]. *)
Lemma validate_cv_inv (cv_text job_description : string) (r : pyval) :
  validate_cv get_structured_completion dict_slice_error cv_text job_description
    = Ok r ->
  exists overall_score details critical_issues improvement_suggestions,
    r = PDict [ ("overall_score", PFloat overall_score);
                ("is_ats_compliant", PBool (geb overall_score 75));
                ("validation_details", details);
                ("critical_issues", PList critical_issues);
                ("improvement_suggestions", PList improvement_suggestions) ].
Proof.
  unfold validate_cv.
  destruct (_calculate_overall_score _) as [o|e]; cbn [rbind]; [|discriminate].
  destruct (_identify_critical_issues _ _) as [ci|e]; cbn [rbind]; [|discriminate].
  destruct (_generate_suggestions _) as [sg|e]; cbn [rbind]; [|discriminate].
  intros [= <-]. do 4 eexists. reflexivity.
Qed.

End ValidatorResultFacts.

(** X27. The coordinator looks for the ATS recommendations under the key
    [recommendations], which no result of [validate_cv] has: whatever
    the ATS score and the suggestions of the validator, the
    recommendations of a quality report hold the remarks on the CV and
    on the letter only. *)
Theorem coordinator_drops_ats_suggestions
    (get_structured_completion :
       string -> Gateway.schema -> option string -> Py.result Py.pyval)
    (dict_slice_error : Py.exn)
    (cv_text job_description : string) (ats_results : Py.pyval)
    (c l : Q) (cv_areas letter_needed : list Py.pyval) :
  ATSValidator.validate_cv get_structured_completion dict_slice_error
    cv_text job_description = Py.Ok ats_results ->
  Py.py_get ats_results "recommendations" (Py.PList []) = Py.Ok (Py.PList []) /\
  Coordinator._generate_recommendations ats_results
    (Coordinator.result_with c "improvement_areas" cv_areas)
    (Coordinator.result_with l "improvement_needed" letter_needed)
  = Py.Ok
      {| Coordinator.high_priority :=
           (if PyNum.ltb c 60 then cv_areas else [])
           ++ (if PyNum.ltb l 60 then letter_needed else []);
         Coordinator.medium_priority :=
           (if PyNum.ltb c 75 && negb (PyNum.ltb c 60) then cv_areas else [])
           ++ (if PyNum.ltb l 75 && negb (PyNum.ltb l 60) then letter_needed else []);
         Coordinator.low_priority := [] |}.
Proof.
  intros H. apply validate_cv_inv in H.
  destruct H as (o & details & ci & sg & ->).
  split; [reflexivity|].
  assert (F60 : forall x, PyNum.ltb x 60 = true -> PyNum.ltb x 75 = true).
  { intros x H. apply ltb_true_iff in H. apply ltb_true_iff. lra. }
  unfold Coordinator._generate_recommendations.
  cbn [Coordinator.th_ats_compliance Coordinator.th_cv_quality
       Coordinator.th_letter_quality Coordinator.quality_thresholds].
  unfold Coordinator.py_lt at 1. unfold Coordinator.extend_from.
  cbn [Py.py_item Py.dict_get String.eqb Ascii.eqb Bool.eqb Py.rbind Quality.number
       Py.py_get Coordinator.py_iter Coordinator.high_priority
       Coordinator.medium_priority Coordinator.low_priority app].
  assert (R :
    Py.rbind (Coordinator.by_band
                (Coordinator.result_with c "improvement_areas" cv_areas)
                "improvement_areas" 75
                {| Coordinator.high_priority := [];
                   Coordinator.medium_priority := [];
                   Coordinator.low_priority := [] |})
      (fun r => Coordinator.by_band
                  (Coordinator.result_with l "improvement_needed" letter_needed)
                  "improvement_needed" 75 r)
    = Py.Ok
        {| Coordinator.high_priority :=
             (if PyNum.ltb c 60 then cv_areas else [])
             ++ (if PyNum.ltb l 60 then letter_needed else []);
           Coordinator.medium_priority :=
             (if PyNum.ltb c 75 && negb (PyNum.ltb c 60) then cv_areas else [])
             ++ (if PyNum.ltb l 75 && negb (PyNum.ltb l 60) then letter_needed else []);
           Coordinator.low_priority := [] |}).
  { rewrite by_band_result_with by discriminate. cbn [Py.rbind].
    rewrite by_band_result_with by discriminate.
    cbn [Coordinator.high_priority Coordinator.medium_priority
         Coordinator.low_priority app].
    destruct (PyNum.ltb c 60) eqn:C60; [rewrite (F60 c C60)|rewrite andb_false_r];
    (destruct (PyNum.ltb l 60) eqn:L60; [rewrite (F60 l L60)|rewrite andb_false_r]);
    cbn [andb negb]; reflexivity. }
  destruct (PyNum.ltb o 75); cbn [Py.rbind]; exact R.
Qed.

Lemma coordinator_drops_ats_suggestions_witness :
  exists ats_results,
    ATSValidator.validate_cv ValidatorSamples.manager
      Py.TypeError "Education: MIT"%string "Engineer wanted"%string = Py.Ok ats_results /\
    Py.py_item ats_results "improvement_suggestions" =
      Py.Ok (Py.PList
        [ Py.PStr "Improve CV formatting for better ATS readability";
          Py.PStr "Add missing relevant keywords from job description";
          Py.PStr "Reorganize CV sections following standard ATS format";
          Py.PStr "Enhance content clarity and achievement descriptions" ]) /\
    Coordinator._generate_recommendations ats_results
      (Coordinator.result_with 80 "improvement_areas" [Py.PStr "Quantify results"])
      (Coordinator.result_with 90 "improvement_needed" [])
    = Py.Ok {| Coordinator.high_priority := [];
               Coordinator.medium_priority := [];
               Coordinator.low_priority := [] |}.
Proof.
  pose proof (coordinator_drops_ats_suggestions ValidatorSamples.manager
    Py.TypeError "Education: MIT"%string "Engineer wanted"%string) as T.
  destruct (ATSValidator.validate_cv _ _ _ _) as [ats|e] eqn:E.
  - exists ats. split; [reflexivity|].
    destruct (T ats 80%Q 90%Q [Py.PStr "Quantify results"] [] eq_refl) as [_ R].
    split; [|exact R].
    vm_compute in E. injection E as <-. reflexivity.
  - vm_compute in E. discriminate E.
Defined.
